(** * Profile-matching service: a shallow embedding and its properties

    The repository is a FastAPI facade ([main.py]) over a vector database
    wrapper ([vector_db.py]) and an embedding service ([embedding_service.py]),
    with pydantic request and response schemas ([models.py]).

    The collaborators that are not part of the repository are interfaces
    here (type classes): the sentence transformer model, the ChromaDB
    collection, Python's [datetime], the BLAS routine behind [np.dot] and
    pydantic's conversion of a value to the type of a field.  The service
    code is written once over the interfaces, and a reference instance of
    each is given to run the code on concrete inputs.

    Python's [float] appears in two places: the cosine similarity of
    [EmbeddingService.compute_similarity] and the score [1.0 - distance] of
    [VectorDatabase.search_similar_profiles].  The arithmetic is an interface
    as well ([FloatOps]).  The similarity is studied in IEEE binary64 (Rocq's
    primitive floats), which is what CPython and numpy compute with; the
    real numbers are a second instance, used only to rank the distances of
    one reference store exactly. *)

From Stdlib Require Import ZArith List String Ascii Bool Sorted Floats Reals Lra Lia.
From stdpp Require Import gmap strings.
Import ListNotations.

Local Open Scope string_scope.
Local Open Scope Z_scope.

(** ** Python values the service manipulates *)

Module Py.

(** Exceptions that travel through the service.  [ExternalError] is whatever a
    collaborator raises (a ChromaDB error, a model failure);
    [RequestValidationError] is what FastAPI raises when a request body does
    not satisfy its pydantic schema, before the route handler runs. *)
Inductive PyExc : Type :=
  | ValueError (msg : string)
  | KeyError (key : string)
  | IndexError
  | TypeError
  | ValidationError (field : string)
  | ExternalError (msg : string)
  | RequestValidationError
  | HTTPException (status_code : Z) (detail : string).

(** [str(e)], as it is spliced into the [detail] of an [HTTPException]. *)
Definition exc_str (e : PyExc) : string :=
  match e with
  | ValueError msg => msg
  | KeyError key => "'" +:+ key +:+ "'"
  | IndexError => "list index out of range"
  | TypeError => "type error"
  | ValidationError field => "validation error for " +:+ field
  | ExternalError msg => msg
  | RequestValidationError => "request validation error"
  | HTTPException _ detail => detail
  end.

(** A computation that returns a value or raises. *)
Definition result (A : Type) : Type := (PyExc + A)%type.

#[export] Instance result_ret : MRet result := fun A a => inr a.
#[export] Instance result_bind : MBind result :=
  fun A B f m => match m with inl e => inl e | inr a => f a end.
#[export] Instance result_throw : MThrow PyExc result := fun A e => inl e.

Definition is_ok {A} (r : result A) : bool :=
  match r with inr _ => true | inl _ => false end.

(** [l[0]] *)
Definition index0 {A} (l : list A) : result A :=
  match l with
  | x :: _ => mret x
  | [] => mthrow IndexError
  end.

(** [str.isspace] on a code point below 256 (a string is read as a sequence
    of such code points). *)
Definition is_space (c : ascii) : bool :=
  let n := nat_of_ascii c in
  ((9 <=? n) && (n <=? 13) || (28 <=? n) && (n <=? 32) || (n =? 133) || (n =? 160))%nat.

Fixpoint lstrip (s : string) : string :=
  match s with
  | EmptyString => EmptyString
  | String c rest => if is_space c then lstrip rest else s
  end.

Fixpoint rstrip (s : string) : string :=
  match s with
  | EmptyString => EmptyString
  | String c rest =>
      match rstrip rest with
      | EmptyString => if is_space c then EmptyString else String c EmptyString
      | kept => String c kept
      end
  end.

(** [str.strip()] *)
Definition strip (s : string) : string := rstrip (lstrip s).

(** Truth value of a string: [if text], [if not text]. *)
Definition truthy (s : string) : bool :=
  match s with EmptyString => false | String _ _ => true end.

(** Truth value of an [Optional[str]]: [None] and [""] are both false. *)
Definition truthy_opt (o : option string) : bool :=
  match o with Some s => truthy s | None => false end.

(** [len(s)] *)
Definition len (s : string) : Z := Z.of_nat (String.length s).

(** The built-ins [min(a, b)] and [max(a, b)] on two arguments keep the first
    one unless the second is strictly smaller (greater): with a NaN second
    argument the comparison is false and the first argument is returned. *)
Definition py_min {A} (lt : A -> A -> bool) (a b : A) : A := if lt b a then b else a.
Definition py_max {A} (lt : A -> A -> bool) (a b : A) : A := if lt a b then b else a.

(** An exception raised below the handlers is never an [HTTPException]. *)
Definition not_http (e : PyExc) : Prop :=
  forall code detail, e <> HTTPException code detail.

End Py.
Import Py.

(** ** Float arithmetic *)

Class FloatOps (F : Type) : Type := {
  f_zero : F;
  f_one : F;
  f_add : F -> F -> F;
  f_sub : F -> F -> F;
  f_mul : F -> F -> F;
  f_div : F -> F -> F;
  f_sqrt : F -> F;
  f_eqb : F -> F -> bool;
  f_ltb : F -> F -> bool;
  f_leb : F -> F -> bool
}.

(** IEEE 754 binary64, what CPython and numpy compute with. *)
#[export] Instance binary64 : FloatOps float := {|
  f_zero := 0%float;
  f_one := 1%float;
  f_add := PrimFloat.add;
  f_sub := PrimFloat.sub;
  f_mul := PrimFloat.mul;
  f_div := PrimFloat.div;
  f_sqrt := PrimFloat.sqrt;
  f_eqb := PrimFloat.eqb;
  f_ltb := PrimFloat.ltb;
  f_leb := PrimFloat.leb
|}.

(** Exact arithmetic on the reals: no rounding, no overflow, no NaN.  Python
    does not compute with it; it serves the reference store below. *)
#[export] Instance exact_real : FloatOps R := {|
  f_zero := 0%R;
  f_one := 1%R;
  f_add := Rplus;
  f_sub := Rminus;
  f_mul := Rmult;
  f_div := Rdiv;
  f_sqrt := sqrt;
  f_eqb := fun x y => if Req_dec_T x y then true else false;
  f_ltb := fun x y => if Rlt_dec x y then true else false;
  f_leb := fun x y => if Rle_dec x y then true else false
|}.

(** ** embedding_service.py *)

(** The pretrained model behind [SentenceTransformer.encode(text)] followed by
    [tolist()]: an opaque function from text to a vector, which may raise. *)
Class SentenceTransformer (F : Type) : Type := {
  model_encode : string -> result (list F)
}.

(** [np.dot] on two one-dimensional float arrays of the same length hands
    them to the dot-product routine of the BLAS library numpy is linked
    with.  The routine sums the pairwise products; the order in which it
    accumulates them, and whether it fuses a product with an addition, are
    its own, so the float it returns is left to the interface.  It is a
    function of the two vectors. *)
Class Blas (F : Type) : Type := {
  blas_dot : list F -> list F -> F
}.

Section ReferenceBlas.
Context {F : Type} `{FloatOps F}.

(** Sum of the pairwise products, each rounded, accumulated from the left:
    the textbook routine.  Every routine returns the same float on vectors
    whose products and partial sums are computed without rounding. *)
Definition dot_sum (a b : list F) : F :=
  fold_left (fun acc xy => f_add acc (f_mul (fst xy) (snd xy))) (combine a b) f_zero.

#[export] Instance left_to_right : Blas F := {| blas_dot := dot_sum |}.

End ReferenceBlas.

Section EmbeddingService.
Context {F : Type} `{FloatOps F} {blas : Blas F}.

(** [np.dot] on two one-dimensional arrays: raises when the lengths differ. *)
Definition np_dot (a b : list F) : result F :=
  if (length a =? length b)%nat then mret (blas_dot a b)
  else mthrow (ValueError "shapes not aligned").

(** [np.linalg.norm] on a one-dimensional array: [sqrt(x.dot(x))]. *)
Definition np_linalg_norm (a : list F) : F := f_sqrt (blas_dot a a).

(** [EmbeddingService.compute_similarity]: the body of the [try], and the
    [except Exception: return 0.0] around it. *)
Definition compute_similarity_body (embedding1 embedding2 : list F) : result F :=
  dot_product ← np_dot embedding1 embedding2;
  let norm1 := np_linalg_norm embedding1 in
  let norm2 := np_linalg_norm embedding2 in
  if f_eqb norm1 f_zero || f_eqb norm2 f_zero then mret f_zero
  else
    let similarity := f_div dot_product (f_mul norm1 norm2) in
    mret (py_max f_ltb f_zero (py_min f_ltb f_one similarity)).

Definition compute_similarity (embedding1 embedding2 : list F) : F :=
  match compute_similarity_body embedding1 embedding2 with
  | inr r => r
  | inl _ => f_zero
  end.

Context `{SentenceTransformer F}.

(** [EmbeddingService.generate_embedding]; its [except] clause logs and
    re-raises, so the exception passes through unchanged. *)
Definition generate_embedding (text : string) : result (list F) :=
  let text := strip text in
  if negb (truthy text) then mthrow (ValueError "Text cannot be empty")
  else model_encode text.

End EmbeddingService.

(** ** models.py *)

(** [Field(..., min_length=lo, max_length=hi)] *)
Definition len_between (lo hi : Z) (s : string) : bool :=
  (lo <=? len s) && (len s <=? hi).

(** [Field(None, ge=lo, le=hi)] on an [Optional[int]] *)
Definition opt_int_between (lo hi : Z) (o : option Z) : bool :=
  match o with
  | None => true
  | Some z => (lo <=? z) && (z <=? hi)
  end.

(** [Field(None, max_length=hi)] on an [Optional[str]] *)
Definition opt_len_at_most (hi : Z) (o : option string) : bool :=
  match o with
  | None => true
  | Some s => len s <=? hi
  end.

Record PersonProfile (T : Type) : Type := {
  pp_id : option string;
  pp_name : string;
  pp_description : string;
  pp_age : option Z;
  pp_location : option string;
  pp_created_at : option T
}.
Arguments pp_id {T} _.
Arguments pp_name {T} _.
Arguments pp_description {T} _.
Arguments pp_age {T} _.
Arguments pp_location {T} _.
Arguments pp_created_at {T} _.

Record PersonProfileCreate : Type := {
  pc_name : string;
  pc_description : string;
  pc_age : option Z;
  pc_location : option string
}.

Record PersonProfileResponse (T F : Type) : Type := {
  pr_id : string;
  pr_name : string;
  pr_description : string;
  pr_age : option Z;
  pr_location : option string;
  pr_created_at : T;
  pr_similarity_score : F
}.
Arguments pr_id {T F} _.
Arguments pr_name {T F} _.
Arguments pr_description {T F} _.
Arguments pr_age {T F} _.
Arguments pr_location {T F} _.
Arguments pr_created_at {T F} _.
Arguments pr_similarity_score {T F} _.

Record SimilaritySearchRequest : Type := {
  rq_query_description : string;
  rq_limit : Z;
  rq_exclude_id : option string
}.

Record SimilaritySearchResponse (T F : Type) : Type := {
  rs_query : string;
  rs_results : list (PersonProfileResponse T F);
  rs_total_results : Z
}.
Arguments rs_query {T F} _.
Arguments rs_results {T F} _.
Arguments rs_total_results {T F} _.

(** The constraints of [PersonProfileCreate]: what FastAPI checks on the body
    of [POST /profiles]. *)
Definition valid_PersonProfileCreate (p : PersonProfileCreate) : bool :=
  len_between 1 100 (pc_name p)
  && len_between 10 2000 (pc_description p)
  && opt_int_between 18 100 (pc_age p)
  && opt_len_at_most 100 (pc_location p).

(** The constraints of [SimilaritySearchRequest]: what FastAPI checks on the
    body of [POST /profiles/search]. *)
Definition valid_SimilaritySearchRequest (r : SimilaritySearchRequest) : bool :=
  len_between 10 2000 (rq_query_description r)
  && (1 <=? rq_limit r) && (rq_limit r <=? 50).

(** ** The vector store, as the service sees it *)

(** A metadata value: a string, an integer or [None], which the service
    writes itself, or a float or a boolean, which another writer of the
    collection may have stored. *)
Inductive MetaValue : Type :=
  | MStr (s : string)
  | MInt (z : Z)
  | MNone
  | MFloat (x : float)
  | MBool (b : bool).

Abbreviation Metadata := (gmap string MetaValue).

(** [metadata[key]] *)
Definition getitem (metadata : Metadata) (key : string) : result MetaValue :=
  match metadata !! key with
  | Some v => mret v
  | None => mthrow (KeyError key)
  end.

(** What [collection.get] returns: parallel lists. *)
Record GetResult : Type := {
  g_ids : list string;
  g_documents : list string;
  g_metadatas : list Metadata
}.

(** What [collection.query] returns for its single query embedding: the rows
    [results[...][0]], parallel lists. *)
Record QueryResult (F : Type) : Type := {
  q_ids : list string;
  q_distances : list F;
  q_documents : list string;
  q_metadatas : list Metadata
}.
Arguments q_ids {F} _.
Arguments q_distances {F} _.
Arguments q_documents {F} _.
Arguments q_metadatas {F} _.

(** The one filter the service builds: [{key: {"$ne": value}}]. *)
Inductive Where : Type :=
  | WhereNe (key : string) (value : string).

(** The ChromaDB collection.  [coll_add] and [coll_delete] change it; every
    call may raise. *)
Class ChromaCollection (F C : Type) : Type := {
  coll_add : C -> string -> list F -> string -> Metadata -> result unit * C;
  coll_get : C -> list string -> result GetResult;
  coll_get_limit : C -> Z -> result GetResult;
  coll_query : C -> list F -> Z -> option Where -> result (QueryResult F);
  coll_delete : C -> list string -> result unit * C;
  coll_count : C -> result Z
}.

(** [datetime]: ISO 8601 printing and parsing; parsing inverts printing. *)
Class DateTime (T : Type) : Type := {
  isoformat : T -> string;
  fromisoformat : string -> result T;
  fromisoformat_isoformat : forall t, fromisoformat (isoformat t) = inr t
}.

(** pydantic's conversion of a value that is not [None] to the type of a
    field.  A value of the field's own type is taken as it is.  What else is
    accepted (by default the string ["28"] for an [int] field, for instance)
    depends on the version of pydantic and on its settings, and is left to
    the interface. *)
Class Pydantic : Type := {
  to_int : MetaValue -> option Z;
  to_str : MetaValue -> option string;
  to_int_int : forall z : Z, to_int (MInt z) = Some z;
  to_str_str : forall s : string, to_str (MStr s) = Some s
}.

Definition check (field : string) (b : bool) : result unit :=
  if b then mret tt else mthrow (ValidationError field).

Section Models.
Context `{Pydantic}.

(** What pydantic does with the value given for a field when a model is
    built from values read back from the store: [None] is accepted by an
    [Optional] field only; any other value is converted, and a value that
    cannot be converted raises [ValidationError]. *)
Definition as_str (field : string) (v : MetaValue) : result string :=
  match v with
  | MNone => mthrow (ValidationError field)
  | _ =>
      match to_str v with
      | Some s => mret s
      | None => mthrow (ValidationError field)
      end
  end.

Definition as_opt_int (field : string) (o : option MetaValue) : result (option Z) :=
  match o with
  | None | Some MNone => mret None
  | Some v =>
      match to_int v with
      | Some z => mret (Some z)
      | None => mthrow (ValidationError field)
      end
  end.

Definition as_opt_str (field : string) (o : option MetaValue) : result (option string) :=
  match o with
  | None | Some MNone => mret None
  | Some v =>
      match to_str v with
      | Some s => mret (Some s)
      | None => mthrow (ValidationError field)
      end
  end.

(** [PersonProfile(id=..., name=..., description=..., age=..., location=...,
    created_at=...)]: each value is converted, then checked against the
    bounds of its [Field]. *)
Definition PersonProfile_init {T} (id : string) (name : MetaValue) (description : string)
    (age location : option MetaValue) (created_at : T) : result (PersonProfile T) :=
  name ← as_str "name" name;
  _ ← check "name" (len_between 1 100 name);
  _ ← check "description" (len_between 10 2000 description);
  age ← as_opt_int "age" age;
  _ ← check "age" (opt_int_between 18 100 age);
  location ← as_opt_str "location" location;
  _ ← check "location" (opt_len_at_most 100 location);
  mret {| pp_id := Some id; pp_name := name; pp_description := description;
          pp_age := age; pp_location := location; pp_created_at := Some created_at |}.

(** [PersonProfileResponse(id=..., ..., similarity_score=...)]: conversions
    only, the response model has no bounds. *)
Definition PersonProfileResponse_init {T F} (id : string) (name : MetaValue)
    (description : string) (age location : option MetaValue) (created_at : T)
    (similarity_score : F) : result (PersonProfileResponse T F) :=
  name ← as_str "name" name;
  age ← as_opt_int "age" age;
  location ← as_opt_str "location" location;
  mret {| pr_id := id; pr_name := name; pr_description := description;
          pr_age := age; pr_location := location; pr_created_at := created_at;
          pr_similarity_score := similarity_score |}.

End Models.

(** ** vector_db.py *)

Module VectorDB.

Record VectorDatabase (C : Type) : Type := {
  persist_directory : string;
  collection_name : string;
  collection : C
}.
Arguments persist_directory {C} _.
Arguments collection_name {C} _.
Arguments collection {C} _.

(** The same database object after a call that changed its collection. *)
Definition with_collection {C} (self : VectorDatabase C) (c : C) : VectorDatabase C :=
  {| persist_directory := persist_directory self;
     collection_name := collection_name self;
     collection := c |}.

(** What [get_collection_stats] returns: the statistics, or [{"error": ...}]. *)
Inductive CollectionStats : Type :=
  | Stats (total_profiles : Z) (collection_name persist_directory : string)
  | StatsError (error : string).

(** [zip] of the four rows of a query result, in the order the loop of
    [search_similar_profiles] unpacks them:
    [(distance, document, metadata, profile_id)]. *)
Fixpoint zip4 {A B C D} (la : list A) (lb : list B) (lc : list C) (ld : list D)
    : list (A * B * C * D) :=
  match la, lb, lc, ld with
  | a :: la, b :: lb, c :: lc, d :: ld => (a, b, c, d) :: zip4 la lb lc ld
  | _, _, _, _ => []
  end.

Fixpoint zip3 {A B C} (la : list A) (lb : list B) (lc : list C) : list (A * B * C) :=
  match la, lb, lc with
  | a :: la, b :: lb, c :: lc => (a, b, c) :: zip3 la lb lc
  | _, _, _ => []
  end.

Section VectorDatabase.
Context {T F C : Type}.
Context `{FloatOps F} `{SentenceTransformer F} `{ChromaCollection F C} `{DateTime T}.
Context `{Pydantic}.

(** [datetime.fromisoformat(metadata['created_at'])] *)
Definition created_at_of (metadata : Metadata) : result T :=
  v ← getitem metadata "created_at";
  match v with
  | MStr s => fromisoformat s
  | _ => mthrow TypeError
  end.

(** The metadata dictionary [add_person_profile] stores. *)
Definition profile_metadata (profile : PersonProfileCreate) (now : T) : Metadata :=
  <["name" := MStr (pc_name profile)]>
  (<["age" := match pc_age profile with Some a => MInt a | None => MNone end]>
  (<["location" := match pc_location profile with Some l => MStr l | None => MNone end]>
  (<["created_at" := MStr (isoformat now)]> ∅))).

(** [VectorDatabase.add_person_profile].  [uuid4] is the string
    [str(uuid.uuid4())] drew and [now] the reading of [datetime.now()]; the
    [except] clause logs and re-raises. *)
Definition add_person_profile (self : VectorDatabase C) (profile : PersonProfileCreate)
    (uuid4 : string) (now : T) : result string * VectorDatabase C :=
  let profile_id := uuid4 in
  match generate_embedding (pc_description profile) with
  | inl e => (inl e, self)
  | inr embedding =>
      let metadata := profile_metadata profile now in
      match coll_add (collection self) profile_id embedding (pc_description profile) metadata with
      | (inl e, c) => (inl e, with_collection self c)
      | (inr _, c) => (inr profile_id, with_collection self c)
      end
  end.

(** The [PersonProfile(...)] expression shared by [get_person_profile] and
    [get_all_profiles]. *)
Definition make_profile (profile_id document : string) (metadata : Metadata)
    : result (PersonProfile T) :=
  name ← getitem metadata "name";
  created_at ← created_at_of metadata;
  PersonProfile_init profile_id name document
    (metadata !! "age") (metadata !! "location") created_at.

Definition get_person_profile_body (self : VectorDatabase C) (profile_id : string)
    : result (option (PersonProfile T)) :=
  res ← coll_get (collection self) [profile_id];
  match g_ids res with
  | [] => mret None
  | _ :: _ =>
      metadata ← index0 (g_metadatas res);
      document ← index0 (g_documents res);
      profile ← make_profile profile_id document metadata;
      mret (Some profile)
  end.

(** [VectorDatabase.get_person_profile]: any exception is logged and turned
    into [None]. *)
Definition get_person_profile (self : VectorDatabase C) (profile_id : string)
    : option (PersonProfile T) :=
  match get_person_profile_body self profile_id with
  | inr r => r
  | inl _ => None
  end.

(** One row of the query result turned into a response. *)
Definition make_response (hit : F * string * Metadata * string)
    : result (PersonProfileResponse T F) :=
  let '(distance, document, metadata, profile_id) := hit in
  let similarity_score := f_sub f_one distance in
  name ← getitem metadata "name";
  created_at ← created_at_of metadata;
  PersonProfileResponse_init profile_id name document
    (metadata !! "age") (metadata !! "location") created_at similarity_score.

(** [exclude_id and profile_id == exclude_id] *)
Definition is_excluded (exclude_id : option string) (profile_id : string) : bool :=
  match exclude_id with
  | Some x => truthy x && String.eqb profile_id x
  | None => false
  end.

(** The [for] loop of [search_similar_profiles], with its [continue] and
    its [break]; [similar_profiles] is the list built so far. *)
Fixpoint search_loop (exclude_id : option string) (limit : Z)
    (hits : list (F * string * Metadata * string))
    (similar_profiles : list (PersonProfileResponse T F))
    : result (list (PersonProfileResponse T F)) :=
  match hits with
  | [] => mret similar_profiles
  | hit :: rest =>
      if is_excluded exclude_id (snd hit)
      then search_loop exclude_id limit rest similar_profiles
      else
        profile_response ← make_response hit;
        let similar_profiles := (similar_profiles ++ [profile_response])%list in
        if Z.of_nat (length similar_profiles) >=? limit then mret similar_profiles
        else search_loop exclude_id limit rest similar_profiles
  end.

(** [n_results=limit + (1 if exclude_id else 0)] *)
Definition n_results (limit : Z) (exclude_id : option string) : Z :=
  limit + (if truthy_opt exclude_id then 1 else 0).

(** [where_clause] *)
Definition where_clause (exclude_id : option string) : option Where :=
  match exclude_id with
  | Some x => if truthy x then Some (WhereNe "id" x) else None
  | None => None
  end.

Definition hits_of (results : QueryResult F) : list (F * string * Metadata * string) :=
  zip4 (q_distances results) (q_documents results) (q_metadatas results) (q_ids results).

(** [VectorDatabase.search_similar_profiles]; the [except] clause logs and
    re-raises. *)
Definition search_similar_profiles (self : VectorDatabase C) (query_description : string)
    (limit : Z) (exclude_id : option string)
    : result (list (PersonProfileResponse T F)) :=
  query_embedding ← generate_embedding query_description;
  results ← coll_query (collection self) query_embedding
              (n_results limit exclude_id) (where_clause exclude_id);
  search_loop exclude_id limit (hits_of results) [].

(** [VectorDatabase.get_all_profiles]; the [except] clause logs and
    re-raises. *)
Definition get_all_profiles (self : VectorDatabase C) (limit : Z)
    : result (list (PersonProfile T)) :=
  results ← coll_get_limit (collection self) limit;
  mapM (fun '(document, metadata, profile_id) => make_profile profile_id document metadata)
       (zip3 (g_documents results) (g_metadatas results) (g_ids results)).

(** [VectorDatabase.delete_person_profile]: [True] unless the store raised. *)
Definition delete_person_profile (self : VectorDatabase C) (profile_id : string)
    : bool * VectorDatabase C :=
  match coll_delete (collection self) [profile_id] with
  | (inr _, c) => (true, with_collection self c)
  | (inl _, c) => (false, with_collection self c)
  end.

(** [VectorDatabase.get_collection_stats]: an exception becomes the
    dictionary [{"error": str(e)}]. *)
Definition get_collection_stats (self : VectorDatabase C) : CollectionStats :=
  match coll_count (collection self) with
  | inr count => Stats count (collection_name self) (persist_directory self)
  | inl e => StatsError (exc_str e)
  end.

End VectorDatabase.

(** *** Vocabulary of the properties below *)

Section Vocabulary.
Context {T F : Type}.

(** The profile [get_person_profile] is expected to rebuild from what
    [add_person_profile] stored. *)
Definition stored_profile (profile : PersonProfileCreate) (profile_id : string) (now : T)
    : PersonProfile T :=
  {| pp_id := Some profile_id; pp_name := pc_name profile;
     pp_description := pc_description profile; pp_age := pc_age profile;
     pp_location := pc_location profile; pp_created_at := Some now |}.

(** The distance and the id of a row of a query answer. *)
Definition hit_distance (hit : F * string * Metadata * string) : F := fst (fst (fst hit)).
Definition hit_id (hit : F * string * Metadata * string) : string := snd hit.

(** The rows the loop does not skip. *)
Definition kept (exclude_id : option string) (hits : list (F * string * Metadata * string))
    : list (F * string * Metadata * string) :=
  List.filter (fun hit => negb (is_excluded exclude_id (hit_id hit))) hits.

End Vocabulary.

End VectorDB.

(** ** main.py *)

Module Main.
Import VectorDB.

(** The dictionary returned by [POST /profiles] and [DELETE /profiles/{id}]. *)
Record StatusBody : Type := {
  message : string;
  profile_id : string;
  status : string
}.

(** The dictionary returned by [GET /health]. *)
Record HealthBody : Type := {
  h_status : string;
  h_database : string;
  h_stats : option CollectionStats;
  h_error : option string
}.

Definition HTTP_400_BAD_REQUEST : Z := 400.
Definition HTTP_404_NOT_FOUND : Z := 404.
Definition HTTP_500_INTERNAL_SERVER_ERROR : Z := 500.

(** The two [except] clauses that close most handlers:
    [except HTTPException: raise] and
    [except Exception as e: raise HTTPException(500, prefix + str(e))]. *)
Definition reraise_as_500 {A} (prefix : string) (body : result A) : result A :=
  match body with
  | inr a => inr a
  | inl (HTTPException code detail) => inl (HTTPException code detail)
  | inl e => inl (HTTPException HTTP_500_INTERNAL_SERVER_ERROR (prefix +:+ exc_str e))
  end.

Section Handlers.
Context {T F C : Type}.
Context `{FloatOps F} `{SentenceTransformer F} `{ChromaCollection F C} `{DateTime T}.
Context `{Pydantic}.

(** [POST /profiles]: a single [except Exception] clause. *)
Definition add_person_profile (vector_db : VectorDatabase C) (profile : PersonProfileCreate)
    (uuid4 : string) (now : T) : result StatusBody * VectorDatabase C :=
  match VectorDB.add_person_profile vector_db profile uuid4 now with
  | (inr new_id, db) =>
      (inr {| message := "Profile added successfully"; profile_id := new_id;
              status := "success" |}, db)
  | (inl e, db) =>
      (inl (HTTPException HTTP_500_INTERNAL_SERVER_ERROR
              ("Failed to add profile: " +:+ exc_str e)), db)
  end.

(** [GET /profiles/{profile_id}] *)
Definition get_person_profile (vector_db : VectorDatabase C) (profile_id : string)
    : result (PersonProfile T) :=
  reraise_as_500 "Failed to retrieve profile: "
    match VectorDB.get_person_profile vector_db profile_id with
    | None =>
        mthrow (HTTPException HTTP_404_NOT_FOUND
                  ("Profile with ID " +:+ profile_id +:+ " not found"))
    | Some profile => mret profile
    end.

(** [POST /profiles/search] *)
Definition search_similar_profiles (vector_db : VectorDatabase C)
    (request : SimilaritySearchRequest) : result (SimilaritySearchResponse T F) :=
  reraise_as_500 "Failed to search profiles: "
    (if rq_limit request >? 50
     then mthrow (HTTPException HTTP_400_BAD_REQUEST "Limit cannot exceed 50")
     else
       similar_profiles ← VectorDB.search_similar_profiles vector_db
                            (rq_query_description request) (rq_limit request)
                            (rq_exclude_id request);
       mret {| rs_query := rq_query_description request;
               rs_results := similar_profiles;
               rs_total_results := Z.of_nat (length similar_profiles) |}).

(** [GET /profiles?limit=] *)
Definition get_all_profiles (vector_db : VectorDatabase C) (limit : Z)
    : result (list (PersonProfile T)) :=
  reraise_as_500 "Failed to retrieve profiles: "
    (if limit >? 1000
     then mthrow (HTTPException HTTP_400_BAD_REQUEST "Limit cannot exceed 1000")
     else VectorDB.get_all_profiles vector_db limit).

(** [DELETE /profiles/{profile_id}] *)
Definition delete_person_profile (vector_db : VectorDatabase C) (profile_id : string)
    : result StatusBody * VectorDatabase C :=
  let '(success, db) := VectorDB.delete_person_profile vector_db profile_id in
  (reraise_as_500 "Failed to delete profile: "
     (if negb success
      then mthrow (HTTPException HTTP_404_NOT_FOUND
                     ("Profile with ID " +:+ profile_id +:+ " not found"))
      else mret {| message := "Profile deleted successfully"; profile_id := profile_id;
                   status := "success" |}),
   db).

(** [GET /stats]: the call below completes normally whatever the store
    does, so the handler's [except] clause has nothing to catch. *)
Definition get_stats (vector_db : VectorDatabase C) : result CollectionStats :=
  match (mret (get_collection_stats vector_db) : result CollectionStats) with
  | inr stats => inr stats
  | inl e =>
      inl (HTTPException HTTP_500_INTERNAL_SERVER_ERROR
             ("Failed to get stats: " +:+ exc_str e))
  end.

(** [GET /health]: the [try] returns the "healthy" dictionary, the [except]
    the "unhealthy" one. *)
Definition health_check (vector_db : VectorDatabase C) : HealthBody :=
  match (mret (get_collection_stats vector_db) : result CollectionStats) with
  | inr stats =>
      {| h_status := "healthy"; h_database := "connected";
         h_stats := Some stats; h_error := None |}
  | inl e =>
      {| h_status := "unhealthy"; h_database := "disconnected";
         h_stats := None; h_error := Some (exc_str e) |}
  end.

(** *** The routes as a client reaches them

    FastAPI validates a request body against its pydantic model before it
    calls the handler, and answers a body that fails with a validation
    error of its own (status 422); query parameters without constraints
    ([limit: int = 100]) reach the handler as they are. *)

Definition post_profiles (vector_db : VectorDatabase C) (profile : PersonProfileCreate)
    (uuid4 : string) (now : T) : result StatusBody * VectorDatabase C :=
  if valid_PersonProfileCreate profile
  then add_person_profile vector_db profile uuid4 now
  else (mthrow RequestValidationError, vector_db).

Definition post_profiles_search (vector_db : VectorDatabase C)
    (request : SimilaritySearchRequest) : result (SimilaritySearchResponse T F) :=
  if valid_SimilaritySearchRequest request
  then search_similar_profiles vector_db request
  else mthrow RequestValidationError.

Definition get_profiles (vector_db : VectorDatabase C) (limit : Z)
    : result (list (PersonProfile T)) :=
  get_all_profiles vector_db limit.

End Handlers.

(** The status code of the HTTP response FastAPI sends for the outcome of a
    route: 200 for a returned value, the code of a raised [HTTPException],
    422 for a body that failed validation, 500 for any other exception. *)
Definition http_status {A} (outcome : result A) : Z :=
  match outcome with
  | inr _ => 200
  | inl (HTTPException code _) => code
  | inl RequestValidationError => 422
  | inl _ => 500
  end.

End Main.

(** ** Reference collaborators

    Instances of the three interfaces, to run the service on concrete
    inputs. *)

Module Reference.

Record Entry (F : Type) : Type := {
  e_id : string;
  e_embedding : list F;
  e_document : string;
  e_metadata : Metadata
}.
Arguments e_id {F} _.
Arguments e_embedding {F} _.
Arguments e_document {F} _.
Arguments e_metadata {F} _.

(** Modelled from the spec: the Profile Store of section 4.2, which the
    repository takes from ChromaDB.  A collection is the list of its entries
    in insertion order; [insert] appends without looking for the id, [getById]
    and [deleteById] select by id, [query] answers the [k] nearest entries in
    ascending distance, [list] the first [limit] entries, [count] their
    number.  A collection that is not [online] raises on every call; deleting
    an id the collection does not hold is not an error, as in ChromaDB. *)
Record Collection (F : Type) : Type := {
  entries : list (Entry F);
  online : bool
}.
Arguments entries {F} _.
Arguments online {F} _.

#[export] Instance float_eq_dec : EqDecision float.
Proof.
  intros x y. destruct (PrimFloat.Leibniz.eqb x y) eqn:Hxy.
  - left. apply FloatAxioms.Leibniz.eqb_spec. exact Hxy.
  - right. intros Heq. apply FloatAxioms.Leibniz.eqb_spec in Heq. congruence.
Defined.

#[export] Instance MetaValue_eq_dec : EqDecision MetaValue.
Proof. solve_decision. Defined.

(** A reference conversion.  An [int] field takes an integer, a boolean (as
    0 or 1), a float without fractional part, and a string of decimal
    digits; a [str] field takes a string only.  The versions of pydantic
    differ on what else they take (signs, spaces or underscores in the
    digits, numbers for a [str] field). *)
Definition is_digit (c : ascii) : bool :=
  let n := nat_of_ascii c in ((48 <=? n) && (n <=? 57))%nat.

Fixpoint digits_value (s : string) (acc : Z) : option Z :=
  match s with
  | EmptyString => Some acc
  | String c rest =>
      if is_digit c then digits_value rest (10 * acc + Z.of_nat (nat_of_ascii c - 48))
      else None
  end.

Definition int_of_decimal (s : string) : option Z :=
  match s with
  | EmptyString => None
  | String _ _ => digits_value s 0
  end.

Definition int_of_float (x : float) : option Z :=
  match Prim2SF x with
  | S754_zero _ => Some 0
  | S754_finite s m e =>
      let magnitude :=
        if 0 <=? e then Some (Z.pos m * 2 ^ e)
        else if Z.pos m mod 2 ^ (- e) =? 0 then Some (Z.pos m / 2 ^ (- e))
        else None in
      match magnitude with
      | Some z => Some (if s then - z else z)
      | None => None
      end
  | S754_infinity _ | S754_nan => None
  end.

#[export] Instance reference_pydantic : Pydantic := {|
  to_int := fun v =>
    match v with
    | MInt z => Some z
    | MBool b => Some (if b then 1 else 0)
    | MFloat x => int_of_float x
    | MStr s => int_of_decimal s
    | MNone => None
    end;
  to_str := fun v => match v with MStr s => Some s | _ => None end;
  to_int_int := fun _ => eq_refl;
  to_str_str := fun _ => eq_refl
|}.

Definition unavailable : PyExc := ExternalError "collection unavailable".

Section Collection.
Context {F : Type} `{FloatOps F}.

(** ChromaDB's default metric: the squared Euclidean distance. *)
Definition squared_l2 (a b : list F) : F :=
  fold_left (fun acc xy => let d := f_sub (fst xy) (snd xy) in f_add acc (f_mul d d))
            (combine a b) f_zero.

Fixpoint insert_by_distance (x : F * Entry F) (l : list (F * Entry F))
    : list (F * Entry F) :=
  match l with
  | [] => [x]
  | y :: rest =>
      if f_leb (fst x) (fst y) then x :: l else y :: insert_by_distance x rest
  end.

Definition nearest_first (l : list (F * Entry F)) : list (F * Entry F) :=
  fold_right insert_by_distance [] l.

Definition holds (ids : list string) (e : Entry F) : bool :=
  existsb (String.eqb (e_id e)) ids.

Definition satisfies (w : option Where) (e : Entry F) : bool :=
  match w with
  | None => true
  | Some (WhereNe key value) => negb (bool_decide (e_metadata e !! key = Some (MStr value)))
  end.

Definition get_result_of (l : list (Entry F)) : GetResult :=
  {| g_ids := map e_id l; g_documents := map e_document l;
     g_metadatas := map e_metadata l |}.

Definition query_result_of (l : list (F * Entry F)) : QueryResult F :=
  {| q_ids := map (fun x => e_id (snd x)) l;
     q_distances := map fst l;
     q_documents := map (fun x => e_document (snd x)) l;
     q_metadatas := map (fun x => e_metadata (snd x)) l |}.

Definition ref_add (c : Collection F) (id : string) (embedding : list F)
    (document : string) (metadata : Metadata) : result unit * Collection F :=
  if online c
  then (inr tt,
        {| entries := entries c ++ [{| e_id := id; e_embedding := embedding;
                                       e_document := document;
                                       e_metadata := metadata |}];
           online := true |})
  else (inl unavailable, c).

Definition ref_get (c : Collection F) (ids : list string) : result GetResult :=
  if online c then inr (get_result_of (List.filter (holds ids) (entries c)))
  else inl unavailable.

Definition ref_get_limit (c : Collection F) (limit : Z) : result GetResult :=
  if online c then inr (get_result_of (firstn (Z.to_nat limit) (entries c)))
  else inl unavailable.

Definition ref_query (c : Collection F) (embedding : list F) (k : Z) (w : option Where)
    : result (QueryResult F) :=
  if online c
  then
    let candidates := List.filter (satisfies w) (entries c) in
    let ranked :=
      nearest_first (map (fun e => (squared_l2 embedding (e_embedding e), e)) candidates) in
    inr (query_result_of (firstn (Z.to_nat k) ranked))
  else inl unavailable.

Definition ref_delete (c : Collection F) (ids : list string) : result unit * Collection F :=
  if online c
  then (inr tt,
        {| entries := List.filter (fun e => negb (holds ids e)) (entries c);
           online := true |})
  else (inl unavailable, c).

Definition ref_count (c : Collection F) : result Z :=
  if online c then inr (Z.of_nat (length (entries c))) else inl unavailable.

(** The row of a query answer that stands for a ranked entry. *)
Definition row_of (x : F * Entry F) : F * string * Metadata * string :=
  (fst x, e_document (snd x), e_metadata (snd x), e_id (snd x)).

(** The comparison is a total preorder in exact arithmetic, and in binary64
    on distances that are not NaN. *)
Definition leb_total : Prop :=
  forall a b : F, f_leb a b = false -> f_leb b a = true.
Definition leb_transitive : Prop :=
  forall a b c : F, f_leb a b = true -> f_leb b c = true -> f_leb a c = true.

Definition by_distance (x y : F * Entry F) : Prop := f_leb (fst x) (fst y) = true.

#[export] Instance reference_collection : ChromaCollection F (Collection F) := {|
  coll_add := ref_add;
  coll_get := ref_get;
  coll_get_limit := ref_get_limit;
  coll_query := ref_query;
  coll_delete := ref_delete;
  coll_count := ref_count
|}.

(** A stand-in for the pretrained model: three letter counts. *)
Fixpoint count_char (c : ascii) (s : string) : nat :=
  match s with
  | EmptyString => O
  | String c' rest => ((if Ascii.eqb c c' then 1 else 0) + count_char c rest)%nat
  end.

Definition of_nat (n : nat) : F := Nat.iter n (f_add f_one) f_zero.

Definition letter_counts (text : string) : result (list F) :=
  inr [of_nat (count_char "a" text); of_nat (count_char "e" text);
       of_nat (count_char "i" text)].

#[export] Instance reference_model : SentenceTransformer F := {|
  model_encode := letter_counts
|}.

End Collection.

(** A datetime is kept as its ISO 8601 text,
    [YYYY-MM-DDTHH:MM:SS] with an optional fraction. *)
Fixpoint matches_shape (shape : list (option ascii)) (s : string) : bool :=
  match shape, s with
  | [], EmptyString => true
  | [], String c rest => Ascii.eqb c "." && forallb is_digit (list_ascii_of_string rest)
  | Some sep :: shape, String c rest => Ascii.eqb c sep && matches_shape shape rest
  | None :: shape, String c rest => is_digit c && matches_shape shape rest
  | _ :: _, EmptyString => false
  end.

Definition iso_shape : list (option ascii) :=
  [None; None; None; None; Some "-"; None; None; Some "-"; None; None; Some "T";
   None; None; Some ":"; None; None; Some ":"; None; None]%char.

Definition datetime : Type := { s : string | matches_shape iso_shape s = true }.

Definition ref_isoformat (t : datetime) : string := proj1_sig t.

Definition ref_fromisoformat (s : string) : result datetime :=
  match bool_dec (matches_shape iso_shape s) true with
  | left ok => inr (exist _ s ok)
  | right _ => inl (ValueError ("Invalid isoformat string: " +:+ s))
  end.

Lemma ref_fromisoformat_isoformat (t : datetime) :
  ref_fromisoformat (ref_isoformat t) = inr t.
Proof.
  destruct t as [s ok]. cbv [ref_fromisoformat ref_isoformat proj1_sig].
  destruct (bool_dec (matches_shape iso_shape s) true) as [ok'|bad].
  - do 2 f_equal. apply (Eqdep_dec.UIP_dec bool_dec).
  - contradiction.
Qed.

#[export] Instance reference_datetime : DateTime datetime := {|
  isoformat := ref_isoformat;
  fromisoformat := ref_fromisoformat;
  fromisoformat_isoformat := ref_fromisoformat_isoformat
|}.

End Reference.

(** ** Sample data *)

Module Samples.
Import VectorDB Reference.

Definition empty_db : VectorDatabase (Collection float) :=
  {| persist_directory := "./chroma_db"; collection_name := "person_profiles";
     collection := {| entries := []; online := true |} |}.

(** The same database while its collection cannot be reached. *)
Definition offline_db : VectorDatabase (Collection float) :=
  {| persist_directory := "./chroma_db"; collection_name := "person_profiles";
     collection := {| entries := []; online := false |} |}.

Definition alex : PersonProfileCreate :=
  {| pc_name := "Alex"; pc_description := "I love hiking and sci-fi novels";
     pc_age := Some 28; pc_location := Some "San Francisco" |}.

Definition sarah : PersonProfileCreate :=
  {| pc_name := "Sarah"; pc_description := "photography, yoga and travel";
     pc_age := Some 26; pc_location := None |}.

(** Ten spaces: long enough for [min_length=10], empty once stripped. *)
Definition blank_text : string := "          ".

Definition blank_profile : PersonProfileCreate :=
  {| pc_name := "Sam"; pc_description := blank_text; pc_age := None; pc_location := None |}.

Definition noon : datetime := exist _ "2024-01-15T12:00:00" eq_refl.

(** The database after Alex and Sarah were added. *)
Definition two_profiles_db : VectorDatabase (Collection float) :=
  snd (VectorDB.add_person_profile
         (snd (VectorDB.add_person_profile empty_db alex "id-alex" noon))
         sarah "id-sarah" noon).

(** The two profiles are still held, but the collection cannot be reached. *)
Definition unreachable_two_profiles_db : VectorDatabase (Collection float) :=
  with_collection two_profiles_db
    {| entries := entries (collection two_profiles_db); online := false |}.

(** The same two profiles in a store that computes distances exactly. *)
Definition empty_real_db : VectorDatabase (Collection R) :=
  {| persist_directory := "./chroma_db"; collection_name := "person_profiles";
     collection := {| entries := []; online := true |} |}.

Definition two_profiles_real_db : VectorDatabase (Collection R) :=
  snd (VectorDB.add_person_profile
         (snd (VectorDB.add_person_profile empty_real_db alex "id-alex" noon))
         sarah "id-sarah" noon).

Definition hiking_query : string := "mountain hiking trips".

(** Alex looks for matches other than Alex. *)
Definition alex_matches : list (PersonProfileResponse datetime float) :=
  match VectorDB.search_similar_profiles two_profiles_db (pc_description alex) 1
          (Some "id-alex") with
  | inr matches => matches
  | inl _ => []
  end.

(** A search with limit 0 that excludes an id the store does not hold. *)
Definition zero_limit_matches : list (PersonProfileResponse datetime float) :=
  match VectorDB.search_similar_profiles two_profiles_db hiking_query 0 (Some "ghost") with
  | inr matches => matches
  | inl _ => []
  end.

(** A well-formed query with a limit above the cap, and one with limit 0. *)
Definition over_cap_search : SimilaritySearchRequest :=
  {| rq_query_description := hiking_query; rq_limit := 51; rq_exclude_id := None |}.

Definition zero_limit_search : SimilaritySearchRequest :=
  {| rq_query_description := hiking_query; rq_limit := 0; rq_exclude_id := None |}.

Definition blank_search : SimilaritySearchRequest :=
  {| rq_query_description := blank_text; rq_limit := 2; rq_exclude_id := None |}.

End Samples.

(** * Properties *)

(** Closed statements about the sample data are settled by running the
    service. *)
Ltac run_service := repeat split; vm_compute; first [reflexivity | discriminate].

(** ** Generating an embedding *)

Section EmbeddingFacts.
Context {F : Type} `{SentenceTransformer F}.

Lemma generate_embedding_blank (text : string) :
  strip text = "" ->
  generate_embedding text = inl (ValueError "Text cannot be empty").
Proof. unfold generate_embedding. intros ->. reflexivity. Qed.

Lemma generate_embedding_not_blank (text : string) :
  strip text <> "" ->
  generate_embedding text = model_encode (strip text).
Proof.
  unfold generate_embedding. intros Hne.
  destruct (strip text); [contradiction | reflexivity].
Qed.

End EmbeddingFacts.

(** ** Values of a field's own type are converted to themselves *)

Section ConversionFacts.
Context `{Pydantic}.

Lemma as_str_str (field s : string) : as_str field (MStr s) = inr s.
Proof. unfold as_str. rewrite to_str_str. reflexivity. Qed.

Lemma as_opt_int_stored (field : string) (age : option Z) :
  as_opt_int field (Some (match age with Some a => MInt a | None => MNone end)) = inr age.
Proof. destruct age as [a|]; cbn [as_opt_int]; [rewrite to_int_int|]; reflexivity. Qed.

Lemma as_opt_str_stored (field : string) (location : option string) :
  as_opt_str field (Some (match location with Some l => MStr l | None => MNone end))
  = inr location.
Proof. destruct location as [l|]; cbn [as_opt_str]; [rewrite to_str_str|]; reflexivity. Qed.

End ConversionFacts.

(** ** Lookups in the metadata [add_person_profile] stores *)

Section MetadataFacts.
Context {T : Type} `{DateTime T}.
Import VectorDB.

Lemma profile_metadata_name (p : PersonProfileCreate) (now : T) :
  profile_metadata p now !! "name" = Some (MStr (pc_name p)).
Proof. reflexivity. Qed.

Lemma profile_metadata_age (p : PersonProfileCreate) (now : T) :
  profile_metadata p now !! "age"
  = Some (match pc_age p with Some a => MInt a | None => MNone end).
Proof. reflexivity. Qed.

Lemma profile_metadata_location (p : PersonProfileCreate) (now : T) :
  profile_metadata p now !! "location"
  = Some (match pc_location p with Some l => MStr l | None => MNone end).
Proof. reflexivity. Qed.

Lemma profile_metadata_created_at (p : PersonProfileCreate) (now : T) :
  profile_metadata p now !! "created_at" = Some (MStr (isoformat now)).
Proof. reflexivity. Qed.

Lemma created_at_of_profile_metadata (p : PersonProfileCreate) (now : T) :
  created_at_of (profile_metadata p now) = inr now.
Proof.
  unfold created_at_of, getitem. rewrite profile_metadata_created_at. simpl.
  apply fromisoformat_isoformat.
Qed.

End MetadataFacts.

(** ** Adding a profile, then reading it back *)

Section AddThenGet.
Context {T F C : Type}.
Context `{FloatOps F} `{SentenceTransformer F} `{ChromaCollection F C} `{DateTime T}.
Context `{Pydantic}.
Import VectorDB.

Lemma make_profile_of_stored (profile : PersonProfileCreate) (profile_id : string) (now : T) :
  valid_PersonProfileCreate profile = true ->
  make_profile profile_id (pc_description profile) (profile_metadata profile now)
  = inr (stored_profile profile profile_id now).
Proof.
  unfold valid_PersonProfileCreate. intros Hvalid.
  apply andb_prop in Hvalid as [Hvalid Hlocation].
  apply andb_prop in Hvalid as [Hvalid Hage].
  apply andb_prop in Hvalid as [Hname Hdescription].
  unfold make_profile, getitem.
  rewrite profile_metadata_name, profile_metadata_age, profile_metadata_location.
  cbn [mbind result_bind mret result_ret].
  rewrite created_at_of_profile_metadata.
  unfold PersonProfile_init.
  rewrite as_str_str, as_opt_int_stored, as_opt_str_stored. unfold check.
  cbn [mbind result_bind mret result_ret].
  rewrite Hname, Hdescription, Hage, Hlocation. reflexivity.
Qed.

(** C10.  The embedding of the description is computed before the store is
    touched: when it fails, [add_person_profile] raises that very exception
    and hands back the database it was given, whatever the store would have
    done. *)
Theorem add_profile_embedding_failure_leaves_store
    (self : VectorDatabase C) (profile : PersonProfileCreate) (uuid4 : string) (now : T)
    (e : PyExc) :
  generate_embedding (pc_description profile) = inl e ->
  VectorDB.add_person_profile self profile uuid4 now = (inl e, self).
Proof.
  intros Hfail. unfold VectorDB.add_person_profile.
  destruct (generate_embedding (pc_description profile)) as [e'|embedding] eqn:Hgen.
  - injection Hfail as ->. reflexivity.
  - discriminate Hfail.
Qed.

(** C1, amended.  For a profile that satisfies the schema and whose
    description is not blank once stripped: when the model embeds the
    description, the store accepts the entry and answers a lookup of the new
    id with the entry it was given, [add_person_profile] returns the id and
    [get_person_profile] on that id returns the name, description, age and
    location of the input, with [created_at] set to the time of the call. *)
Theorem add_then_get_returns_the_profile
    (self : VectorDatabase C) (profile : PersonProfileCreate) (uuid4 : string) (now : T)
    (embedding : list F) (c' : C) :
  valid_PersonProfileCreate profile = true ->
  strip (pc_description profile) <> "" ->
  model_encode (strip (pc_description profile)) = inr embedding ->
  coll_add (collection self) uuid4 embedding (pc_description profile)
           (profile_metadata profile now) = (inr tt, c') ->
  coll_get c' [uuid4]
  = inr {| g_ids := [uuid4]; g_documents := [pc_description profile];
           g_metadatas := [profile_metadata profile now] |} ->
  VectorDB.add_person_profile self profile uuid4 now = (inr uuid4, with_collection self c')
  /\ VectorDB.get_person_profile (with_collection self c') uuid4
     = Some (stored_profile profile uuid4 now)
  /\ pp_created_at (stored_profile profile uuid4 now) <> None.
Proof.
  intros Hvalid Hnot_blank Hencode Hadd Hget. split; [|split].
  - unfold VectorDB.add_person_profile.
    rewrite (generate_embedding_not_blank _ Hnot_blank), Hencode, Hadd. reflexivity.
  - unfold VectorDB.get_person_profile, get_person_profile_body.
    cbn [collection with_collection]. rewrite Hget.
    cbn [mbind result_bind mret result_ret g_ids g_metadatas g_documents index0].
    rewrite (make_profile_of_stored _ _ _ Hvalid). reflexivity.
  - discriminate.
Qed.

End AddThenGet.

(** ** The reference collection honours the store contract *)

Section ReferenceFacts.
Context {F : Type} `{FloatOps F}.
Import Reference.

Lemma filter_holds_fresh (id : string) (l : list (Entry F)) :
  Forall (fun e => e_id e <> id) l ->
  List.filter (holds [id]) l = [].
Proof.
  induction 1 as [|e l Hfresh _ IH]; [reflexivity|].
  cbn [List.filter]. unfold holds at 1. cbn [existsb].
  destruct (String.eqb_spec (e_id e) id) as [Heq|_]; [contradiction|].
  cbn [orb]. exact IH.
Qed.

(** A fresh id: inserting an entry and looking the id up gives back exactly
    that entry. *)
Lemma reference_get_after_add (c : Collection F) (id : string) (embedding : list F)
    (document : string) (metadata : Metadata) :
  online c = true ->
  Forall (fun e => e_id e <> id) (entries c) ->
  exists c',
    ref_add c id embedding document metadata = (inr tt, c')
    /\ ref_get c' [id]
       = inr {| g_ids := [id]; g_documents := [document]; g_metadatas := [metadata] |}.
Proof.
  intros Honline Hfresh. unfold ref_add. rewrite Honline.
  eexists. split; [reflexivity|].
  unfold ref_get. cbn [online entries].
  rewrite List.filter_app, (filter_holds_fresh _ _ Hfresh).
  cbn [List.filter holds existsb e_id app]. rewrite String.eqb_refl. reflexivity.
Qed.

(** Deleting never raises while the collection is online, whether or not
    the id is held. *)
Lemma reference_delete_online (c : Collection F) (ids : list string) :
  online c = true -> fst (ref_delete c ids) = inr tt.
Proof. intros Honline. unfold ref_delete. rewrite Honline. reflexivity. Qed.

End ReferenceFacts.

Section AddThenGetExamples.
Import VectorDB Reference Samples.

(** Alex is added to the empty reference collection and read back. *)
Lemma add_then_get_returns_the_profile_witness :
  VectorDB.add_person_profile empty_db alex "id-alex" noon
  = (inr "id-alex",
     with_collection empty_db
       (collection (snd (VectorDB.add_person_profile empty_db alex "id-alex" noon))))
  /\ VectorDB.get_person_profile
       (with_collection empty_db
          (collection (snd (VectorDB.add_person_profile empty_db alex "id-alex" noon))))
       "id-alex"
     = Some (stored_profile alex "id-alex" noon)
  /\ pp_created_at (stored_profile alex "id-alex" noon) <> None.
Proof.
  eapply add_then_get_returns_the_profile.
  - reflexivity.
  - vm_compute. discriminate.
  - reflexivity.
  - reflexivity.
  - reflexivity.
Defined.

(** C1 as stated fails: a description of ten spaces satisfies the schema
    ([min_length=10] counts the spaces), yet [add_person_profile] raises
    [ValueError] on it, the route answers 500, no id is returned and nothing
    is stored. *)
Lemma blank_description_is_valid_and_rejected :
  valid_PersonProfileCreate blank_profile = true
  /\ VectorDB.add_person_profile empty_db blank_profile "id-sam" noon
     = (inl (ValueError "Text cannot be empty"), empty_db)
  /\ Main.http_status (fst (Main.post_profiles empty_db blank_profile "id-sam" noon)) = 500
  /\ VectorDB.get_person_profile (T := datetime)
       (snd (Main.post_profiles empty_db blank_profile "id-sam" noon)) "id-sam" = None.
Proof. run_service. Qed.

(** A blank description on a database that holds two profiles: the call
    raises and the two profiles are all the database holds afterwards. *)
Lemma add_profile_embedding_failure_leaves_store_witness :
  VectorDB.add_person_profile two_profiles_db blank_profile "id-sam" noon
  = (inl (ValueError "Text cannot be empty"), two_profiles_db).
Proof.
  apply (add_profile_embedding_failure_leaves_store two_profiles_db blank_profile "id-sam" noon).
  reflexivity.
Defined.

End AddThenGetExamples.

(** ** Order-preserving list facts *)

Section SortedFacts.
Context {A B : Type}.

Lemma StronglySorted_filter (R : A -> A -> Prop) (f : A -> bool) (l : list A) :
  StronglySorted R l -> StronglySorted R (List.filter f l).
Proof.
  induction 1 as [|x l Hsorted IH Hall]; cbn [List.filter]; [constructor|].
  destruct (f x); [|exact IH].
  constructor; [exact IH|].
  rewrite List.Forall_forall in *. intros y Hy.
  apply List.filter_In in Hy as [Hy _]. auto.
Qed.

Lemma StronglySorted_firstn (R : A -> A -> Prop) (n : nat) (l : list A) :
  StronglySorted R l -> StronglySorted R (firstn n l).
Proof.
  intros Hsorted. revert n.
  induction Hsorted as [|x l Hsorted IH Hall]; intros [|n]; cbn [firstn]; try constructor.
  - apply IH.
  - rewrite List.Forall_forall in *. intros y Hy. apply Hall.
    rewrite <- (firstn_skipn n l). apply in_or_app. left. exact Hy.
Qed.

(** Sortedness carries over a pointwise correspondence that turns one order
    into the other. *)
Lemma StronglySorted_Forall2 (R : A -> A -> Prop) (R' : B -> B -> Prop)
    (P : A -> B -> Prop) (l : list A) (l' : list B) :
  (forall a b a' b', P a a' -> P b b' -> R a b -> R' a' b') ->
  Forall2 P l l' -> StronglySorted R l -> StronglySorted R' l'.
Proof.
  intros Hcarry Hcorr. induction Hcorr as [|a a' l l' Hhead Htail IH]; intros Hsorted.
  - constructor.
  - inversion Hsorted as [|? ? Hsorted' Hall]; subst.
    constructor; [apply IH; exact Hsorted'|].
    clear IH Hsorted Hsorted'. induction Htail as [|b b' l l' Hb Htail IH]; constructor.
    + inversion Hall; subst. eapply Hcarry; eassumption.
    + apply IH. inversion Hall; assumption.
Qed.

Lemma In_firstn (n : nat) (l : list A) (x : A) : In x (firstn n l) -> In x l.
Proof.
  intros Hin. rewrite <- (firstn_skipn n l). apply in_or_app. left. exact Hin.
Qed.

Lemma Forall2_In_r (P : A -> B -> Prop) (l : list A) (l' : list B) (b : B) :
  Forall2 P l l' -> In b l' -> exists a, In a l /\ P a b.
Proof.
  induction 1 as [|a b' l l' Hhead _ IH]; intros Hin; [contradiction|].
  destruct Hin as [<-|Hin].
  - exists a. split; [left; reflexivity|exact Hhead].
  - destruct (IH Hin) as [a' [Ha' HP]]. exists a'. split; [right; exact Ha'|exact HP].
Qed.

End SortedFacts.

(** ** Searching *)

Section Search.
Context {T F C : Type}.
Context `{FloatOps F} `{SentenceTransformer F} `{ChromaCollection F C} `{DateTime T}.
Context `{Pydantic}.
Import VectorDB.

Lemma make_response_fields (hit : F * string * Metadata * string)
    (r : PersonProfileResponse T F) :
  make_response hit = inr r ->
  pr_id r = hit_id hit /\ pr_similarity_score r = f_sub f_one (hit_distance hit).
Proof.
  destruct hit as [[[distance document] metadata] profile_id].
  unfold make_response, PersonProfileResponse_init.
  destruct (getitem metadata "name") as [?|name]; [discriminate|].
  destruct (created_at_of metadata) as [?|created_at]; [discriminate|].
  cbn [mbind result_bind].
  destruct (as_str "name" name) as [?|name']; [discriminate|].
  destruct (as_opt_int "age" _) as [?|age]; [discriminate|].
  destruct (as_opt_str "location" _) as [?|location]; [discriminate|].
  cbn. intros [= <-]. split; reflexivity.
Qed.

(** What the loop returns, when it returns: the rows it kept, up to [limit]
    of them, each turned into a response, appended in the order of the rows. *)
Lemma search_loop_sound (exclude_id : option string) (limit : Z)
    (hits : list (F * string * Metadata * string)) :
  forall (acc out : list (PersonProfileResponse T F)),
    Z.of_nat (length acc) < limit ->
    search_loop exclude_id limit hits acc = inr out ->
    exists rs,
      out = (acc ++ rs)%list
      /\ Forall2 (fun hit r => make_response hit = inr r)
           (firstn (Z.to_nat limit - length acc) (kept exclude_id hits)) rs.
Proof.
  induction hits as [|hit rest IH]; intros acc out Hroom Hloop; cbn [search_loop] in Hloop.
  - injection Hloop as <-. exists []. rewrite app_nil_r. split; [reflexivity|].
    unfold kept. cbn [List.filter]. rewrite firstn_nil. constructor.
  - unfold kept. cbn [List.filter]. fold (kept exclude_id rest).
    change (snd hit) with (hit_id hit) in Hloop.
    destruct (is_excluded exclude_id (hit_id hit)) eqn:Hexcluded; cbn [negb].
    + apply IH; assumption.
    + destruct (make_response hit) as [e|r] eqn:Hresponse;
        cbn [mbind result_bind] in Hloop; [discriminate|].
      rewrite Z.geb_leb in Hloop.
      destruct (Z.leb_spec limit (Z.of_nat (length (acc ++ [r])))) as [Hfull|Hmore];
        rewrite length_app in *; cbn [length] in *.
      * injection Hloop as <-. exists [r]. split; [reflexivity|].
        replace (Z.to_nat limit - length acc)%nat with 1%nat by lia.
        cbn [firstn]. constructor; [exact Hresponse|]. rewrite firstn_O. constructor.
      * apply IH in Hloop as [rs [-> Hrs]]; [|rewrite length_app; cbn [length]; lia].
        exists (r :: rs). split; [rewrite <- app_assoc; reflexivity|].
        rewrite length_app in Hrs. cbn [length] in Hrs.
        replace (Z.to_nat limit - length acc)%nat
          with (S (Z.to_nat limit - (length acc + 1)))%nat by lia.
        cbn [firstn]. constructor; assumption.
Qed.

(** The loop returns whenever every row of the answer can be turned into a
    response. *)
Lemma search_loop_returns (exclude_id : option string) (limit : Z)
    (hits : list (F * string * Metadata * string)) :
  Forall (fun hit => is_ok (make_response (T := T) hit) = true) hits ->
  forall acc : list (PersonProfileResponse T F),
    exists out, search_loop exclude_id limit hits acc = inr out.
Proof.
  induction 1 as [|hit rest Hhit _ IH]; intros acc; cbn [search_loop].
  - eexists. reflexivity.
  - destruct (is_excluded exclude_id (snd hit)); [apply IH|].
    destruct (make_response hit) as [e|r]; [discriminate Hhit|].
    cbn [mbind result_bind].
    destruct (Z.of_nat (length (acc ++ [r])) >=? limit); [eexists; reflexivity|apply IH].
Qed.

Lemma kept_no_exclusion (hits : list (F * string * Metadata * string)) :
  kept None hits = hits.
Proof.
  unfold kept. induction hits as [|hit rest IH]; cbn; [reflexivity|]. f_equal. exact IH.
Qed.

End Search.

Section SearchClaims.
Context {T F C : Type}.
Context `{FloatOps F} `{SentenceTransformer F} `{ChromaCollection F C} `{DateTime T}.
Context `{Pydantic}.
Import VectorDB.

Lemma truthy_not_empty (x : string) : x <> "" -> truthy x = true.
Proof. destruct x; [contradiction|reflexivity]. Qed.

Lemma kept_not_excluded (x : string) (hits : list (F * string * Metadata * string))
    (hit : F * string * Metadata * string) :
  x <> "" -> In hit (kept (Some x) hits) -> hit_id hit <> x.
Proof.
  intros Hx Hin. unfold kept in Hin. apply List.filter_In in Hin as [_ Hkeep].
  cbn [is_excluded] in Hkeep. rewrite (truthy_not_empty _ Hx) in Hkeep.
  cbn [andb] in Hkeep. apply negb_true_iff in Hkeep.
  apply String.eqb_neq. exact Hkeep.
Qed.

(** C2, amended.  For a query that is not blank once stripped and a limit of
    at least one: when the model embeds the query and the store answers with
    rows in ascending distance, each of which can be turned into a response,
    [search_similar_profiles] returns the first [limit] rows it did not
    exclude, in the order of the store (nothing is sorted again), each with
    a score of [1.0 - distance]; the scores are non-increasing in any
    arithmetic where [1.0 - x] reverses the order; and without an
    [exclude_id], a store that answers with [limit] rows gives exactly
    [limit] results. *)
Theorem search_returns_nearest_first
    (self : VectorDatabase C) (query_description : string) (limit : Z)
    (exclude_id : option string) (embedding : list F) (res : QueryResult F) :
  1 <= limit ->
  strip query_description <> "" ->
  model_encode (strip query_description) = inr embedding ->
  coll_query (collection self) embedding (n_results limit exclude_id)
             (where_clause exclude_id) = inr res ->
  StronglySorted (fun a b => f_leb (hit_distance a) (hit_distance b) = true) (hits_of res) ->
  Forall (fun hit => is_ok (make_response (T := T) hit) = true) (hits_of res) ->
  (forall a b : F, f_leb a b = true -> f_leb (f_sub f_one b) (f_sub f_one a) = true) ->
  exists results : list (PersonProfileResponse T F),
    VectorDB.search_similar_profiles self query_description limit exclude_id = inr results
    /\ Forall2 (fun hit r => pr_id r = hit_id hit
                             /\ pr_similarity_score r = f_sub f_one (hit_distance hit))
         (firstn (Z.to_nat limit) (kept exclude_id (hits_of res))) results
    /\ StronglySorted
         (fun a b => f_leb (pr_similarity_score b) (pr_similarity_score a) = true) results
    /\ (exclude_id = None -> length (hits_of res) = Z.to_nat limit ->
        length results = Z.to_nat limit).
Proof.
  intros Hlimit Hnot_blank Hencode Hquery Hsorted Hrows Hreverse.
  destruct (search_loop_returns exclude_id limit (hits_of res) Hrows []) as [results Hloop].
  exists results.
  assert (Hsearch : VectorDB.search_similar_profiles self query_description limit exclude_id
                    = inr results).
  { unfold VectorDB.search_similar_profiles.
    rewrite (generate_embedding_not_blank _ Hnot_blank), Hencode.
    cbn [mbind result_bind]. rewrite Hquery. exact Hloop. }
  apply search_loop_sound in Hloop as [rs [Hout Hrs]]; [|cbn [length]; lia].
  cbn [app length] in Hout, Hrs. subst rs. rewrite Nat.sub_0_r in Hrs.
  assert (Hfields : Forall2 (fun hit r => pr_id r = hit_id hit
                               /\ pr_similarity_score r = f_sub f_one (hit_distance hit))
                      (firstn (Z.to_nat limit) (kept exclude_id (hits_of res))) results).
  { eapply Forall2_impl; [exact Hrs|]. intros hit r. apply make_response_fields. }
  split; [exact Hsearch|]. split; [exact Hfields|]. split.
  - eapply StronglySorted_Forall2; [|exact Hfields|].
    + intros a b a' b' [_ Ha] [_ Hb] Hab. cbn beta in Hab. rewrite Ha, Hb.
      apply Hreverse. exact Hab.
    + apply StronglySorted_firstn, StronglySorted_filter. exact Hsorted.
  - intros -> Hcount. rewrite kept_no_exclusion in Hfields.
    apply Forall2_length in Hfields. rewrite <- Hfields, length_firstn. lia.
Qed.

(** C3, amended.  With [exclude_id = x] (a non-empty string) and a limit of
    at least one, [search_similar_profiles] asks the store for [limit + 1]
    rows and drops [x] afterwards: when it returns, [x] is not among the ids
    of the results, there are at most [limit] of them, and they are the
    first [limit] rows of the store's answer whose id is not [x]. *)
Theorem search_excludes_requested_id
    (self : VectorDatabase C) (query_description : string) (limit : Z) (x : string)
    (results : list (PersonProfileResponse T F)) :
  1 <= limit ->
  x <> "" ->
  VectorDB.search_similar_profiles self query_description limit (Some x) = inr results ->
  ~ In x (map pr_id results)
  /\ Z.of_nat (length results) <= limit
  /\ exists (embedding : list F) (res : QueryResult F),
       generate_embedding query_description = inr embedding
       /\ coll_query (collection self) embedding (limit + 1) (Some (WhereNe "id" x)) = inr res
       /\ Forall2 (fun hit r => make_response hit = inr r)
            (firstn (Z.to_nat limit)
               (List.filter (fun hit => negb (String.eqb (hit_id hit) x)) (hits_of res)))
            results.
Proof.
  intros Hlimit Hx. unfold VectorDB.search_similar_profiles.
  destruct (generate_embedding query_description) as [?|embedding]; [discriminate|].
  cbn [mbind result_bind]. unfold n_results, where_clause. cbn [truthy_opt].
  rewrite (truthy_not_empty _ Hx).
  destruct (coll_query _ _ _ _) as [?|res] eqn:Hquery; [discriminate|].
  intros Hloop.
  apply search_loop_sound in Hloop as [rs [Hout Hrs]]; [|cbn [length]; lia].
  cbn [app length] in Hout, Hrs. subst rs. rewrite Nat.sub_0_r in Hrs.
  assert (Hlen : (length results <= Z.to_nat limit)%nat).
  { rewrite <- (Forall2_length _ _ _ Hrs). rewrite length_firstn. lia. }
  split; [|split; [lia|]].
  - intros Hin. apply in_map_iff in Hin as [r [Hid Hr]].
    destruct (Forall2_In_r _ _ _ _ Hrs Hr) as [hit [Hhit Hresponse]].
    apply make_response_fields in Hresponse as [Hsame _].
    apply In_firstn in Hhit.
    apply (kept_not_excluded x (hits_of res) hit Hx Hhit). congruence.
  - exists embedding, res. split; [reflexivity|]. split; [exact Hquery|].
    unfold kept in Hrs. cbn [is_excluded] in Hrs. rewrite (truthy_not_empty _ Hx) in Hrs.
    exact Hrs.
Qed.

End SearchClaims.

(** ** The reference collection answers queries nearest first *)

Section ReferenceQueryFacts.
Context {F : Type} `{FloatOps F}.
Import Reference VectorDB.


Lemma hits_of_query_result (l : list (F * Entry F)) :
  hits_of (query_result_of l) = map row_of l.
Proof.
  unfold hits_of, query_result_of. cbn [q_distances q_documents q_metadatas q_ids].
  induction l as [|x l IH]; cbn [map zip4]; [reflexivity|]. rewrite IH. reflexivity.
Qed.

Lemma In_insert_by_distance (x y : F * Entry F) (l : list (F * Entry F)) :
  In y (insert_by_distance x l) <-> y = x \/ In y l.
Proof.
  induction l as [|z l IH]; cbn [insert_by_distance].
  - cbn. intuition.
  - destruct (f_leb (fst x) (fst z)); cbn [In] in *; [intuition|].
    rewrite IH. intuition.
Qed.

Lemma In_nearest_first (y : F * Entry F) (l : list (F * Entry F)) :
  In y (nearest_first l) <-> In y l.
Proof.
  unfold nearest_first. induction l as [|x l IH]; cbn [fold_right]; [reflexivity|].
  rewrite In_insert_by_distance, IH. cbn [In]. intuition.
Qed.

Lemma length_insert_by_distance (x : F * Entry F) (l : list (F * Entry F)) :
  length (insert_by_distance x l) = S (length l).
Proof.
  induction l as [|z l IH]; cbn [insert_by_distance]; [reflexivity|].
  destruct (f_leb (fst x) (fst z)); cbn [length]; [reflexivity|]. rewrite IH. reflexivity.
Qed.

Lemma length_nearest_first (l : list (F * Entry F)) :
  length (nearest_first l) = length l.
Proof.
  unfold nearest_first. induction l as [|x l IH]; cbn [fold_right length]; [reflexivity|].
  rewrite length_insert_by_distance, IH. reflexivity.
Qed.


Lemma insert_by_distance_sorted (x : F * Entry F) (l : list (F * Entry F)) :
  leb_total -> leb_transitive ->
  StronglySorted by_distance l -> StronglySorted by_distance (insert_by_distance x l).
Proof.
  intros Htotal Htrans. induction 1 as [|z l Hsorted IH Hall]; cbn [insert_by_distance].
  - repeat constructor.
  - destruct (f_leb (fst x) (fst z)) eqn:Hxz.
    + constructor; [constructor; assumption|].
      constructor; [exact Hxz|].
      rewrite List.Forall_forall in *. intros y Hy.
      exact (Htrans _ _ _ Hxz (Hall y Hy)).
    + constructor; [exact IH|].
      rewrite List.Forall_forall in *. intros y Hy.
      apply (proj1 (In_insert_by_distance _ _ _)) in Hy as [->|Hy];
        [exact (Htotal _ _ Hxz)|auto].
Qed.

Lemma nearest_first_sorted (l : list (F * Entry F)) :
  leb_total -> leb_transitive -> StronglySorted by_distance (nearest_first l).
Proof.
  intros Htotal Htrans. unfold nearest_first.
  induction l as [|x l IH]; cbn [fold_right]; [constructor|].
  apply insert_by_distance_sorted; assumption.
Qed.

(** What an online reference collection answers to a query: rows in
    ascending distance, each the row of an entry it holds, as many as asked
    for when it holds that many candidates. *)
Lemma reference_query_answer (c : Collection F) (embedding : list F) (k : Z)
    (w : option Where) :
  online c = true ->
  exists res,
    ref_query c embedding k w = inr res
    /\ (leb_total -> leb_transitive ->
        StronglySorted (fun a b => f_leb (hit_distance a) (hit_distance b) = true)
          (hits_of res))
    /\ Forall (fun hit => exists e, In e (entries c)
                 /\ hit = row_of (squared_l2 embedding (e_embedding e), e)) (hits_of res)
    /\ (0 <= k <= Z.of_nat (length (List.filter (satisfies w) (entries c))) ->
        length (hits_of res) = Z.to_nat k).
Proof.
  intros Honline. unfold ref_query. rewrite Honline. eexists. split; [reflexivity|].
  rewrite hits_of_query_result.
  split; [|split].
  - intros Htotal Htrans.
    match goal with |- context [firstn ?n ?l] =>
      assert (Hranked : StronglySorted by_distance (firstn n l))
        by (apply StronglySorted_firstn, nearest_first_sorted; assumption);
      generalize dependent (firstn n l)
    end.
    intros ranked Hranked.
    induction Hranked as [|x l Hsorted IH Hall]; cbn [map]; constructor; [exact IH|].
    rewrite List.Forall_forall in *. intros hit Hhit.
    apply in_map_iff in Hhit as [y [<- Hy]]. exact (Hall y Hy).
  - apply List.Forall_forall. intros hit Hhit.
    apply in_map_iff in Hhit as [y [<- Hy]].
    apply In_firstn in Hy. apply (proj1 (In_nearest_first _ _)) in Hy.
    apply in_map_iff in Hy as [e [<- He]]. apply List.filter_In in He as [He _].
    exists e. split; [exact He|reflexivity].
  - intros Hk. rewrite length_map, length_firstn, length_nearest_first, length_map. lia.
Qed.

End ReferenceQueryFacts.

(** ** Exact arithmetic orders distances and scores as expected *)

Section ExactArithmetic.
Import Reference.

Lemma real_leb_true (a b : R) : f_leb a b = true <-> (a <= b)%R.
Proof. cbn. destruct (Rle_dec a b); split; intros; try discriminate; tauto. Qed.

Lemma real_leb_total : leb_total (F := R).
Proof.
  intros a b Hab. apply real_leb_true.
  destruct (Rle_dec a b) as [Hle|Hgt] eqn:Hdec.
  - cbn in Hab. rewrite Hdec in Hab. discriminate.
  - lra.
Qed.

Lemma real_leb_transitive : leb_transitive (F := R).
Proof.
  intros a b c Hab Hbc. apply real_leb_true in Hab, Hbc. apply real_leb_true. lra.
Qed.

Lemma real_sub_reverses (a b : R) :
  f_leb a b = true -> f_leb (f_sub f_one b) (f_sub f_one a) = true.
Proof.
  intros Hab. apply real_leb_true in Hab. apply real_leb_true. cbn. lra.
Qed.

End ExactArithmetic.

Section SearchExamples.
Import VectorDB Reference Samples.

(** Two profiles, a query for two matches, distances computed exactly: both
    come back, best score first. *)
Lemma search_returns_nearest_first_witness :
  exists results : list (PersonProfileResponse datetime R),
    VectorDB.search_similar_profiles two_profiles_real_db hiking_query 2 None = inr results
    /\ StronglySorted
         (fun a b => f_leb (pr_similarity_score b) (pr_similarity_score a) = true) results
    /\ length results = 2%nat.
Proof.
  eassert (Hencode : model_encode (F := R) (strip hiking_query) = inr _) by reflexivity.
  match type of Hencode with _ = inr ?embedding =>
    destruct (reference_query_answer (collection two_profiles_real_db) embedding 2 None
                eq_refl) as [res [Hquery [Hsorted [Hrows Hcount]]]];
    destruct (search_returns_nearest_first (T := datetime) two_profiles_real_db
                hiking_query 2 None embedding res)
      as [results [Hsearch [_ [Hscores Hlength]]]]
  end.
  - lia.
  - cbv. discriminate.
  - exact Hencode.
  - exact Hquery.
  - apply Hsorted; [exact real_leb_total|exact real_leb_transitive].
  - eapply List.Forall_impl; [|exact Hrows].
    intros hit [e [[<-|[<-|[]]] ->]]; reflexivity.
  - exact real_sub_reverses.
  - exists results. split; [exact Hsearch|]. split; [exact Hscores|].
    apply Hlength; [reflexivity|]. apply Hcount. change (0 <= 2 <= 2). lia.
Defined.

(** C2 as stated fails: a query of ten spaces satisfies the request schema,
    the store holds two profiles and the limit is two, yet
    [search_similar_profiles] raises [ValueError] and the route answers 500
    instead of two results. *)
Lemma blank_query_is_valid_and_rejected :
  valid_SimilaritySearchRequest blank_search = true
  /\ length (entries (collection two_profiles_db)) = 2%nat
  /\ VectorDB.search_similar_profiles (T := datetime) two_profiles_db blank_text 2 None
     = inl (ValueError "Text cannot be empty")
  /\ Main.http_status (Main.post_profiles_search (T := datetime) two_profiles_db blank_search)
     = 500.
Proof. run_service. Qed.

(** Alex searches with Alex's own description and id: only Sarah comes
    back. *)
Lemma search_excludes_requested_id_witness :
  ~ In "id-alex" (map pr_id alex_matches)
  /\ Z.of_nat (length alex_matches) <= 1
  /\ exists (embedding : list float) (res : QueryResult float),
       generate_embedding (pc_description alex) = inr embedding
       /\ coll_query (collection two_profiles_db) embedding (1 + 1)
            (Some (WhereNe "id" "id-alex")) = inr res
       /\ Forall2 (fun hit r => make_response hit = inr r)
            (firstn (Z.to_nat 1)
               (List.filter (fun hit => negb (String.eqb (hit_id hit) "id-alex"))
                  (hits_of res)))
            alex_matches.
Proof.
  apply (search_excludes_requested_id two_profiles_db (pc_description alex) 1 "id-alex"
           alex_matches).
  - lia.
  - discriminate.
  - vm_compute. reflexivity.
Defined.

(** C3 as stated fails for a limit below one, which the method accepts (only
    the request schema of the route asks for [limit >= 1]): with limit 0 and
    an [exclude_id], the store is asked for one row and the loop appends it
    before it compares, so one profile comes back, more than [limit]. *)
Lemma zero_limit_search_returns_a_profile :
  n_results 0 (Some "ghost") = 1
  /\ VectorDB.search_similar_profiles two_profiles_db hiking_query 0 (Some "ghost")
     = inr zero_limit_matches
  /\ map pr_id zero_limit_matches = ["id-alex"]
  /\ 0 < Z.of_nat (length zero_limit_matches).
Proof. repeat split; reflexivity. Qed.

End SearchExamples.

(** ** Rounding in binary64

    What the specification of Rocq's primitive floats ([SpecFloat]) gives for
    one rounding, in the range where results are normal floats: the result
    is the exact value truncated to 53 bits, or its successor. *)

Section RoundingIntegers.

Lemma digits2_pos_size (p : positive) : digits2_pos p = Pos.size p.
Proof. induction p as [p IH|p IH|]; cbn [digits2_pos Pos.size]; congruence. Qed.

Lemma digits2_pos_bounds (p : positive) :
  2 ^ (Z.pos (digits2_pos p) - 1) <= Z.pos p < 2 ^ Z.pos (digits2_pos p).
Proof.
  rewrite digits2_pos_size.
  pose proof (Pos.size_gt p) as Hgt. pose proof (Pos.size_le p) as Hle.
  apply Pos2Z.pos_lt_pos in Hgt. apply Pos2Z.pos_le_pos in Hle.
  rewrite Pos2Z.inj_pow in Hgt, Hle. change (Z.pos p~0) with (2 * Z.pos p) in Hle.
  split; [|exact Hgt].
  replace (Z.pos (Pos.size p)) with (Z.succ (Z.pos (Pos.size p) - 1)) in Hle by lia.
  rewrite Z.pow_succ_r in Hle by lia. lia.
Qed.

Lemma digits2_pos_unique (p : positive) (d : Z) :
  2 ^ (d - 1) <= Z.pos p < 2 ^ d -> Z.pos (digits2_pos p) = d.
Proof.
  intros [Hlow Hhigh]. pose proof (digits2_pos_bounds p) as [Hlow' Hhigh'].
  destruct (Z.lt_trichotomy (Z.pos (digits2_pos p)) d) as [Hlt|[Heq|Hgt]]; [|exact Heq|].
  - assert (2 ^ Z.pos (digits2_pos p) <= 2 ^ (d - 1)) by (apply Z.pow_le_mono_r; lia). lia.
  - assert (d < 0 \/ 0 <= d) as [Hneg|Hpos] by lia.
    + rewrite (Z.pow_neg_r 2 d) in Hhigh by lia. lia.
    + assert (2 ^ d <= 2 ^ (Z.pos (digits2_pos p) - 1)) by (apply Z.pow_le_mono_r; lia). lia.
Qed.

Lemma shr_1_m (r : shr_record) : 0 <= shr_m r -> shr_m (shr_1 r) = shr_m r / 2.
Proof.
  destruct r as [[|[p|p|]|p] rb sb]; cbn [shr_m shr_1]; intros Hm; try lia;
    rewrite <- Z.div2_div; reflexivity.
Qed.

Lemma pow2_xO (p : positive) : 2 ^ Z.pos p~0 = 2 ^ Z.pos p * 2 ^ Z.pos p.
Proof.
  change (Z.pos p~0) with (2 * Z.pos p). rewrite <- Z.pow_add_r by lia. f_equal. lia.
Qed.

Lemma pow2_xI (p : positive) : 2 ^ Z.pos p~1 = 2 * (2 ^ Z.pos p * 2 ^ Z.pos p).
Proof.
  change (Z.pos p~1) with (Z.succ (Z.pos p~0)). rewrite Z.pow_succ_r by lia.
  rewrite pow2_xO. reflexivity.
Qed.

Lemma shr_iter_m (p : positive) (r : shr_record) :
  0 <= shr_m r ->
  shr_m (SpecFloat.iter_pos shr_1 p r) = shr_m r / 2 ^ Z.pos p.
Proof.
  revert r. induction p as [p IH|p IH|]; intros r Hm; cbn [SpecFloat.iter_pos].
  - assert (Hpow : 0 < 2 ^ Z.pos p) by (apply Z.pow_pos_nonneg; lia).
    assert (H1 : 0 <= shr_m (shr_1 r)) by (rewrite shr_1_m by exact Hm; apply Z.div_pos; lia).
    assert (H2 : 0 <= shr_m (SpecFloat.iter_pos shr_1 p (shr_1 r)))
      by (rewrite IH by exact H1; apply Z.div_pos; lia).
    rewrite IH by exact H2. rewrite IH by exact H1. rewrite shr_1_m by exact Hm.
    rewrite !Z.div_div by lia. rewrite pow2_xI. f_equal; lia.
  - assert (Hpow : 0 < 2 ^ Z.pos p) by (apply Z.pow_pos_nonneg; lia).
    assert (H2 : 0 <= shr_m (SpecFloat.iter_pos shr_1 p r))
      by (rewrite IH by exact Hm; apply Z.div_pos; lia).
    rewrite IH by exact H2. rewrite IH by exact Hm.
    rewrite Z.div_div by lia. rewrite pow2_xO. reflexivity.
  - rewrite shr_1_m by exact Hm. reflexivity.
Qed.

Lemma shr_record_of_loc_m (m : Z) (l : location) : shr_m (shr_record_of_loc m l) = m.
Proof. destruct l as [|[| |]]; reflexivity. Qed.

(** In the normal range, [shr_fexp] drops the [k] low bits of a mantissa of
    [53 + k] bits. *)
Lemma shr_fexp_normal (p : positive) (e : Z) (l : location) (k : Z) :
  Z.pos (digits2_pos p) = 53 + k -> 0 <= k -> -1074 <= e + k ->
  shr_m (fst (shr_fexp prec emax (Z.pos p) e l)) = Z.pos p / 2 ^ k
  /\ snd (shr_fexp prec emax (Z.pos p) e l) = e + k.
Proof.
  intros Hdigits Hk Hnormal. unfold shr_fexp, fexp, SpecFloat.emin. cbn [Zdigits2].
  rewrite Hdigits.
  replace (Z.max (53 + k + e - prec) (3 - emax - prec) - e) with k
    by (unfold prec, emax; lia).
  destruct k as [|k|k]; cbn [shr fst snd]; [| |lia].
  - rewrite shr_record_of_loc_m, Z.pow_0_r, Z.div_1_r. split; [reflexivity|lia].
  - rewrite shr_iter_m by (rewrite shr_record_of_loc_m; lia).
    rewrite shr_record_of_loc_m. split; reflexivity.
Qed.

Lemma round_nearest_even_cases (m : Z) (l : location) :
  round_nearest_even m l = m \/ round_nearest_even m l = m + 1.
Proof.
  destruct l as [|[| |]]; cbn [round_nearest_even]; auto. destruct (Z.even m); auto.
Qed.

(** Rounding a mantissa of [53 + k] bits in the normal range: the result is a
    finite float whose mantissa has 53 bits and is the truncated mantissa or
    its successor. *)
Lemma binary_round_aux_normal (sx : bool) (p : positive) (ex : Z) (lx : location) (k : Z) :
  Z.pos (digits2_pos p) = 53 + k -> 0 <= k -> -1074 <= ex + k -> ex + k + 1 <= 971 ->
  exists (m : positive) (e : Z),
    binary_round_aux prec emax sx (Z.pos p) ex lx = S754_finite sx m e
    /\ Z.pos (digits2_pos m) = 53
    /\ ((e = ex + k /\ (Z.pos m = Z.pos p / 2 ^ k \/ Z.pos m = Z.pos p / 2 ^ k + 1))
        \/ (e = ex + k + 1 /\ Z.pos m = 2 ^ 52 /\ Z.pos p / 2 ^ k + 1 = 2 ^ 53)).
Proof.
  intros Hdigits Hk Hnormal Hfinite.
  pose proof (shr_fexp_normal p ex lx k Hdigits Hk Hnormal) as [Hm He].
  unfold binary_round_aux.
  destruct (shr_fexp prec emax (Z.pos p) ex lx) as [mrs' e']. cbn [fst snd] in Hm, He.
  subst e'.
  pose proof (digits2_pos_bounds p) as [Hlow Hhigh]. rewrite Hdigits in Hlow, Hhigh.
  set (truncated := Z.pos p / 2 ^ k) in *.
  assert (Hpow : 0 < 2 ^ k) by (apply Z.pow_pos_nonneg; lia).
  assert (Htruncated : 2 ^ 52 <= truncated < 2 ^ 53).
  { replace (53 + k - 1) with (52 + k) in Hlow by lia.
    rewrite Z.pow_add_r in Hlow, Hhigh by lia. unfold truncated. split.
    - apply Z.div_le_lower_bound; lia.
    - apply Z.div_lt_upper_bound; lia. }
  rewrite Hm.
  destruct (round_nearest_even_cases truncated (loc_of_shr_record mrs')) as [Hround|Hround];
    rewrite Hround.
  - destruct truncated as [|q|q] eqn:Hq; try lia.
    assert (Hdigits' : Z.pos (digits2_pos q) = 53 + 0)
      by (apply digits2_pos_unique; lia).
    pose proof (shr_fexp_normal q (ex + k) loc_Exact 0 Hdigits' ltac:(lia) ltac:(lia))
      as [Hm' He'].
    destruct (shr_fexp prec emax (Z.pos q) (ex + k) loc_Exact) as [mrs'' e''].
    cbn [fst snd] in Hm', He'. rewrite Hm', Z.pow_0_r, Z.div_1_r. subst e''.
    replace (ex + k + 0 <=? emax - prec) with true
      by (symmetry; apply Z.leb_le; unfold emax, prec; lia).
    exists q, (ex + k + 0). split; [reflexivity|]. split; [lia|].
    left. split; [lia|]. left. reflexivity.
  - destruct (Z.eq_dec (truncated + 1) (2 ^ 53)) as [Hcarry|Hcarry].
    + rewrite Hcarry.
      change (2 ^ 53) with (Z.pos (2 ^ 53)%positive).
      assert (Hdigits' : Z.pos (digits2_pos (2 ^ 53)) = 53 + 1) by reflexivity.
      pose proof (shr_fexp_normal (2 ^ 53) (ex + k) loc_Exact 1 Hdigits' ltac:(lia) ltac:(lia))
        as [Hm' He'].
      destruct (shr_fexp prec emax (Z.pos (2 ^ 53)) (ex + k) loc_Exact) as [mrs'' e''].
      cbn [fst snd] in Hm', He'. rewrite Hm'. subst e''.
      change (Z.pos (2 ^ 53) / 2 ^ 1) with (Z.pos (2 ^ 52)%positive).
      replace (ex + k + 1 <=? emax - prec) with true
        by (symmetry; apply Z.leb_le; unfold emax, prec; lia).
      exists (2 ^ 52)%positive, (ex + k + 1). split; [reflexivity|]. split; [reflexivity|].
      right. split; [reflexivity|]. split; reflexivity.
    + destruct (truncated + 1) as [|q|q] eqn:Hq; try lia.
      assert (Hdigits' : Z.pos (digits2_pos q) = 53 + 0)
        by (apply digits2_pos_unique; lia).
      pose proof (shr_fexp_normal q (ex + k) loc_Exact 0 Hdigits' ltac:(lia) ltac:(lia))
        as [Hm' He'].
      destruct (shr_fexp prec emax (Z.pos q) (ex + k) loc_Exact) as [mrs'' e''].
      cbn [fst snd] in Hm', He'. rewrite Hm', Z.pow_0_r, Z.div_1_r. subst e''.
      replace (ex + k + 0 <=? emax - prec) with true
        by (symmetry; apply Z.leb_le; unfold emax, prec; lia).
      exists q, (ex + k + 0). split; [reflexivity|]. split; [lia|].
      left. split; [lia|]. right. lia.
Qed.

End RoundingIntegers.

Section RoundingReals.
Local Open Scope R_scope.

(** The real number a mantissa and an exponent stand for. *)
Definition F2R (m e : Z) : R := IZR m * powerRZ 2 e.

(** The relative error of one rounding, bounded by one unit in the last
    place: [2^-52]. *)
Definition ulp_error : R := / 4503599627370496.

Lemma powerRZ_2_pos (e : Z) : 0 < powerRZ 2 e.
Proof. apply powerRZ_lt. lra. Qed.

Lemma powerRZ_2_add (a b : Z) : powerRZ 2 (a + b) = powerRZ 2 a * powerRZ 2 b.
Proof. apply powerRZ_add. lra. Qed.

Lemma powerRZ_2_nonneg (k : Z) : (0 <= k)%Z -> powerRZ 2 k = IZR (2 ^ k).
Proof.
  intros Hk. destruct k as [|k|k]; [reflexivity| |lia].
  change (2 ^ Z.pos k)%Z with (Z.pow_pos 2 k). rewrite Zpower_pos_powerRZ. reflexivity.
Qed.

Lemma F2R_pos (m : positive) (e : Z) : 0 < F2R (Z.pos m) e.
Proof.
  unfold F2R. apply Rmult_lt_0_compat; [apply IZR_lt; lia|apply powerRZ_2_pos].
Qed.

(** One rounding in the normal range, in real numbers: the value [v] of the
    result is within [ulp_error * v] of every real between the truncated
    input and its successor. *)
Lemma binary_round_aux_close (sx : bool) (p : positive) (ex : Z) (lx : location) (k : Z) :
  Z.pos (digits2_pos p) = (53 + k)%Z -> (0 <= k)%Z ->
  (-1074 <= ex + k)%Z -> (ex + k + 1 <= 971)%Z ->
  exists (m : positive) (e : Z),
    binary_round_aux prec emax sx (Z.pos p) ex lx = S754_finite sx m e
    /\ Z.pos (digits2_pos m) = 53%Z
    /\ (ex + k <= e <= ex + k + 1)%Z
    /\ F2R (Z.pos m) e * (1 - ulp_error) <= F2R (Z.pos p) ex
    /\ F2R (Z.pos p + 1) ex <= F2R (Z.pos m) e * (1 + ulp_error).
Proof.
  intros Hdigits Hk Hnormal Hfinite.
  destruct (binary_round_aux_normal sx p ex lx k Hdigits Hk Hnormal Hfinite)
    as (m & e & Hround & Hdigits' & Hcases).
  exists m, e. split; [exact Hround|]. split; [exact Hdigits'|].
  pose proof (digits2_pos_bounds p) as [Hlow Hhigh]. rewrite Hdigits in Hlow, Hhigh.
  pose proof (digits2_pos_bounds m) as [Hlow' Hhigh']. rewrite Hdigits' in Hlow', Hhigh'.
  set (truncated := (Z.pos p / 2 ^ k)%Z) in *.
  assert (Hpow : (0 < 2 ^ k)%Z) by (apply Z.pow_pos_nonneg; lia).
  assert (Hdiv : (truncated * 2 ^ k <= Z.pos p /\ Z.pos p + 1 <= (truncated + 1) * 2 ^ k)%Z).
  { pose proof (Z.div_mod (Z.pos p) (2 ^ k) ltac:(lia)) as Heq.
    pose proof (Z.mod_pos_bound (Z.pos p) (2 ^ k) Hpow) as Hmod.
    fold truncated in Heq. nia. }
  destruct Hdiv as [Hbelow Habove].
  set (u := powerRZ 2 (ex + k)).
  assert (Hu : 0 < u) by apply powerRZ_2_pos.
  assert (Hscale : u = powerRZ 2 ex * IZR (2 ^ k))
    by (unfold u; rewrite powerRZ_2_add, (powerRZ_2_nonneg k Hk); reflexivity).
  assert (Hex : 0 < powerRZ 2 ex) by apply powerRZ_2_pos.
  assert (Hlower : IZR truncated * u <= F2R (Z.pos p) ex).
  { unfold F2R. rewrite Hscale.
    replace (IZR truncated * (powerRZ 2 ex * IZR (2 ^ k)))
      with (IZR (truncated * 2 ^ k) * powerRZ 2 ex) by (rewrite mult_IZR; ring).
    apply Rmult_le_compat_r; [lra|]. apply IZR_le. exact Hbelow. }
  assert (Hupper : F2R (Z.pos p + 1) ex <= (IZR truncated + 1) * u).
  { unfold F2R. rewrite Hscale.
    replace ((IZR truncated + 1) * (powerRZ 2 ex * IZR (2 ^ k)))
      with (IZR ((truncated + 1) * 2 ^ k) * powerRZ 2 ex)
      by (rewrite mult_IZR, plus_IZR; ring).
    apply Rmult_le_compat_r; [lra|]. apply IZR_le. exact Habove. }
  assert (Hvalue : exists rounded : Z,
             (rounded = truncated \/ rounded = truncated + 1)%Z
             /\ (2 ^ 52 <= rounded)%Z
             /\ F2R (Z.pos m) e = IZR rounded * u).
  { destruct Hcases as [[-> [Hm|Hm]]|[-> [Hm Hcarry]]].
    - exists truncated. split; [left; reflexivity|]. split; [lia|].
      unfold F2R. rewrite Hm. reflexivity.
    - exists (truncated + 1)%Z. split; [right; reflexivity|]. split; [lia|].
      unfold F2R. rewrite Hm. reflexivity.
    - exists (truncated + 1)%Z. split; [right; reflexivity|]. split; [lia|].
      unfold F2R. rewrite Hm, Hcarry. unfold u.
      replace (ex + k + 1)%Z with ((ex + k) + 1)%Z by lia.
      rewrite powerRZ_2_add. change (powerRZ 2 1) with (2 * 1).
      change (2 ^ 53)%Z with (2 * 2 ^ 52)%Z. rewrite mult_IZR. ring. }
  destruct Hvalue as (rounded & Hrounded & Hlarge & ->).
  split; [destruct Hcases as [[-> _]|[-> _]]; lia|].
  assert (Hlarge' : 4503599627370496 * u <= IZR rounded * u).
  { apply Rmult_le_compat_r; [lra|]. apply IZR_le. exact Hlarge. }
  assert (Hrounded' : IZR rounded * u = IZR truncated * u
                      \/ IZR rounded * u = IZR truncated * u + u).
  { destruct Hrounded as [->| ->]; [left; reflexivity|right]. rewrite plus_IZR. ring. }
  unfold ulp_error. split.
  - apply Rle_trans with (IZR truncated * u); [|exact Hlower].
    destruct Hrounded' as [Heq|Heq]; rewrite Heq in *; lra.
  - apply Rle_trans with ((IZR truncated + 1) * u); [exact Hupper|].
    destruct Hrounded' as [Heq|Heq]; rewrite Heq in *; lra.
Qed.

End RoundingReals.

Section OperationsInNormalRange.
Local Open Scope R_scope.

Lemma F2R_mul (m1 e1 m2 e2 : Z) : F2R m1 e1 * F2R m2 e2 = F2R (m1 * m2) (e1 + e2).
Proof. unfold F2R. rewrite mult_IZR, powerRZ_2_add. ring. Qed.

Lemma square_le (a b : R) : 0 <= a -> a <= b -> a * a <= b * b.
Proof. intros Ha Hab. apply Rmult_le_compat; lra. Qed.

Lemma ulp_error_small : 0 < ulp_error < 1.
Proof. unfold ulp_error. lra. Qed.

(** The square root of a normal float [d]: the computed root [n] satisfies
    [(n (1 - ulp_error))^2 <= d]. *)
Lemma SF64sqrt_close (md : positive) (ed : Z) :
  Z.pos (digits2_pos md) = 53%Z -> (-1052 <= ed <= 948)%Z ->
  exists (mn : positive) (en : Z),
    SF64sqrt (S754_finite false md ed) = S754_finite false mn en
    /\ Z.pos (digits2_pos mn) = 53%Z
    /\ (ed - 53 <= 2 * en <= ed - 49)%Z
    /\ (F2R (Z.pos mn) en * (1 - ulp_error)) * (F2R (Z.pos mn) en * (1 - ulp_error))
       <= F2R (Z.pos md) ed.
Proof.
  intros Hdigits Hrange.
  pose proof (digits2_pos_bounds md) as [Hlow Hhigh]. rewrite Hdigits in Hlow, Hhigh.
  change (2 ^ (53 - 1))%Z with 4503599627370496%Z in Hlow.
  change (2 ^ 53)%Z with 9007199254740992%Z in Hhigh.
  unfold SF64sqrt, SFsqrt, SFsqrt_core_binary. cbn [Zdigits2]. rewrite Hdigits.
  set (half := Z.div2 ed).
  assert (Hhalf : (ed = 2 * half \/ ed = 2 * half + 1)%Z).
  { unfold half. rewrite Z.div2_div. Z.div_mod_to_equations. lia. }
  assert (Hexp : Z.min (fexp prec emax (Z.div2 (53 + ed + 1))) half = (half - 26)%Z).
  { unfold fexp, SpecFloat.emin, prec, emax. rewrite Z.div2_div.
    unfold half in *. rewrite Z.div2_div in *. Z.div_mod_to_equations. lia. }
  rewrite Hexp.
  assert (Hshift : exists s : positive,
             (ed - 2 * (half - 26) = Z.pos s)%Z /\ (s = 52%positive \/ s = 53%positive)).
  { destruct Hhalf as [Heven|Hodd]; [exists 52%positive|exists 53%positive]; split; auto; lia. }
  destruct Hshift as (s & Hs & Hs'). rewrite Hs.
  rewrite Z.shiftl_mul_pow2 by lia.
  set (scaled := (Z.pos md * 2 ^ Z.pos s)%Z).
  assert (Hscaled : (4503599627370496 * 4503599627370496 <= scaled
                     < 9007199254740992 * 9007199254740992)%Z).
  { unfold scaled. destruct Hs' as [-> | ->].
    - change (2 ^ 52)%Z with 4503599627370496%Z. lia.
    - change (2 ^ 53)%Z with 9007199254740992%Z. lia. }
  pose proof (Z.sqrtrem_spec scaled ltac:(lia)) as Hsqrt.
  destruct (Z.sqrtrem scaled) as [q r]. destruct Hsqrt as [Hsquare Hrem].
  assert (Hq : (4503599627370496 <= q < 9007199254740992)%Z) by nia.
  destruct q as [|pq|pq]; try lia.
  assert (Hdigits' : Z.pos (digits2_pos pq) = (53 + 0)%Z)
    by (apply digits2_pos_unique;
        change (2 ^ (53 + 0 - 1))%Z with 4503599627370496%Z;
        change (2 ^ (53 + 0))%Z with 9007199254740992%Z; lia).
  destruct (binary_round_aux_close false pq (half - 26)
              (if (r =? 0)%Z then loc_Exact
               else loc_Inexact (if (r <=? Z.pos pq)%Z then Lt else Gt))
              0 Hdigits' ltac:(lia) ltac:(lia) ltac:(lia))
    as (mn & en & Hround & Hmn & Hen & Hclose & _).
  exists mn, en. split; [exact Hround|]. split; [exact Hmn|]. split; [lia|].
  pose proof (F2R_pos mn en) as Hn. pose proof ulp_error_small as Herr.
  apply Rle_trans with (F2R (Z.pos pq) (half - 26) * F2R (Z.pos pq) (half - 26)).
  - apply square_le; [|exact Hclose]. apply Rmult_le_pos; lra.
  - rewrite F2R_mul.
    replace (F2R (Z.pos md) ed)
      with (F2R scaled (half - 26 + (half - 26))).
    + unfold F2R. apply Rmult_le_compat_r; [apply Rlt_le, powerRZ_2_pos|].
      apply IZR_le. lia.
    + unfold F2R, scaled.
      replace (powerRZ 2 ed)
        with (powerRZ 2 (Z.pos s) * powerRZ 2 (half - 26 + (half - 26)))
        by (rewrite <- powerRZ_2_add; f_equal; lia).
      rewrite mult_IZR, (powerRZ_2_nonneg (Z.pos s)) by lia. ring.
Qed.

(** The square of a normal float [n]: the computed product [p] satisfies
    [p (1 - ulp_error) <= n^2]. *)
Lemma SF64mul_square_close (mn : positive) (en : Z) :
  Z.pos (digits2_pos mn) = 53%Z -> (-560 <= en <= 455)%Z ->
  exists (mp : positive) (ep : Z),
    SF64mul (S754_finite false mn en) (S754_finite false mn en) = S754_finite false mp ep
    /\ Z.pos (digits2_pos mp) = 53%Z
    /\ (2 * en + 52 <= ep <= 2 * en + 54)%Z
    /\ F2R (Z.pos mp) ep * (1 - ulp_error) <= F2R (Z.pos mn) en * F2R (Z.pos mn) en.
Proof.
  intros Hdigits Hrange.
  pose proof (digits2_pos_bounds mn) as [Hlow Hhigh]. rewrite Hdigits in Hlow, Hhigh.
  change (2 ^ (53 - 1))%Z with 4503599627370496%Z in Hlow.
  change (2 ^ 53)%Z with 9007199254740992%Z in Hhigh.
  unfold SF64mul, SFmul. cbn [xorb].
  assert (Hproduct : exists k : Z,
             (k = 52 \/ k = 53)%Z /\ Z.pos (digits2_pos (mn * mn)) = (53 + k)%Z).
  { destruct (Z_lt_le_dec (Z.pos (mn * mn)) (2 ^ 105)) as [Hsmall|Hbig].
    - exists 52%Z. split; [left; reflexivity|]. apply digits2_pos_unique.
      change (2 ^ (53 + 52 - 1))%Z with (4503599627370496 * 4503599627370496)%Z.
      split; [|exact Hsmall]. rewrite Pos2Z.inj_mul. nia.
    - exists 53%Z. split; [right; reflexivity|]. apply digits2_pos_unique.
      change (2 ^ (53 + 53))%Z with (9007199254740992 * 9007199254740992)%Z.
      split; [exact Hbig|]. rewrite Pos2Z.inj_mul. nia. }
  destruct Hproduct as (k & Hk & Hdigits').
  destruct (binary_round_aux_close false (mn * mn) (en + en) loc_Exact k Hdigits'
              ltac:(lia) ltac:(lia) ltac:(lia))
    as (mp & ep & Hround & Hmp & Hep & Hclose & _).
  exists mp, ep. split; [exact Hround|]. split; [exact Hmp|]. split; [lia|].
  rewrite F2R_mul. rewrite <- Pos2Z.inj_mul. exact Hclose.
Qed.

(** The quotient of two normal floats of about the same size: the computed
    quotient [q] satisfies [d <= q (1 + ulp_error) p]. *)
Lemma SF64div_close (md : positive) (ed : Z) (mp : positive) (ep : Z) :
  Z.pos (digits2_pos md) = 53%Z -> Z.pos (digits2_pos mp) = 53%Z ->
  (-10 <= ed - ep <= 10)%Z ->
  exists (mq : positive) (eq : Z),
    SF64div (S754_finite false md ed) (S754_finite false mp ep) = S754_finite false mq eq
    /\ Z.pos (digits2_pos mq) = 53%Z
    /\ F2R (Z.pos md) ed <= F2R (Z.pos mq) eq * (1 + ulp_error) * F2R (Z.pos mp) ep.
Proof.
  intros Hdigits Hdigits' Hrange.
  pose proof (digits2_pos_bounds md) as [Hlow Hhigh]. rewrite Hdigits in Hlow, Hhigh.
  pose proof (digits2_pos_bounds mp) as [Hlow' Hhigh']. rewrite Hdigits' in Hlow', Hhigh'.
  change (2 ^ (53 - 1))%Z with 4503599627370496%Z in Hlow, Hlow'.
  change (2 ^ 53)%Z with 9007199254740992%Z in Hhigh, Hhigh'.
  unfold SF64div, SFdiv, SFdiv_core_binary. cbn [Zdigits2 xorb].
  rewrite Hdigits, Hdigits'.
  assert (Hexp : Z.min (fexp prec emax (53 + ed - (53 + ep))) (ed - ep) = (ed - ep - 53)%Z)
    by (unfold fexp, SpecFloat.emin, prec, emax; lia).
  rewrite Hexp.
  replace (ed - ep - (ed - ep - 53))%Z with 53%Z by lia.
  rewrite Z.shiftl_mul_pow2 by lia. change (2 ^ 53)%Z with 9007199254740992%Z.
  pose proof (Z.div_eucl_eq (Z.pos md * 9007199254740992) (Z.pos mp) ltac:(lia)) as Heq.
  pose proof (Z.mod_pos_bound (Z.pos md * 9007199254740992) (Z.pos mp) ltac:(lia)) as Hmod.
  unfold Z.modulo in Hmod.
  destruct (Z.div_eucl (Z.pos md * 9007199254740992) (Z.pos mp)) as [q r].
  assert (Hq : (4503599627370496 <= q < 2 * 9007199254740992)%Z) by nia.
  destruct q as [|pq|pq]; try lia.
  assert (Hquotient : exists k : Z,
             (k = 0 \/ k = 1)%Z /\ Z.pos (digits2_pos pq) = (53 + k)%Z).
  { destruct (Z_lt_le_dec (Z.pos pq) 9007199254740992) as [Hsmall|Hbig].
    - exists 0%Z. split; [left; reflexivity|]. apply digits2_pos_unique.
      change (2 ^ (53 + 0 - 1))%Z with 4503599627370496%Z.
      change (2 ^ (53 + 0))%Z with 9007199254740992%Z. lia.
    - exists 1%Z. split; [right; reflexivity|]. apply digits2_pos_unique.
      change (2 ^ (53 + 1 - 1))%Z with 9007199254740992%Z.
      change (2 ^ (53 + 1))%Z with (2 * 9007199254740992)%Z. lia. }
  destruct Hquotient as (k & Hk & Hdigits'').
  destruct (binary_round_aux_close false pq (ed - ep - 53) (new_location (Z.pos mp) r) k
              Hdigits'' ltac:(lia) ltac:(lia) ltac:(lia))
    as (mq & eq & Hround & Hmq & Heq' & _ & Hclose).
  exists mq, eq. split; [exact Hround|]. split; [exact Hmq|].
  pose proof (F2R_pos mp ep) as Hp.
  apply Rle_trans with (F2R (Z.pos pq + 1) (ed - ep - 53) * F2R (Z.pos mp) ep).
  - rewrite F2R_mul. 
    replace (F2R (Z.pos md) ed)
      with (F2R (Z.pos md * 9007199254740992) (ed - ep - 53 + ep)).
    + unfold F2R. apply Rmult_le_compat_r; [apply Rlt_le, powerRZ_2_pos|].
      apply IZR_le. nia.
    + unfold F2R.
      replace (powerRZ 2 ed) with (powerRZ 2 53 * powerRZ 2 (ed - ep - 53 + ep))
        by (rewrite <- powerRZ_2_add; f_equal; lia).
      rewrite mult_IZR, (powerRZ_2_nonneg 53) by lia.
      change (2 ^ 53)%Z with 9007199254740992%Z. ring.
  - apply Rmult_le_compat_r; [lra|]. exact Hclose.
Qed.

End OperationsInNormalRange.

Section SelfQuotient.
Local Open Scope R_scope.

Lemma powerRZ_2_le (a b : Z) : (a <= b)%Z -> powerRZ 2 a <= powerRZ 2 b.
Proof.
  intros Hab. replace b with (a + (b - a))%Z by lia.
  rewrite powerRZ_2_add, (powerRZ_2_nonneg (b - a)) by lia.
  pose proof (powerRZ_2_pos a) as Ha.
  assert (Hone : 1 <= IZR (2 ^ (b - a))).
  { apply IZR_le. pose proof (Z.pow_pos_nonneg 2 (b - a)). lia. }
  rewrite <- (Rmult_1_r (powerRZ 2 a)) at 1. apply Rmult_le_compat_l; lra.
Qed.

Lemma powerRZ_2_minus_53 : powerRZ 2 (-53) * 9007199254740992 = 1.
Proof.
  change 9007199254740992 with (IZR (2 ^ 53)).
  rewrite <- (powerRZ_2_nonneg 53) by lia. rewrite <- powerRZ_2_add. reflexivity.
Qed.

(** Three roundings apart: [q = d / (n * n)] with [n = sqrt d] is at least
    [1 - 4 ulp_error]. *)
Lemma three_roundings (d n p q : R) :
  0 < n -> 0 < p -> 0 < q ->
  (n * (1 - ulp_error)) * (n * (1 - ulp_error)) <= d ->
  p * (1 - ulp_error) <= n * n ->
  d <= q * (1 + ulp_error) * p ->
  1 - 4 * ulp_error <= q.
Proof.
  intros Hn Hp Hq Hsqrt Hmul Hdiv. pose proof ulp_error_small as Herr.
  assert (Hchain : p * ((1 - ulp_error) * (1 - ulp_error) * (1 - ulp_error))
                   <= p * (q * (1 + ulp_error))).
  { apply Rle_trans with (n * n * ((1 - ulp_error) * (1 - ulp_error))).
    - replace (p * ((1 - ulp_error) * (1 - ulp_error) * (1 - ulp_error)))
        with (p * (1 - ulp_error) * ((1 - ulp_error) * (1 - ulp_error))) by ring.
      apply Rmult_le_compat_r; [|exact Hmul]. apply Rmult_le_pos; lra.
    - apply Rle_trans with d; [|lra].
      replace (n * n * ((1 - ulp_error) * (1 - ulp_error)))
        with (n * (1 - ulp_error) * (n * (1 - ulp_error))) by ring.
      exact Hsqrt. }
  apply Rmult_le_reg_l in Hchain; [|exact Hp].
  assert (Hcube : (1 - 4 * ulp_error) * (1 + ulp_error)
                  <= (1 - ulp_error) * (1 - ulp_error) * (1 - ulp_error)).
  { assert (0 <= ulp_error * ulp_error * (7 - ulp_error))
      by (apply Rmult_le_pos; [apply Rmult_le_pos|]; lra).
    lra. }
  apply Rmult_le_reg_r with (1 + ulp_error); lra.
Qed.

(** A float of 53 bits whose value is at least [1 - 2^-50] compares so. *)
Lemma SFleb_lower_bound (mq : positive) (eq : Z) :
  Z.pos (digits2_pos mq) = 53%Z ->
  1 - 4 * ulp_error <= F2R (Z.pos mq) eq ->
  SFleb (S754_finite false 9007199254740984 (-53)) (S754_finite false mq eq) = true.
Proof.
  intros Hdigits Hvalue.
  pose proof (digits2_pos_bounds mq) as [Hlow Hhigh]. rewrite Hdigits in Hlow, Hhigh.
  change (2 ^ 53)%Z with 9007199254740992%Z in Hhigh.
  pose proof powerRZ_2_minus_53 as Hunit. pose proof (powerRZ_2_pos (-53)) as Hpos.
  assert (Hmantissa : IZR (Z.pos mq) < 9007199254740992) by (apply IZR_lt; exact Hhigh).
  unfold ulp_error in Hvalue. unfold F2R in Hvalue.
  unfold SFleb, SFcompare.
  destruct (Z.compare_spec (-53) eq) as [<-|Hlt|Hgt]; [|reflexivity|exfalso].
  - change (PosDef.Pos.compare_cont Eq 9007199254740984 mq)
      with (Pos.compare 9007199254740984 mq).
    destruct (Pos.compare_spec 9007199254740984 mq) as [_|_|Hbad]; try reflexivity.
    exfalso. apply Pos2Z.pos_lt_pos in Hbad.
    assert (IZR (Z.pos mq) <= 9007199254740983) by (apply IZR_le; lia).
    assert (IZR (Z.pos mq) * powerRZ 2 (-53) <= 9007199254740983 * powerRZ 2 (-53))
      by (apply Rmult_le_compat_r; lra).
    lra.
  - pose proof (powerRZ_2_le eq (-54) ltac:(lia)) as Hsmall.
    pose proof (powerRZ_2_pos eq) as Hpos'.
    assert (Hhalf : powerRZ 2 (-54) * 2 = powerRZ 2 (-53)).
    { change (-53)%Z with (-54 + 1)%Z. rewrite powerRZ_2_add.
      change (powerRZ 2 1) with (2 * 1). ring. }
    assert (IZR (Z.pos mq) * powerRZ 2 eq <= 9007199254740992 * powerRZ 2 (-54)).
    { apply Rmult_le_compat; try lra. apply IZR_le. lia. }
    lra.
Qed.

(** The square root, its square and the quotient, on the representation of
    a float between [2^-1000] and [2^1000]. *)
Lemma SF64_self_quotient (md : positive) (ed : Z) :
  Z.pos (digits2_pos md) = 53%Z -> (-1052 <= ed <= 948)%Z ->
  let d := S754_finite false md ed in
  let n := SF64sqrt d in
  exists (mn : positive) (en : Z) (mq : positive) (eq : Z),
    n = S754_finite false mn en
    /\ SF64div d (SF64mul n n) = S754_finite false mq eq
    /\ SFleb (S754_finite false 9007199254740984 (-53)) (S754_finite false mq eq) = true.
Proof.
  intros Hdigits Hrange. cbv zeta.
  destruct (SF64sqrt_close md ed Hdigits Hrange) as (mn & en & -> & Hmn & Hen & Hsqrt).
  destruct (SF64mul_square_close mn en Hmn ltac:(lia)) as (mp & ep & -> & Hmp & Hep & Hmul).
  destruct (SF64div_close md ed mp ep Hdigits Hmp ltac:(lia)) as (mq & eq & -> & Hmq & Hdiv).
  exists mn, en, mq, eq. split; [reflexivity|]. split; [reflexivity|].
  apply SFleb_lower_bound; [exact Hmq|].
  apply (three_roundings (F2R (Z.pos md) ed) (F2R (Z.pos mn) en) (F2R (Z.pos mp) ep));
    try apply F2R_pos; assumption.
Qed.

End SelfQuotient.

Section SelfQuotientFloat.

Lemma normal_float_shape (d : float) :
  PrimFloat.leb 0x1p-1000 d = true -> PrimFloat.leb d 0x1p1000 = true ->
  exists (md : positive) (ed : Z),
    Prim2SF d = S754_finite false md ed
    /\ Z.pos (digits2_pos md) = 53 /\ -1052 <= ed <= 948.
Proof.
  rewrite !FloatAxioms.leb_spec. pose proof (Prim2SF_valid d) as Hvalid.
  change (Prim2SF 0x1p-1000) with (S754_finite false 4503599627370496 (-1052)).
  change (Prim2SF 0x1p1000) with (S754_finite false 4503599627370496 948).
  destruct (Prim2SF d) as [s|s| |s md ed]; unfold SFleb, SFcompare.
  - destruct s; discriminate.
  - destruct s; discriminate.
  - discriminate.
  - destruct s; [discriminate|]. intros Hlow Hhigh.
    assert (Hed : -1052 <= ed <= 948).
    { destruct (Z.compare_spec (-1052) ed); destruct (Z.compare_spec ed 948);
        try discriminate; lia. }
    exists md, ed. split; [reflexivity|]. split; [|exact Hed].
    cbn [valid_binary] in Hvalid. unfold bounded, canonical_mantissa in Hvalid.
    apply andb_prop in Hvalid as [Hcanonical _]. apply Z.eqb_eq in Hcanonical.
    unfold fexp, SpecFloat.emin, prec, emax in Hcanonical. lia.
Qed.

(** In binary64, for every float [d] between [2^-1000] and [2^1000]: the
    root [n = sqrt d] is not zero and [d / (n * n)] is a positive float, at
    least [1 - 2^-50]. *)
Lemma self_quotient_close (d : float) :
  PrimFloat.leb 0x1p-1000 d = true -> PrimFloat.leb d 0x1p1000 = true ->
  let n := PrimFloat.sqrt d in
  let q := (d / (n * n))%float in
  PrimFloat.eqb n 0 = false
  /\ PrimFloat.ltb 0 q = true
  /\ PrimFloat.leb 0x1.ffffffffffff8p-1 q = true.
Proof.
  intros Hlow Hhigh. cbv zeta.
  destruct (normal_float_shape d Hlow Hhigh) as (md & ed & Hd & Hdigits & Hrange).
  destruct (SF64_self_quotient md ed Hdigits Hrange)
    as (mn & en & mq & eq & Hn & Hq & Hbound).
  rewrite FloatAxioms.eqb_spec, FloatAxioms.ltb_spec, FloatAxioms.leb_spec, div_spec,
    mul_spec, !sqrt_spec, Hd.
  rewrite Hq, Hn.
  change (Prim2SF 0) with (S754_zero false).
  change (Prim2SF 0x1.ffffffffffff8p-1) with (S754_finite false 9007199254740984 (-53)).
  split; [reflexivity|]. split; [reflexivity|exact Hbound].
Qed.

End SelfQuotientFloat.

Section QuotientSign.

Lemma shr_fexp_nonneg (m e : Z) (l : location) :
  0 <= m -> 0 <= shr_m (fst (shr_fexp prec emax m e l)).
Proof.
  intros Hm. unfold shr_fexp, shr.
  destruct (fexp prec emax (Zdigits2 m + e) - e) as [|p|p]; cbn [fst];
    rewrite ?shr_iter_m by (rewrite shr_record_of_loc_m; exact Hm);
    rewrite shr_record_of_loc_m; [exact Hm| |exact Hm].
  apply Z.div_pos; [exact Hm|]. apply Z.pow_pos_nonneg; lia.
Qed.

(** Rounding a non-negative mantissa gives a zero, a finite float or an
    infinity of the requested sign, never a NaN. *)
Lemma binary_round_aux_sign (sx : bool) (mx ex : Z) (lx : location) :
  0 <= mx ->
  match binary_round_aux prec emax sx mx ex lx with
  | S754_zero s | S754_infinity s | S754_finite s _ _ => s = sx
  | S754_nan => False
  end.
Proof.
  intros Hmx. unfold binary_round_aux.
  pose proof (shr_fexp_nonneg mx ex lx Hmx) as Hfirst.
  destruct (shr_fexp prec emax mx ex lx) as [mrs' e']. cbn [fst] in Hfirst.
  assert (Hrounded : 0 <= round_nearest_even (shr_m mrs') (loc_of_shr_record mrs'))
    by (destruct (round_nearest_even_cases (shr_m mrs') (loc_of_shr_record mrs')) as [->| ->];
        lia).
  pose proof (shr_fexp_nonneg _ e' loc_Exact Hrounded) as Hsecond.
  destruct (shr_fexp prec emax _ e' loc_Exact) as [mrs'' e'']. cbn [fst] in Hsecond.
  destruct (shr_m mrs'') as [|m|m]; [reflexivity| |lia].
  destruct (e'' <=? emax - prec); reflexivity.
Qed.

(** A float that is zero or negative, divided by a positive finite float, is
    zero or negative: below [1.0] and not above [0.0]. *)
Lemma SF64div_nonpositive (x y : spec_float) :
  SFleb x (S754_zero false) = true ->
  SFltb (S754_zero false) y = true ->
  SFltb y (S754_infinity false) = true ->
  SFltb (SF64div x y) (S754_finite false 4503599627370496 (-52)) = true
  /\ SFltb (S754_zero false) (SF64div x y) = false.
Proof.
  destruct y as [sy|sy| |sy my ey]; try discriminate;
    [destruct sy; discriminate|destruct sy; [discriminate|]].
  destruct x as [sx|sx| |sx mx ex]; try discriminate.
  - intros _ _ _. split; reflexivity.
  - destruct sx; [|discriminate]. intros _ _ _. split; reflexivity.
  - destruct sx; [|discriminate]. intros _ _ _.
    unfold SF64div, SFdiv. cbn [xorb].
    destruct (SFdiv_core_binary prec emax (Z.pos mx) ex (Z.pos my) ey) as [[mz ez] lz] eqn:Hcore.
    assert (Hmz : 0 <= mz).
    { unfold SFdiv_core_binary in Hcore.
      match type of Hcore with
      | (let '(q, r) := Z.div_eucl ?a ?b in _) = _ =>
          assert (Ha : 0 <= a);
          [|pose proof (Z.div_pos a b Ha ltac:(lia)) as Hdiv; unfold Z.div in Hdiv;
            destruct (Z.div_eucl a b) as [q r]; injection Hcore as <- _ _; exact Hdiv]
      end.
      match goal with |- 0 <= match ?shift with _ => _ end =>
        destruct shift as [|amount|amount]
      end; [lia| |lia].
      rewrite Z.shiftl_mul_pow2 by lia. pose proof (Z.pow_pos_nonneg 2 (Z.pos amount)). nia. }
    pose proof (binary_round_aux_sign true mz ez lz Hmz) as Hsign.
    destruct (binary_round_aux prec emax true mz ez lz) as [s|s| |s m e];
      [subst s|subst s|contradiction|subst s]; split; reflexivity.
Qed.

(** In binary64: the clamp of the quotient of a float that is zero or
    negative by a positive finite float is [0.0]. *)
Lemma nonpositive_quotient_clamped (dot product : float) :
  PrimFloat.leb dot 0 = true ->
  PrimFloat.ltb 0 product = true ->
  PrimFloat.ltb product infinity = true ->
  (if PrimFloat.ltb 0 (if PrimFloat.ltb (dot / product) 1 then (dot / product)%float
                       else 1%float)
   then (if PrimFloat.ltb (dot / product) 1 then (dot / product)%float else 1%float)
   else 0%float) = 0%float.
Proof.
  intros Hdot Hpositive Hfinite.
  rewrite FloatAxioms.leb_spec in Hdot. rewrite FloatAxioms.ltb_spec in Hpositive, Hfinite.
  destruct (SF64div_nonpositive _ _ Hdot Hpositive Hfinite) as [Hbelow Hnot_above].
  assert (Hlt : PrimFloat.ltb (dot / product) 1 = true)
    by (rewrite FloatAxioms.ltb_spec, div_spec; exact Hbelow).
  assert (Hle : PrimFloat.ltb 0 (dot / product) = false)
    by (rewrite FloatAxioms.ltb_spec, div_spec; exact Hnot_above).
  rewrite Hlt, Hle. reflexivity.
Qed.

End QuotientSign.

(** ** Cosine similarity in binary64 *)

Section CosineBinary64.
Context {blas : Blas float}.

Lemma float_ltb_leb (x y : float) : PrimFloat.ltb x y = true -> PrimFloat.leb x y = true.
Proof.
  rewrite ltb_spec, leb_spec. unfold SFltb, SFleb.
  destruct (SFcompare (Prim2SF x) (Prim2SF y)) as [[| |]|]; congruence.
Qed.

(** The clamp [max(0.0, min(1.0, s))] lands in the unit interval for every
    float [s], NaN and the infinities included. *)
Lemma clamp_in_unit_interval (s : float) :
  let r := py_max PrimFloat.ltb 0%float (py_min PrimFloat.ltb 1%float s) in
  PrimFloat.leb 0 r = true /\ PrimFloat.leb r 1 = true.
Proof.
  unfold py_max, py_min.
  destruct (PrimFloat.ltb s 1) eqn:Hbelow.
  - destruct (PrimFloat.ltb 0 s) eqn:Habove.
    + split; apply float_ltb_leb; assumption.
    + split; reflexivity.
  - split; reflexivity.
Qed.

Lemma zero_float_shape (x : float) :
  PrimFloat.eqb x 0 = true -> exists s : bool, Prim2SF x = S754_zero s.
Proof.
  rewrite FloatAxioms.eqb_spec. change (Prim2SF 0) with (S754_zero false).
  destruct (Prim2SF x) as [s|s| |s m e]; unfold SFeqb, SFcompare;
    [intros _; exists s; reflexivity|destruct s; discriminate|discriminate
    |destruct s; discriminate].
Qed.

(** Accumulated from the left, the squared norm of a vector of zeros (of
    either sign) is [+0.0]. *)
Lemma dot_sum_zeros (v : list float) :
  Forall (fun x => PrimFloat.eqb x 0 = true) v -> dot_sum v v = 0%float.
Proof.
  unfold dot_sum. cbn [f_zero binary64].
  induction 1 as [|x v Hx _ IH]; cbn [combine fold_left fst snd f_add f_mul binary64];
    [reflexivity|].
  replace (0 + x * x)%float with 0%float; [exact IH|].
  apply Prim2SF_inj. rewrite add_spec, mul_spec.
  destruct (zero_float_shape x Hx) as [s ->]. destruct s; reflexivity.
Qed.

(** C4.  In binary64, whatever routine computes the dot products, for every
    two vectors: the result of [compute_similarity] lies between 0.0 and 1.0
    (so it is not NaN); it is 0.0 when the norm of either vector is zero, and
    when [np.dot] raises because the lengths differ; otherwise it is the
    quotient of the dot product of the two vectors by the product of their
    norms, each norm the square root of the dot product of a vector with
    itself, clamped with [max(0.0, min(1.0, _))].  On vectors whose products
    and sums are exact, where every routine returns the same floats: (3, 4)
    and (4, 3) give 24/25 rounded, (2, 3) with itself gives 1.0 by the upper
    clamp (the quotient is 1.0000000000000002), (1, 2) and (-1, -2) give 0.0
    by the lower clamp, orthogonal vectors, a zero vector and vectors of
    different lengths give 0.0.  And with the products accumulated from the
    left, a vector of zeros has similarity 0.0 with every vector. *)
Theorem compute_similarity_in_unit_interval (embedding1 embedding2 : list float) :
  let r := compute_similarity embedding1 embedding2 in
  let norm1 := PrimFloat.sqrt (blas_dot embedding1 embedding1) in
  let norm2 := PrimFloat.sqrt (blas_dot embedding2 embedding2) in
  (PrimFloat.leb 0 r = true /\ PrimFloat.leb r 1 = true)
  /\ (PrimFloat.eqb norm1 0 || PrimFloat.eqb norm2 0 = true -> r = 0%float)
  /\ (length embedding1 <> length embedding2 -> r = 0%float)
  /\ (length embedding1 = length embedding2 ->
      PrimFloat.eqb norm1 0 || PrimFloat.eqb norm2 0 = false ->
      r = py_max PrimFloat.ltb 0%float
            (py_min PrimFloat.ltb 1%float
               (blas_dot embedding1 embedding2 / (norm1 * norm2))%float))
  /\ compute_similarity (blas := left_to_right) [3%float; 4%float] [4%float; 3%float]
     = 0x1.eb851eb851eb8p-1%float
  /\ (blas_dot (Blas := left_to_right) [2%float; 3%float] [2%float; 3%float]
      / (PrimFloat.sqrt 13 * PrimFloat.sqrt 13) = 0x1.0000000000001p+0)%float
  /\ compute_similarity (blas := left_to_right) [2%float; 3%float] [2%float; 3%float]
     = 1%float
  /\ compute_similarity (blas := left_to_right) [1%float; 2%float] [(-1)%float; (-2)%float]
     = 0%float
  /\ compute_similarity (blas := left_to_right) [1%float; 0%float] [0%float; 1%float]
     = 0%float
  /\ compute_similarity (blas := left_to_right) [0%float; 0%float] [1%float; 2%float]
     = 0%float
  /\ compute_similarity (blas := left_to_right) [1%float; 2%float]
       [1%float; 2%float; 3%float]
     = 0%float
  /\ (forall zeros other : list float,
        Forall (fun x => PrimFloat.eqb x 0 = true) zeros ->
        compute_similarity (blas := left_to_right) zeros other = 0%float
        /\ compute_similarity (blas := left_to_right) other zeros = 0%float).
Proof.
  cbv zeta. split; [|split; [|split; [|split]]].
  - unfold compute_similarity, compute_similarity_body, np_dot, np_linalg_norm.
    destruct (length embedding1 =? length embedding2)%nat;
      cbn [mbind result_bind mret result_ret mthrow result_throw f_eqb f_zero f_one f_ltb
           f_div f_mul f_sqrt binary64]; [|split; reflexivity].
    destruct (PrimFloat.eqb _ 0 || PrimFloat.eqb _ 0); [split; reflexivity|].
    apply clamp_in_unit_interval.
  - intros Hzero.
    unfold compute_similarity, compute_similarity_body, np_dot, np_linalg_norm.
    destruct (length embedding1 =? length embedding2)%nat;
      cbn [mbind result_bind mret result_ret mthrow result_throw f_eqb f_zero f_one f_ltb
           f_div f_mul f_sqrt binary64]; [|reflexivity].
    rewrite Hzero. reflexivity.
  - intros Hdiff.
    unfold compute_similarity, compute_similarity_body, np_dot.
    destruct (Nat.eqb_spec (length embedding1) (length embedding2)) as [Hsame|_];
      [contradiction|reflexivity].
  - intros Hsame Hnot_zero.
    unfold compute_similarity, compute_similarity_body, np_dot, np_linalg_norm.
    rewrite Hsame, Nat.eqb_refl.
    cbn [mbind result_bind mret result_ret f_eqb f_zero f_one f_ltb f_div f_mul f_sqrt
         binary64].
    rewrite Hnot_zero. reflexivity.
  - do 7 (split; [vm_compute; reflexivity|]).
    intros zeros other Hzeros.
    unfold compute_similarity, compute_similarity_body, np_dot, np_linalg_norm.
    cbn [blas_dot left_to_right]. rewrite (dot_sum_zeros zeros Hzeros).
    cbn [mbind result_bind mret result_ret mthrow result_throw f_eqb f_zero f_one f_ltb
         f_div f_mul f_sqrt binary64].
    change (PrimFloat.eqb (PrimFloat.sqrt 0) 0) with true. rewrite orb_true_r.
    split.
    + destruct (length zeros =? length other)%nat; reflexivity.
    + destruct (length other =? length zeros)%nat; reflexivity.
Qed.



End CosineBinary64.

Section CosineExamples.


End CosineExamples.

(** ** How failures of the collaborators reach the client *)

Section FailureFacts.
Context {T F C : Type}.
Context `{FloatOps F} `{SentenceTransformer F} `{ChromaCollection F C} `{DateTime T}.
Context `{Pydantic}.
Import VectorDB.


Lemma reraise_as_500_status {A} (prefix : string) (e : PyExc) :
  not_http e ->
  Main.http_status (Main.reraise_as_500 (A := A) prefix (inl e)) = 500.
Proof.
  intros Hnot. destruct e; try reflexivity. exfalso. eapply Hnot. reflexivity.
Qed.

(** [POST /profiles]: whatever [add_person_profile] raises becomes a 500. *)
Lemma add_failure_is_500 (vector_db : VectorDatabase C) (profile : PersonProfileCreate)
    (uuid4 : string) (now : T) (e : PyExc) :
  fst (VectorDB.add_person_profile vector_db profile uuid4 now) = inl e ->
  Main.http_status (fst (Main.add_person_profile vector_db profile uuid4 now)) = 500.
Proof.
  unfold Main.add_person_profile.
  destruct (VectorDB.add_person_profile vector_db profile uuid4 now) as [[e'|new_id] db];
    cbn [fst]; [reflexivity|discriminate].
Qed.

(** [POST /profiles/search]: below the cap, whatever the search raises
    becomes a 500. *)
Lemma search_failure_is_500 (vector_db : VectorDatabase C)
    (request : SimilaritySearchRequest) (e : PyExc) :
  rq_limit request <= 50 ->
  not_http e ->
  VectorDB.search_similar_profiles (T := T) vector_db (rq_query_description request)
    (rq_limit request) (rq_exclude_id request) = inl e ->
  Main.http_status (Main.search_similar_profiles (T := T) vector_db request) = 500.
Proof.
  intros Hcap Hnot Hfail. unfold Main.search_similar_profiles.
  destruct (Z.gtb_spec (rq_limit request) 50) as [Hover|_]; [lia|].
  rewrite Hfail. cbn [mbind result_bind]. apply reraise_as_500_status. exact Hnot.
Qed.

(** [GET /profiles]: below the cap, whatever the listing raises becomes a
    500. *)
Lemma list_failure_is_500 (vector_db : VectorDatabase C) (limit : Z) (e : PyExc) :
  limit <= 1000 ->
  not_http e ->
  VectorDB.get_all_profiles (T := T) vector_db limit = inl e ->
  Main.http_status (Main.get_all_profiles (T := T) vector_db limit) = 500.
Proof.
  intros Hcap Hnot Hfail. unfold Main.get_all_profiles.
  destruct (Z.gtb_spec limit 1000) as [Hover|_]; [lia|].
  rewrite Hfail. apply reraise_as_500_status. exact Hnot.
Qed.

(** [GET /profiles/{id}]: a store that raises on the lookup is answered
    like a missing profile. *)
Lemma get_store_failure_is_404 (vector_db : VectorDatabase C) (profile_id : string)
    (e : PyExc) :
  coll_get (collection vector_db) [profile_id] = inl e ->
  VectorDB.get_person_profile (T := T) vector_db profile_id = None
  /\ Main.http_status (Main.get_person_profile (T := T) vector_db profile_id) = 404.
Proof.
  intros Hfail.
  assert (Hnone : VectorDB.get_person_profile (T := T) vector_db profile_id = None).
  { unfold VectorDB.get_person_profile, get_person_profile_body. rewrite Hfail. reflexivity. }
  split; [exact Hnone|]. unfold Main.get_person_profile. rewrite Hnone. reflexivity.
Qed.

(** [delete_person_profile] answers [True] exactly when the store did not
    raise; whether the id was held plays no part. *)
Lemma delete_reports_store_outcome (self : VectorDatabase C) (profile_id : string) :
  fst (VectorDB.delete_person_profile self profile_id)
  = is_ok (fst (coll_delete (collection self) [profile_id])).
Proof.
  unfold VectorDB.delete_person_profile.
  destruct (coll_delete (collection self) [profile_id]) as [[e|done] c]; reflexivity.
Qed.

(** [GET /stats] and [GET /health] answer normally in every state of the
    store, and [GET /health] always says "healthy". *)
Lemma get_stats_always_returns (vector_db : VectorDatabase C) :
  Main.get_stats vector_db = inr (get_collection_stats vector_db).
Proof. reflexivity. Qed.

Lemma health_check_always_healthy (vector_db : VectorDatabase C) :
  Main.health_check vector_db
  = {| Main.h_status := "healthy"; Main.h_database := "connected";
       Main.h_stats := Some (get_collection_stats vector_db); Main.h_error := None |}.
Proof. reflexivity. Qed.

Lemma stats_of_failing_count (self : VectorDatabase C) (e : PyExc) :
  coll_count (collection self) = inl e ->
  get_collection_stats self = StatsError (exc_str e).
Proof. intros Hfail. unfold get_collection_stats. rewrite Hfail. reflexivity. Qed.

End FailureFacts.

Section FailureClaims.
Import VectorDB Reference Samples.

(** C6 fails on the code.  With a collection that raises on every call,
    [GET /profiles/{id}] answers 404 (the lookup failure is turned into
    [None], that is, "not found"), [GET /stats] answers 200 with an [error]
    entry, and [DELETE /profiles/{id}] answers 404; only the routes that add,
    search and list answer 500. *)
Theorem store_failure_is_not_always_500 :
  coll_get (collection offline_db) ["id-alex"] = inl unavailable
  /\ Main.http_status (Main.get_person_profile (T := datetime) offline_db "id-alex") = 404
  /\ coll_count (collection offline_db) = inl unavailable
  /\ Main.get_stats offline_db = inr (StatsError "collection unavailable")
  /\ Main.http_status (Main.get_stats offline_db) = 200
  /\ fst (coll_delete (collection offline_db) ["id-alex"]) = inl unavailable
  /\ Main.http_status (fst (Main.delete_person_profile offline_db "id-alex")) = 404
  /\ Main.http_status (fst (Main.add_person_profile offline_db alex "id-alex" noon)) = 500
  /\ Main.http_status
       (Main.search_similar_profiles (T := datetime) offline_db
          {| rq_query_description := hiking_query; rq_limit := 2; rq_exclude_id := None |})
     = 500
  /\ Main.http_status (Main.get_all_profiles (T := datetime) offline_db 10) = 500.
Proof.
  split; [reflexivity|]. split.
  { apply (get_store_failure_is_404 (T := datetime) offline_db "id-alex" unavailable).
    reflexivity. }
  run_service.
Qed.

(** C7 fails on the code.  Deleting an id the collection does not hold:
    the store does not raise, [delete_person_profile] answers [True], and
    the route answers 200 with "Profile deleted successfully" instead of
    404.  In the other direction, deleting a profile that is held while the
    collection cannot be reached answers [False] and 404 "not found",
    although the profile exists and stays. *)
Theorem deleting_a_missing_profile_reports_success :
  coll_get (collection two_profiles_db) ["ghost"]
  = inr {| g_ids := []; g_documents := []; g_metadatas := [] |}
  /\ VectorDB.delete_person_profile two_profiles_db "ghost" = (true, two_profiles_db)
  /\ Main.delete_person_profile two_profiles_db "ghost"
     = (inr {| Main.message := "Profile deleted successfully"; Main.profile_id := "ghost";
               Main.status := "success" |},
        two_profiles_db)
  /\ Main.http_status (fst (Main.delete_person_profile two_profiles_db "ghost")) = 200
  /\ map e_id (entries (collection unreachable_two_profiles_db)) = ["id-alex"; "id-sarah"]
  /\ VectorDB.delete_person_profile unreachable_two_profiles_db "id-alex"
     = (false, unreachable_two_profiles_db)
  /\ Main.http_status (fst (Main.delete_person_profile unreachable_two_profiles_db "id-alex"))
     = 404.
Proof. run_service. Qed.

(** C8 fails on the code.  With a collection whose [count] raises,
    [GET /health] answers normally but says "healthy" and "connected": the
    exception was already turned into an [error] entry by
    [get_collection_stats], so the handler's [except] clause never runs. *)
Theorem health_check_says_healthy_when_store_fails :
  coll_count (collection offline_db) = inl unavailable
  /\ Main.health_check offline_db
     = {| Main.h_status := "healthy"; Main.h_database := "connected";
          Main.h_stats := Some (StatsError "collection unavailable");
          Main.h_error := None |}
  /\ Main.h_status (Main.health_check offline_db) <> "unhealthy".
Proof.
  assert (Hcount : coll_count (collection offline_db) = inl unavailable) by reflexivity.
  split; [exact Hcount|].
  rewrite health_check_always_healthy.
  rewrite (stats_of_failing_count offline_db unavailable Hcount).
  split; [reflexivity|]. cbn. discriminate.
Qed.

End FailureClaims.

(** ** The caps on [limit] *)

Section LimitCaps.
Context {T F C : Type}.
Context `{FloatOps F} `{SentenceTransformer F} `{ChromaCollection F C} `{DateTime T}.
Context `{Pydantic}.
Import VectorDB.

Lemma schema_bounds_limit (request : SimilaritySearchRequest) :
  valid_SimilaritySearchRequest request = true -> 1 <= rq_limit request <= 50.
Proof.
  unfold valid_SimilaritySearchRequest. intros Hvalid.
  apply andb_prop in Hvalid as [Hvalid Hle].
  apply andb_prop in Hvalid as [_ Hge]. lia.
Qed.

(** C9, amended.  On [POST /profiles/search], a request with a limit above
    50 (or below 1) does not satisfy the request schema and is refused by
    the validation layer before the handler runs; the handler's own check,
    which raises 400 above 50, is reached only by calling the handler
    directly.  A request that satisfies the schema proceeds to the search.
    On [GET /profiles], a limit above 1000 raises 400 and any other limit
    proceeds to the listing. *)
Theorem limit_caps (vector_db : VectorDatabase C) (request : SimilaritySearchRequest)
    (limit : Z) :
  (rq_limit request > 50 \/ rq_limit request < 1 ->
   Main.post_profiles_search (T := T) vector_db request = inl RequestValidationError
   /\ Main.http_status (Main.post_profiles_search (T := T) vector_db request) = 422)
  /\ (rq_limit request > 50 ->
      Main.search_similar_profiles (T := T) vector_db request
      = inl (HTTPException 400 "Limit cannot exceed 50"))
  /\ (valid_SimilaritySearchRequest request = true ->
      Main.post_profiles_search (T := T) vector_db request
      = Main.reraise_as_500 "Failed to search profiles: "
          (similar_profiles ← VectorDB.search_similar_profiles vector_db
                                (rq_query_description request) (rq_limit request)
                                (rq_exclude_id request);
           mret {| rs_query := rq_query_description request;
                   rs_results := similar_profiles;
                   rs_total_results := Z.of_nat (length similar_profiles) |}))
  /\ (limit > 1000 ->
      Main.get_profiles (T := T) vector_db limit
      = inl (HTTPException 400 "Limit cannot exceed 1000"))
  /\ (limit <= 1000 ->
      Main.get_profiles (T := T) vector_db limit
      = Main.reraise_as_500 "Failed to retrieve profiles: "
          (VectorDB.get_all_profiles vector_db limit)).
Proof.
  split; [|split; [|split; [|split]]].
  - intros Hout.
    assert (Hinvalid : valid_SimilaritySearchRequest request = false).
    { destruct (valid_SimilaritySearchRequest request) eqn:Hvalid; [|reflexivity].
      apply schema_bounds_limit in Hvalid. lia. }
    unfold Main.post_profiles_search. rewrite Hinvalid. split; reflexivity.
  - intros Hover. unfold Main.search_similar_profiles.
    destruct (Z.gtb_spec (rq_limit request) 50) as [_|Hle]; [reflexivity|lia].
  - intros Hvalid. unfold Main.post_profiles_search. rewrite Hvalid.
    apply schema_bounds_limit in Hvalid. unfold Main.search_similar_profiles.
    destruct (Z.gtb_spec (rq_limit request) 50) as [Hover|_]; [lia|reflexivity].
  - intros Hover. unfold Main.get_profiles, Main.get_all_profiles.
    destruct (Z.gtb_spec limit 1000) as [_|Hle]; [reflexivity|lia].
  - intros Hle. unfold Main.get_profiles, Main.get_all_profiles.
    destruct (Z.gtb_spec limit 1000) as [Hover|_]; [lia|reflexivity].
Qed.

End LimitCaps.

Section LimitCapExamples.
Import VectorDB Reference Samples.

(** C9 as stated fails: a well-formed search with limit 51 is answered by
    the validation layer with 422, not by a 400; and a search with limit 0,
    which is below the cap, is refused as well instead of reaching the
    search. *)
Lemma search_over_cap_is_refused_by_the_schema :
  rq_limit over_cap_search > 50
  /\ Main.post_profiles_search (T := datetime) two_profiles_db over_cap_search
     = inl RequestValidationError
  /\ Main.http_status (Main.post_profiles_search (T := datetime) two_profiles_db
                         over_cap_search) = 422
  /\ rq_limit zero_limit_search <= 50
  /\ Main.post_profiles_search (T := datetime) two_profiles_db zero_limit_search
     = inl RequestValidationError.
Proof. run_service. Qed.

End LimitCapExamples.

(** * The rest of the code *)

(** ** models.py: the bounds of [PersonProfile] *)

(** The [Field] constraints of [PersonProfile], on a profile already built. *)
Definition valid_PersonProfile {T} (p : PersonProfile T) : bool :=
  len_between 1 100 (pp_name p)
  && len_between 10 2000 (pp_description p)
  && opt_int_between 18 100 (pp_age p)
  && opt_len_at_most 100 (pp_location p).

(** The rows [get_all_profiles] walks through:
    [zip(results['documents'], results['metadatas'], results['ids'])]. *)
Definition listed_rows (results : GetResult) : list (string * Metadata * string) :=
  VectorDB.zip3 (g_documents results) (g_metadatas results) (g_ids results).

(** A text made of whitespace only (the empty text included). *)
Fixpoint all_space (s : string) : bool :=
  match s with
  | EmptyString => true
  | String c rest => is_space c && all_space rest
  end.

(** ** Configuration read from the environment *)

(** [os.getenv(key, default)]: the value of the variable when it is set, even
    to the empty string. *)
Definition os_getenv (environ : gmap string string) (key default : string) : string :=
  match environ !! key with
  | Some value => value
  | None => default
  end.

(** [argument or fallback] on an [Optional[str]] argument: [None] and the
    empty string both give the fallback. *)
Definition py_or (argument : option string) (fallback : string) : string :=
  match argument with
  | Some value => if truthy value then value else fallback
  | None => fallback
  end.

(** ** embedding_service.py: construction and batches *)

Module EmbeddingServiceInit.

(** The constructor [SentenceTransformer(name)], which downloads or loads the
    named model and may raise. *)
Class ModelLoader (M : Type) : Type := {
  SentenceTransformer_new : string -> result M
}.

(** [model.encode(texts)] on a list of texts, followed by [tolist()] on each
    row. *)
Class BatchSentenceTransformer (F : Type) : Type := {
  model_encode_batch : list string -> result (list (list F))
}.

(** The two attributes [EmbeddingService.__init__] sets. *)
Record EmbeddingService (M : Type) : Type := {
  model_name : string;
  model : M
}.
Arguments model_name {M} _.
Arguments model {M} _.

Definition FALLBACK_MODEL : string := "all-MiniLM-L6-v2".

Section Construction.
Context {M : Type} `{ModelLoader M}.

(** [EmbeddingService._load_model]: the exception of the first attempt is
    logged and dropped, the fallback model is loaded outside any [try]. *)
Definition _load_model (name : string) : result M :=
  match SentenceTransformer_new name with
  | inr loaded => inr loaded
  | inl _ => SentenceTransformer_new FALLBACK_MODEL
  end.

(** [EmbeddingService.__init__] *)
Definition EmbeddingService_init (environ : gmap string string) (name : option string)
    : result (EmbeddingService M) :=
  let name := py_or name (os_getenv environ "EMBEDDING_MODEL" "all-MiniLM-L6-v2") in
  loaded ← _load_model name;
  mret {| model_name := name; model := loaded |}.

End Construction.

Section Batch.
Context {F : Type} `{BatchSentenceTransformer F}.

(** [[text.strip() for text in texts if text.strip()]] *)
Definition clean_texts (texts : list string) : list string :=
  map strip (List.filter (fun text => truthy (strip text)) texts).

(** [EmbeddingService.generate_embeddings_batch]; its [except] clause logs
    and re-raises. *)
Definition generate_embeddings_batch (texts : list string) : result (list (list F)) :=
  let texts := clean_texts texts in
  match texts with
  | [] => mthrow (ValueError "No valid texts provided")
  | _ :: _ => model_encode_batch texts
  end.

End Batch.

End EmbeddingServiceInit.

(** ** vector_db.py: opening the collection *)

Module VectorDBInit.
Import VectorDB.

(** The ChromaDB client: [PersistentClient(path=...)] opens what is persisted
    under a directory, [get_collection] raises when the collection does not
    exist (or cannot be read), [create_collection] may change what the client
    persists. *)
Class ChromaClient (Cl C : Type) : Type := {
  PersistentClient : string -> result Cl;
  client_get_collection : Cl -> string -> result C;
  client_create_collection : Cl -> string -> gmap string string -> result C * Cl
}.

Section Opening.
Context {Cl C : Type} `{ChromaClient Cl C}.

(** [VectorDatabase._get_or_create_collection]: [except (ValueError,
    Exception)] catches whatever [get_collection] raised. *)
Definition _get_or_create_collection (client : Cl) (name : string) : result C * Cl :=
  match client_get_collection client name with
  | inr existing => (inr existing, client)
  | inl _ =>
      client_create_collection client name
        {[ "description" := "Person profiles for dating app matching" ]}
  end.

Context {M : Type} `{EmbeddingServiceInit.ModelLoader M}.

(** [VectorDatabase.__init__]: the configuration, the client, the embedding
    service, then the collection.  The result carries the client as the last
    call left it. *)
Definition VectorDatabase_init (environ : gmap string string)
    (directory name : option string)
    : result (VectorDatabase C * EmbeddingServiceInit.EmbeddingService M * Cl) :=
  let directory := py_or directory (os_getenv environ "CHROMA_PERSIST_DIRECTORY" "./chroma_db") in
  let name := py_or name (os_getenv environ "COLLECTION_NAME" "person_profiles") in
  client ← PersistentClient directory;
  embedding_service ← EmbeddingServiceInit.EmbeddingService_init environ None;
  let '(opened, client) := _get_or_create_collection client name in
  c ← opened;
  mret ({| persist_directory := directory; collection_name := name; collection := c |},
        embedding_service, client).

End Opening.

End VectorDBInit.

(** ** start_server.py: preparing the working directory *)

Module StartServer.

(** What a path of the working directory names.  The working directory is a
    flat map from paths to nodes: the script only looks at [.env],
    [.env.example] and [chroma_db], all directly under it.  Permissions and
    other I/O errors of a real file system are outside this model. *)
Inductive Node : Type :=
  | File (content : string)
  | Dir.

Abbreviation FileSystem := (gmap string Node).

(** [Path.read_text()] *)
Definition read_text (fs : FileSystem) (path : string) : result string :=
  match fs !! path with
  | Some (File content) => inr content
  | Some Dir => inl (ExternalError "IsADirectoryError")
  | None => inl (ExternalError "FileNotFoundError")
  end.

(** [Path.write_text(content)]: creates or replaces a file. *)
Definition write_text (fs : FileSystem) (path content : string) : result unit * FileSystem :=
  match fs !! path with
  | Some Dir => (inl (ExternalError "IsADirectoryError"), fs)
  | _ => (inr tt, <[path := File content]> fs)
  end.

(** [Path.mkdir(exist_ok=True)]: an existing directory is fine, an existing
    file is not. *)
Definition mkdir_exist_ok (fs : FileSystem) (path : string) : result unit * FileSystem :=
  match fs !! path with
  | None => (inr tt, <[path := Dir]> fs)
  | Some Dir => (inr tt, fs)
  | Some (File _) => (inl (ExternalError "FileExistsError"), fs)
  end.

Definition default_env_content : string :=
"# Vector Database Configuration
CHROMA_PERSIST_DIRECTORY=./chroma_db
COLLECTION_NAME=person_profiles

# API Configuration
API_HOST=0.0.0.0
API_PORT=8000

# Model Configuration
EMBEDDING_MODEL=all-MiniLM-L6-v2
".

(** [setup_environment] *)
Definition setup_environment (fs : FileSystem) : result unit * FileSystem :=
  let '(written, fs) :=
    match fs !! ".env" with
    | Some _ => (inr tt, fs)
    | None =>
        match fs !! ".env.example" with
        | Some _ =>
            match read_text fs ".env.example" with
            | inr content => write_text fs ".env" content
            | inl e => (inl e, fs)
            end
        | None => write_text fs ".env" default_env_content
        end
    end in
  match written with
  | inl e => (inl e, fs)
  | inr _ => mkdir_exist_ok fs "chroma_db"
  end.

End StartServer.

(** ** More sample data *)

Module MoreSamples.
Import VectorDB Reference Samples EmbeddingServiceInit VectorDBInit StartServer.

(** An entry written by something else than this service: no metadata. *)
Definition legacy_entry : Entry float :=
  {| e_id := "legacy"; e_embedding := [1%float; 0%float; 0%float];
     e_document := "an entry without metadata"; e_metadata := ∅ |}.

(** The two profiles and the legacy entry. *)
Definition mixed_db : VectorDatabase (Collection float) :=
  with_collection two_profiles_db
    {| entries := entries (collection two_profiles_db) ++ [legacy_entry]; online := true |}.

Definition hiking_search : SimilaritySearchRequest :=
  {| rq_query_description := hiking_query; rq_limit := 1; rq_exclude_id := Some "" |}.

Definition two_matches_search : SimilaritySearchRequest :=
  {| rq_query_description := hiking_query; rq_limit := 2; rq_exclude_id := None |}.

(** What the searches and the listing used in the examples return. *)
Definition nearest_match : list (PersonProfileResponse datetime float) :=
  match VectorDB.search_similar_profiles two_profiles_db hiking_query 1 None with
  | inr matches => matches
  | inl _ => []
  end.

Definition two_matches_response : SimilaritySearchResponse datetime float :=
  match Main.post_profiles_search two_profiles_db two_matches_search with
  | inr response => response
  | inl _ => {| rs_query := ""; rs_results := []; rs_total_results := 0 |}
  end.

Definition listed_profiles : list (PersonProfile datetime) :=
  match VectorDB.get_all_profiles two_profiles_db 10 with
  | inr profiles => profiles
  | inl _ => []
  end.

(** A loader that can load the models of a list, each model standing for
    itself by its name. *)
Definition loader_knowing (known : list string) : ModelLoader string :=
  {| SentenceTransformer_new := fun name =>
       if existsb (String.eqb name) known then inr name
       else inl (ExternalError ("cannot load " +:+ name)) |}.

(** A batch model that answers one vector of letter counts per text. *)
Definition batch_letter_counts : BatchSentenceTransformer float :=
  {| model_encode_batch := fun texts =>
       inr (map (fun text => [of_nat (count_char "a" text); of_nat (count_char "e" text);
                              of_nat (count_char "i" text)]) texts) |}.

(** A client that persists named reference collections. *)
Definition map_client : ChromaClient (gmap string (Collection float)) (Collection float) :=
  {| PersistentClient := fun _ => inr ∅;
     client_get_collection := fun client name =>
       match client !! name with
       | Some c => inr c
       | None => inl (ValueError ("Collection " +:+ name +:+ " does not exist."))
       end;
     client_create_collection := fun client name _ =>
       match client !! name with
       | Some _ => (inl (ExternalError ("Collection " +:+ name +:+ " already exists")), client)
       | None =>
           (inr {| entries := []; online := true |},
            <[name := {| entries := []; online := true |}]> client)
       end |}.

(** A machine on which only the fallback model can be loaded. *)
Definition only_fallback_loader : ModelLoader string := loader_knowing [FALLBACK_MODEL].

(** An environment that names the collection, and the database, service and
    client expected from it when the directory argument is the empty
    string. *)
Definition named_environ : gmap string string := {[ "COLLECTION_NAME" := "profiles" ]}.

Definition fresh_collection : Collection float := {| entries := []; online := true |}.

Definition expected_database : VectorDatabase (Collection float) :=
  {| persist_directory := "./chroma_db"; collection_name := "profiles";
     collection := fresh_collection |}.

Definition expected_service : EmbeddingService string :=
  {| model_name := "all-MiniLM-L6-v2"; model := "all-MiniLM-L6-v2" |}.

Definition expected_client : gmap string (Collection float) :=
  <["profiles" := fresh_collection]> ∅.

End MoreSamples.

(** * Further properties *)

(** ** Profiles read back from the store *)

Section ProfileFacts.
Context {T F C : Type}.
Context `{FloatOps F} `{SentenceTransformer F} `{ChromaCollection F C} `{DateTime T}.
Context `{Pydantic}.
Import VectorDB.

Lemma check_passed (field : string) (b : bool) (u : unit) : check field b = inr u -> b = true.
Proof. destruct b; [reflexivity|discriminate]. Qed.

Lemma as_str_inr (field : string) (v : MetaValue) (s : string) :
  as_str field v = inr s -> to_str v = Some s.
Proof.
  unfold as_str. destruct v; try discriminate;
    (destruct (to_str _) as [converted|]; [intros [= <-]; reflexivity|discriminate]).
Qed.

Lemma PersonProfile_init_valid (id : string) (name : MetaValue) (description : string)
    (age location : option MetaValue) (created_at : T) (p : PersonProfile T) :
  PersonProfile_init id name description age location created_at = inr p ->
  pp_id p = Some id /\ pp_description p = description /\ pp_created_at p = Some created_at
  /\ to_str name = Some (pp_name p)
  /\ as_opt_int "age" age = inr (pp_age p)
  /\ as_opt_str "location" location = inr (pp_location p)
  /\ valid_PersonProfile p = true.
Proof.
  unfold PersonProfile_init.
  destruct (as_str "name" name) as [?|name'] eqn:Hconverted; [discriminate|].
  apply as_str_inr in Hconverted. cbn [mbind result_bind mret result_ret].
  destruct (check "name" _) as [?|[]] eqn:Hname; [discriminate|]. cbn [mbind result_bind].
  destruct (check "description" _) as [?|[]] eqn:Hdescription; [discriminate|].
  cbn [mbind result_bind].
  destruct (as_opt_int "age" age) as [?|age']; [discriminate|]. cbn [mbind result_bind].
  destruct (check "age" _) as [?|[]] eqn:Hage; [discriminate|]. cbn [mbind result_bind].
  destruct (as_opt_str "location" location) as [?|location']; [discriminate|].
  cbn [mbind result_bind].
  destruct (check "location" _) as [?|[]] eqn:Hlocation; [discriminate|].
  cbn [mbind result_bind mret result_ret]. intros [= <-].
  apply check_passed in Hname, Hdescription, Hage, Hlocation.
  unfold valid_PersonProfile. cbn. rewrite Hname, Hdescription, Hage, Hlocation.
  repeat split; try reflexivity. exact Hconverted.
Qed.

Lemma make_profile_valid (profile_id document : string) (metadata : Metadata)
    (p : PersonProfile T) :
  make_profile profile_id document metadata = inr p ->
  pp_id p = Some profile_id
  /\ pp_description p = document
  /\ pp_created_at p <> None
  /\ (exists name, metadata !! "name" = Some name /\ to_str name = Some (pp_name p))
  /\ as_opt_int "age" (metadata !! "age") = inr (pp_age p)
  /\ as_opt_str "location" (metadata !! "location") = inr (pp_location p)
  /\ valid_PersonProfile p = true.
Proof.
  unfold make_profile, getitem.
  destruct (metadata !! "name") as [name|]; [|discriminate].
  cbn [mbind result_bind mret result_ret].
  destruct (created_at_of metadata) as [?|created_at]; [discriminate|].
  cbn [mbind result_bind]. intros Hinit.
  apply PersonProfile_init_valid in Hinit
    as (Hid & Hdoc & Hcreated & Hname & Hage & Hlocation & Hvalid).
  repeat split; try assumption.
  - rewrite Hcreated. discriminate.
  - exists name. split; [reflexivity|exact Hname].
Qed.

Lemma make_profile_missing_key (profile_id document : string) (metadata : Metadata) :
  metadata !! "name" = None \/ metadata !! "created_at" = None ->
  is_ok (make_profile (T := T) profile_id document metadata) = false.
Proof.
  intros Hmissing. unfold make_profile, getitem.
  destruct (metadata !! "name") as [name|]; [|reflexivity].
  destruct Hmissing as [Hname|Hcreated]; [discriminate|].
  cbn [mbind result_bind mret result_ret]. unfold created_at_of, getitem.
  rewrite Hcreated. reflexivity.
Qed.

(** X1.  Whatever the store holds and whatever pydantic converts, a profile
    that [get_person_profile] returns carries the id that was asked for,
    has [created_at] set and satisfies the bounds of the [PersonProfile]
    schema; its description is the first document the store answered, and
    its name, age and location are what pydantic made of the [name], [age]
    and [location] entries of the first metadata. *)
Theorem fetched_profile_satisfies_schema
    (self : VectorDatabase C) (profile_id : string) (p : PersonProfile T) :
  VectorDB.get_person_profile self profile_id = Some p ->
  pp_id p = Some profile_id
  /\ valid_PersonProfile p = true
  /\ pp_created_at p <> None
  /\ exists res metadata,
       coll_get (collection self) [profile_id] = inr res
       /\ g_ids res <> []
       /\ index0 (g_documents res) = inr (pp_description p)
       /\ index0 (g_metadatas res) = inr metadata
       /\ (exists name, metadata !! "name" = Some name /\ to_str name = Some (pp_name p))
       /\ as_opt_int "age" (metadata !! "age") = inr (pp_age p)
       /\ as_opt_str "location" (metadata !! "location") = inr (pp_location p).
Proof.
  unfold VectorDB.get_person_profile, get_person_profile_body.
  destruct (coll_get (collection self) [profile_id]) as [?|res] eqn:Hget; [discriminate|].
  cbn [mbind result_bind].
  destruct (g_ids res) as [|first rest] eqn:Hids; [discriminate|].
  destruct (index0 (g_metadatas res)) as [?|metadata] eqn:Hmetadata; [discriminate|].
  cbn [mbind result_bind].
  destruct (index0 (g_documents res)) as [?|document] eqn:Hdocument; [discriminate|].
  cbn [mbind result_bind].
  destruct (make_profile profile_id document metadata) as [?|made] eqn:Hmade; [discriminate|].
  cbn [mbind result_bind mret result_ret]. intros [= <-].
  apply make_profile_valid in Hmade
    as (Hid & Hdoc & Hcreated & Hname & Hage & Hlocation & Hvalid).
  repeat split; try assumption.
  exists res, metadata. rewrite Hids, Hdoc.
  repeat split; try assumption; try reflexivity. discriminate.
Qed.

(** X2.  An entry the store does hold, but whose metadata has no [name] or no
    [created_at] entry, is answered like a missing one: [get_person_profile]
    returns [None] and the route 404. *)
Theorem unreadable_entry_is_reported_missing
    (self : VectorDatabase C) (profile_id : string) (res : GetResult)
    (metadata : Metadata) (others : list Metadata) :
  coll_get (collection self) [profile_id] = inr res ->
  g_ids res <> [] ->
  g_metadatas res = metadata :: others ->
  metadata !! "name" = None \/ metadata !! "created_at" = None ->
  VectorDB.get_person_profile (T := T) self profile_id = None
  /\ Main.get_person_profile (T := T) self profile_id
     = inl (HTTPException 404 ("Profile with ID " +:+ profile_id +:+ " not found")).
Proof.
  intros Hget Hids Hmetadata Hmissing.
  assert (Hnone : VectorDB.get_person_profile (T := T) self profile_id = None).
  { unfold VectorDB.get_person_profile, get_person_profile_body. rewrite Hget.
    cbn [mbind result_bind]. destruct (g_ids res) as [|first rest]; [contradiction|].
    rewrite Hmetadata. cbn [index0 mbind result_bind mret result_ret].
    destruct (index0 (g_documents res)) as [?|document]; [reflexivity|].
    cbn [mbind result_bind].
    pose proof (make_profile_missing_key profile_id document metadata Hmissing) as Hfails.
    destruct (make_profile profile_id document metadata); [reflexivity|discriminate]. }
  split; [exact Hnone|]. unfold Main.get_person_profile. rewrite Hnone. reflexivity.
Qed.

(** X3.  When [add_person_profile] returns an id, it is the drawn uuid, the
    description is not blank, and the store was given exactly one entry
    under that id: the embedding of the stripped description, the
    description itself (not stripped) as document, and the metadata built
    from the profile; the route then answers 200 with that id. *)
Theorem added_profile_is_what_the_store_was_given
    (self db' : VectorDatabase C) (profile : PersonProfileCreate) (uuid4 new_id : string)
    (now : T) :
  VectorDB.add_person_profile self profile uuid4 now = (inr new_id, db') ->
  new_id = uuid4
  /\ strip (pc_description profile) <> ""
  /\ (exists embedding,
        model_encode (strip (pc_description profile)) = inr embedding
        /\ coll_add (collection self) uuid4 embedding (pc_description profile)
                    (profile_metadata profile now) = (inr tt, collection db'))
  /\ persist_directory db' = persist_directory self
  /\ collection_name db' = collection_name self
  /\ Main.add_person_profile self profile uuid4 now
     = (inr {| Main.message := "Profile added successfully"; Main.profile_id := uuid4;
               Main.status := "success" |}, db').
Proof.
  intros Hadd. pose proof Hadd as Hroute. revert Hadd.
  unfold VectorDB.add_person_profile, generate_embedding.
  destruct (strip (pc_description profile)) as [|c rest] eqn:Hstrip;
    cbn [truthy negb]; [discriminate|].
  destruct (model_encode (String c rest)) as [?|embedding] eqn:Hencode; [discriminate|].
  destruct (coll_add _ _ _ _ _) as [[?|[]] c'] eqn:Hstore; [discriminate|].
  intros [= <- <-]. split; [reflexivity|]. split; [discriminate|]. split.
  - exists embedding. split; [reflexivity|exact Hstore].
  - repeat split. unfold Main.add_person_profile. rewrite Hroute. reflexivity.
Qed.

End ProfileFacts.

(** ** More on searching and listing *)

Section SearchAndListFacts.
Context {T F C : Type}.
Context `{FloatOps F} `{SentenceTransformer F} `{ChromaCollection F C} `{DateTime T}.
Context `{Pydantic}.
Import VectorDB.

(** The loop never returns more than [limit] responses, except that it
    always takes one row before it looks at [limit]. *)
Lemma search_loop_length (exclude_id : option string) (limit : Z)
    (hits : list (F * string * Metadata * string)) :
  forall acc out : list (PersonProfileResponse T F),
    search_loop exclude_id limit hits acc = inr out ->
    Z.of_nat (length out) <= Z.max (Z.of_nat (length acc) + 1) limit
    /\ (length out <= length acc + length hits)%nat.
Proof.
  induction hits as [|hit rest IH]; intros acc out Hloop; cbn [search_loop] in Hloop.
  - injection Hloop as <-. cbn [length]. lia.
  - destruct (is_excluded exclude_id (snd hit)).
    + apply IH in Hloop. cbn [length]. lia.
    + destruct (make_response hit) as [?|r]; cbn [mbind result_bind] in Hloop;
        [discriminate|].
      rewrite Z.geb_leb in Hloop.
      destruct (Z.leb_spec limit (Z.of_nat (length (acc ++ [r])))) as [Hfull|Hmore].
      * injection Hloop as <-. rewrite length_app in *. cbn [length] in *. lia.
      * apply IH in Hloop. rewrite length_app in *. cbn [length] in *. lia.
Qed.

Lemma search_length (self : VectorDatabase C) (query_description : string) (limit : Z)
    (exclude_id : option string) (results : list (PersonProfileResponse T F)) :
  VectorDB.search_similar_profiles self query_description limit exclude_id = inr results ->
  Z.of_nat (length results) <= Z.max 1 limit.
Proof.
  unfold VectorDB.search_similar_profiles.
  destruct (generate_embedding query_description) as [?|embedding]; [discriminate|].
  cbn [mbind result_bind].
  destruct (coll_query _ _ _ _) as [?|res]; [discriminate|]. cbn [mbind result_bind].
  intros Hloop. apply search_loop_length in Hloop. cbn [length] in Hloop. lia.
Qed.

(** X4.  Whatever the store answers, even more rows than it was asked for,
    [search_similar_profiles] returns at most [limit] profiles when [limit]
    is at least one, at most one profile when [limit] is zero or negative
    (the loop appends before it compares), and never more profiles than the
    store answered rows. *)
Theorem search_never_exceeds_limit
    (self : VectorDatabase C) (query_description : string) (limit : Z)
    (exclude_id : option string) (results : list (PersonProfileResponse T F)) :
  VectorDB.search_similar_profiles self query_description limit exclude_id = inr results ->
  Z.of_nat (length results) <= Z.max 1 limit
  /\ exists embedding res,
       generate_embedding query_description = inr embedding
       /\ coll_query (collection self) embedding (n_results limit exclude_id)
            (where_clause exclude_id) = inr res
       /\ (length results <= length (hits_of res))%nat.
Proof.
  intros Hsearch. split; [exact (search_length _ _ _ _ _ Hsearch)|].
  revert Hsearch. unfold VectorDB.search_similar_profiles.
  destruct (generate_embedding query_description) as [?|embedding]; [discriminate|].
  cbn [mbind result_bind].
  destruct (coll_query _ _ _ _) as [?|res] eqn:Hquery; [discriminate|].
  cbn [mbind result_bind]. intros Hloop.
  exists embedding, res. split; [reflexivity|]. split; [exact Hquery|].
  apply search_loop_length in Hloop. cbn [length] in Hloop. lia.
Qed.

Lemma search_loop_empty_exclude_id (limit : Z) (hits : list (F * string * Metadata * string)) :
  forall acc : list (PersonProfileResponse T F),
    search_loop (Some "") limit hits acc = search_loop None limit hits acc.
Proof.
  induction hits as [|hit rest IH]; intros acc; cbn [search_loop is_excluded truthy andb];
    [reflexivity|].
  destruct (make_response hit) as [?|r]; cbn [mbind result_bind]; [reflexivity|].
  destruct (Z.of_nat (length (acc ++ [r])) >=? limit); [reflexivity|apply IH].
Qed.

(** X5.  An [exclude_id] that is the empty string excludes nothing: the
    search asks the store for [limit] rows without a filter and returns what
    it returns without an [exclude_id]. *)
Theorem empty_exclude_id_excludes_nothing
    (self : VectorDatabase C) (query_description : string) (limit : Z) :
  VectorDB.search_similar_profiles (T := T) self query_description limit (Some "")
  = VectorDB.search_similar_profiles self query_description limit None
  /\ n_results limit (Some "") = limit
  /\ where_clause (Some "") = None.
Proof.
  split; [|split; [apply Z.add_0_r|reflexivity]].
  unfold VectorDB.search_similar_profiles.
  destruct (generate_embedding query_description) as [?|embedding]; [reflexivity|].
  cbn [mbind result_bind n_results where_clause truthy_opt truthy].
  destruct (coll_query _ _ _ _) as [?|res]; [reflexivity|]. cbn [mbind result_bind].
  apply search_loop_empty_exclude_id.
Qed.

(** X6.  A response of [POST /profiles/search] echoes the query, lists what
    [search_similar_profiles] returned, and its [total_results] is the
    number of listed profiles, between 0 and the requested limit, itself at
    most 50. *)
Theorem search_route_counts_its_results
    (vector_db : VectorDatabase C) (request : SimilaritySearchRequest)
    (response : SimilaritySearchResponse T F) :
  Main.post_profiles_search vector_db request = inr response ->
  rs_query response = rq_query_description request
  /\ VectorDB.search_similar_profiles vector_db (rq_query_description request)
       (rq_limit request) (rq_exclude_id request) = inr (rs_results response)
  /\ rs_total_results response = Z.of_nat (length (rs_results response))
  /\ 0 <= rs_total_results response <= rq_limit request
  /\ rq_limit request <= 50.
Proof.
  unfold Main.post_profiles_search.
  destruct (valid_SimilaritySearchRequest request) eqn:Hvalid; [|discriminate].
  apply schema_bounds_limit in Hvalid. unfold Main.search_similar_profiles.
  destruct (Z.gtb_spec (rq_limit request) 50) as [Hover|_]; [lia|].
  destruct (VectorDB.search_similar_profiles vector_db _ _ _) as [e|results] eqn:Hsearch;
    cbn [mbind result_bind mret result_ret].
  - destruct e; discriminate.
  - cbn [Main.reraise_as_500]. intros [= <-]. cbn [rs_query rs_results rs_total_results].
    apply search_length in Hsearch. repeat split; try reflexivity; lia.
Qed.

Lemma mapM_inr {A B : Type} (f : A -> result B) (l : list A) (ys : list B) :
  mapM f l = inr ys -> Forall2 (fun x y => f x = inr y) l ys.
Proof.
  revert ys. induction l as [|x l IH]; intros ys; cbn [mapM].
  - intros [= <-]. constructor.
  - destruct (f x) as [?|y] eqn:Hx; cbn [mbind result_bind]; [discriminate|].
    destruct (mapM f l) as [?|k]; cbn [mbind result_bind mret result_ret]; [discriminate|].
    intros [= <-]. constructor; [exact Hx|]. apply IH. reflexivity.
Qed.

Lemma mapM_inl {A B : Type} (f : A -> result B) (l : list A) (x : A) :
  In x l -> is_ok (f x) = false -> is_ok (mapM f l) = false.
Proof.
  induction l as [|x' l IH]; intros Hin Hfails; [contradiction|]. cbn [mapM].
  destruct (f x') as [?|y] eqn:Hx'; cbn [mbind result_bind]; [reflexivity|].
  destruct Hin as [->|Hin]; [rewrite Hx' in Hfails; discriminate|].
  specialize (IH Hin Hfails).
  destruct (mapM f l); cbn [mbind result_bind mret result_ret]; [reflexivity|discriminate].
Qed.

(** X7.  When [get_all_profiles] returns, whatever pydantic converts, it
    returns one profile per row the store answered, in the order of the
    rows; each carries the id and the document of its row and a
    [created_at], its name, age and location are what pydantic made of the
    [name], [age] and [location] entries of the row's metadata, and it
    satisfies the bounds of the [PersonProfile] schema. *)
Theorem listing_returns_one_valid_profile_per_row
    (self : VectorDatabase C) (limit : Z) (profiles : list (PersonProfile T)) :
  VectorDB.get_all_profiles self limit = inr profiles ->
  exists results,
    coll_get_limit (collection self) limit = inr results
    /\ length profiles = length (listed_rows results)
    /\ Forall2 (fun row p =>
                  let '(document, metadata, profile_id) := row in
                  pp_id p = Some profile_id /\ pp_description p = document
                  /\ pp_created_at p <> None
                  /\ (exists name,
                        metadata !! "name" = Some name /\ to_str name = Some (pp_name p))
                  /\ as_opt_int "age" (metadata !! "age") = inr (pp_age p)
                  /\ as_opt_str "location" (metadata !! "location") = inr (pp_location p)
                  /\ valid_PersonProfile p = true)
         (listed_rows results) profiles.
Proof.
  unfold VectorDB.get_all_profiles.
  destruct (coll_get_limit (collection self) limit) as [?|results]; [discriminate|].
  cbn [mbind result_bind]. intros Hmap. apply mapM_inr in Hmap.
  exists results. split; [reflexivity|]. split.
  - symmetry. exact (Forall2_length _ _ _ Hmap).
  - eapply Forall2_impl; [exact Hmap|].
    intros [[document metadata] profile_id] p Hmade. apply make_profile_valid. exact Hmade.
Qed.

(** X8.  One row that cannot be turned into a profile (for instance one
    whose metadata lacks [name] or [created_at]) makes the whole listing
    raise: [get_all_profiles] returns no profile at all, not even those of
    the rows before it, and [GET /profiles] raises as well. *)
Theorem one_unreadable_row_fails_the_listing
    (self : VectorDatabase C) (limit : Z) (results : GetResult)
    (document : string) (metadata : Metadata) (profile_id : string) :
  coll_get_limit (collection self) limit = inr results ->
  In (document, metadata, profile_id) (listed_rows results) ->
  metadata !! "name" = None \/ metadata !! "created_at" = None ->
  is_ok (VectorDB.get_all_profiles (T := T) self limit) = false
  /\ is_ok (Main.get_profiles (T := T) self limit) = false.
Proof.
  intros Hget Hin Hmissing.
  assert (Hfails : is_ok (VectorDB.get_all_profiles (T := T) self limit) = false).
  { unfold VectorDB.get_all_profiles. rewrite Hget. cbn [mbind result_bind].
    eapply mapM_inl; [exact Hin|]. cbn beta iota.
    apply make_profile_missing_key. exact Hmissing. }
  split; [exact Hfails|].
  unfold Main.get_profiles, Main.get_all_profiles.
  destruct (limit >? 1000); [reflexivity|].
  destruct (VectorDB.get_all_profiles self limit) as [e|?]; [|discriminate].
  destruct e; reflexivity.
Qed.

End SearchAndListFacts.

Section ProfileExamples.
Import VectorDB Reference Samples MoreSamples.

(** Sarah, read back from the database that holds Alex and Sarah. *)
Lemma fetched_profile_satisfies_schema_witness :
  pp_id (stored_profile sarah "id-sarah" noon) = Some "id-sarah"
  /\ valid_PersonProfile (stored_profile sarah "id-sarah" noon) = true.
Proof.
  destruct (fetched_profile_satisfies_schema two_profiles_db "id-sarah"
              (stored_profile sarah "id-sarah" noon))
    as (Hid & Hvalid & _).
  - reflexivity.
  - split; [exact Hid|exact Hvalid].
Defined.

(** An age another writer stored as the string ["28"], or as the float
    28.0, is converted by the reference conversion; ["28 years"] is not. *)
Example stored_ages_are_converted :
  as_opt_int "age" (Some (MStr "28")) = inr (Some 28)
  /\ as_opt_int "age" (Some (MFloat 28)) = inr (Some 28)
  /\ as_opt_int "age" (Some (MStr "28 years")) = inl (ValidationError "age")
  /\ PersonProfile_init "id-alex" (MStr "Alex") (pc_description alex)
       (Some (MStr "28")) (Some (MStr "San Francisco")) noon
     = inr (stored_profile alex "id-alex" noon).
Proof. repeat split; reflexivity. Qed.

(** The legacy entry is held, and answered 404. *)
Lemma unreadable_entry_is_reported_missing_witness :
  VectorDB.get_person_profile (T := datetime) mixed_db "legacy" = None
  /\ Main.get_person_profile (T := datetime) mixed_db "legacy"
     = inl (HTTPException 404 "Profile with ID legacy not found").
Proof.
  apply (unreadable_entry_is_reported_missing (T := datetime) mixed_db "legacy"
           {| g_ids := ["legacy"]; g_documents := ["an entry without metadata"];
              g_metadatas := [∅] |} ∅ []).
  - reflexivity.
  - discriminate.
  - reflexivity.
  - left. reflexivity.
Defined.

(** Alex, added to the empty database. *)
Lemma added_profile_is_what_the_store_was_given_witness :
  strip (pc_description alex) <> ""
  /\ Main.add_person_profile empty_db alex "id-alex" noon
     = (inr {| Main.message := "Profile added successfully"; Main.profile_id := "id-alex";
               Main.status := "success" |},
        snd (VectorDB.add_person_profile empty_db alex "id-alex" noon)).
Proof.
  destruct (added_profile_is_what_the_store_was_given empty_db
              (snd (VectorDB.add_person_profile empty_db alex "id-alex" noon))
              alex "id-alex" "id-alex" noon)
    as (_ & Hnot_blank & _ & _ & _ & Hroute).
  - reflexivity.
  - split; [exact Hnot_blank|exact Hroute].
Defined.

(** One match asked for among two profiles. *)
Lemma search_never_exceeds_limit_witness :
  Z.of_nat (length nearest_match) <= Z.max 1 1.
Proof.
  apply (search_never_exceeds_limit two_profiles_db hiking_query 1 None nearest_match).
  reflexivity.
Defined.

(** A search for two matches through the route. *)
Lemma search_route_counts_its_results_witness :
  rs_query two_matches_response = hiking_query
  /\ rs_total_results two_matches_response
     = Z.of_nat (length (rs_results two_matches_response)).
Proof.
  destruct (search_route_counts_its_results two_profiles_db two_matches_search
              two_matches_response)
    as (Hquery & _ & Htotal & _).
  - reflexivity.
  - split; [exact Hquery|exact Htotal].
Defined.

(** The listing of the two profiles. *)
Lemma listing_returns_one_valid_profile_per_row_witness :
  exists results,
    coll_get_limit (collection two_profiles_db) 10 = inr results
    /\ length listed_profiles = length (listed_rows results).
Proof.
  destruct (listing_returns_one_valid_profile_per_row two_profiles_db 10 listed_profiles)
    as (results & Hget & Hlength & _).
  - reflexivity.
  - exists results. split; [exact Hget|exact Hlength].
Defined.

(** The legacy entry, third of three, makes the listing of all three
    fail. *)
Lemma one_unreadable_row_fails_the_listing_witness :
  is_ok (VectorDB.get_all_profiles (T := datetime) mixed_db 10) = false
  /\ is_ok (Main.get_profiles (T := datetime) mixed_db 10) = false.
Proof.
  apply (one_unreadable_row_fails_the_listing (T := datetime) mixed_db 10
           (get_result_of (entries (collection mixed_db)))
           "an entry without metadata" ∅ "legacy").
  - reflexivity.
  - right. right. left. reflexivity.
  - left. reflexivity.
Defined.

End ProfileExamples.

(** ** Stripping, and what the model is asked *)

Section StripFacts.

Lemma rstrip_cons_not_space (c : ascii) (rest : string) :
  is_space c = false -> rstrip (String c rest) = String c (rstrip rest).
Proof. intros Hc. cbn [rstrip]. rewrite Hc. destruct (rstrip rest); reflexivity. Qed.

Lemma lstrip_starts_not_space (s : string) (c : ascii) (rest : string) :
  lstrip s = String c rest -> is_space c = false.
Proof.
  induction s as [|c' s IH]; cbn [lstrip]; [discriminate|].
  destruct (is_space c') eqn:Hc'; [exact IH|]. intros [= <- _]. exact Hc'.
Qed.

Lemma rstrip_idempotent (s : string) : rstrip (rstrip s) = rstrip s.
Proof.
  induction s as [|c s IH]; [reflexivity|]. cbn [rstrip].
  destruct (rstrip s) as [|c' kept] eqn:Hkept.
  - destruct (is_space c) eqn:Hc; [reflexivity|]. cbn [rstrip]. rewrite Hc. reflexivity.
  - cbn [rstrip]. cbn [rstrip] in IH. rewrite IH. reflexivity.
Qed.

Lemma strip_idempotent (s : string) : strip (strip s) = strip s.
Proof.
  unfold strip. destruct (lstrip s) as [|c rest] eqn:Hleft; [reflexivity|].
  pose proof (lstrip_starts_not_space _ _ _ Hleft) as Hc.
  rewrite (rstrip_cons_not_space _ _ Hc). cbn [lstrip]. rewrite Hc.
  rewrite (rstrip_cons_not_space _ _ Hc), rstrip_idempotent. reflexivity.
Qed.

Lemma lstrip_all_space (p : string) : all_space p = true -> lstrip p = "".
Proof.
  induction p as [|c p IH]; [reflexivity|]. cbn [all_space lstrip].
  intros Hp. apply andb_prop in Hp as [Hc Hp]. rewrite Hc. exact (IH Hp).
Qed.

Lemma rstrip_all_space (p : string) : all_space p = true -> rstrip p = "".
Proof.
  induction p as [|c p IH]; [reflexivity|]. cbn [all_space rstrip].
  intros Hp. apply andb_prop in Hp as [Hc Hp]. rewrite (IH Hp), Hc. reflexivity.
Qed.

Lemma lstrip_app_left (p s : string) :
  all_space p = true -> lstrip (p +:+ s) = lstrip s.
Proof.
  induction p as [|c p IH]; [reflexivity|]. cbn [all_space].
  intros Hp. apply andb_prop in Hp as [Hc Hp].
  change (String c p +:+ s) with (String c (p +:+ s)). cbn [lstrip]. rewrite Hc. exact (IH Hp).
Qed.

Lemma rstrip_app_right (s p : string) :
  all_space p = true -> rstrip (s +:+ p) = rstrip s.
Proof.
  intros Hp. induction s as [|c s IH].
  - exact (rstrip_all_space _ Hp).
  - change (String c s +:+ p) with (String c (s +:+ p)). cbn [rstrip]. rewrite IH. reflexivity.
Qed.

Lemma strip_app_right (s p : string) :
  all_space p = true -> strip (s +:+ p) = strip s.
Proof.
  intros Hp. unfold strip. induction s as [|c s IH].
  - change ("" +:+ p) with p. rewrite (lstrip_all_space _ Hp). reflexivity.
  - change (String c s +:+ p) with (String c (s +:+ p)). cbn [lstrip].
    destruct (is_space c); [exact IH|].
    change (String c (s +:+ p)) with (String c s +:+ p). apply rstrip_app_right. exact Hp.
Qed.

Lemma strip_padded (left_pad text right_pad : string) :
  all_space left_pad = true -> all_space right_pad = true ->
  strip (left_pad +:+ text +:+ right_pad) = strip text.
Proof.
  intros Hleft Hright. unfold strip at 1. rewrite (lstrip_app_left _ _ Hleft).
  exact (strip_app_right _ _ Hright).
Qed.

End StripFacts.

Section ModelInputFacts.
Context {F : Type} `{SentenceTransformer F}.

(** X9.  [generate_embedding] either refuses a text that is blank once
    stripped, with [ValueError] and without consulting the model, or answers
    what the model answers on the stripped text; that text is never empty
    and stripping it again changes nothing. *)
Theorem model_is_asked_about_trimmed_text (text : string) :
  (strip text = ""
   /\ generate_embedding text = inl (ValueError "Text cannot be empty"))
  \/ (strip text <> ""
      /\ strip (strip text) = strip text
      /\ generate_embedding text = model_encode (strip text)).
Proof.
  destruct (strip text) as [|c rest] eqn:Hstrip.
  - left. split; [reflexivity|]. apply generate_embedding_blank. exact Hstrip.
  - right. split; [discriminate|]. split.
    + rewrite <- Hstrip. apply strip_idempotent.
    + rewrite <- Hstrip. apply generate_embedding_not_blank. rewrite Hstrip. discriminate.
Qed.

(** X10.  Whitespace around a text does not change its embedding, nor
    whether it is refused. *)
Theorem surrounding_whitespace_is_ignored (left_pad text right_pad : string) :
  all_space left_pad = true -> all_space right_pad = true ->
  generate_embedding (left_pad +:+ text +:+ right_pad) = generate_embedding text.
Proof.
  intros Hleft Hright. unfold generate_embedding.
  rewrite (strip_padded _ _ _ Hleft Hright). reflexivity.
Qed.

End ModelInputFacts.

Section BatchFacts.
Context {F : Type} `{EmbeddingServiceInit.BatchSentenceTransformer F}.
Import EmbeddingServiceInit.

Lemma truthy_false (s : string) : truthy s = false <-> s = "".
Proof. destruct s; split; intros Hs; try reflexivity; discriminate Hs. Qed.

Lemma clean_texts_all_blank (texts : list string) :
  Forall (fun text => strip text = "") texts -> clean_texts texts = [].
Proof.
  unfold clean_texts. induction 1 as [|text texts Hblank _ IH]; [reflexivity|].
  cbn [List.filter]. rewrite Hblank. exact IH.
Qed.

Lemma clean_texts_length (texts : list string) :
  (length (clean_texts texts) <= length texts)%nat
  /\ (Exists (fun text => strip text = "") texts ->
      (length (clean_texts texts) < length texts)%nat)
  /\ (Forall (fun text => strip text <> "") texts ->
      clean_texts texts = map strip texts).
Proof.
  unfold clean_texts. induction texts as [|text texts (IHle & IHlt & IHall)].
  - split; [cbn; lia|]. split; [intros Hex; inversion Hex|reflexivity].
  - cbn [List.filter]. destruct (truthy (strip text)) eqn:Htext; cbn [map length].
    + split; [lia|]. split.
      * intros Hex. inversion Hex as [? ? Hblank|? ? Hrest]; subst.
        -- rewrite Hblank in Htext. discriminate Htext.
        -- specialize (IHlt Hrest). lia.
      * intros Hall. inversion Hall as [|? ? _ Hrest]; subst. f_equal. exact (IHall Hrest).
    + split; [lia|]. split; [intros _; lia|].
      intros Hall. inversion Hall as [|? ? Hnot_blank _]; subst.
      apply truthy_false in Htext. contradiction.
Qed.

(** X11.  [generate_embeddings_batch] drops the texts that are blank once
    stripped and hands the model the others, stripped, in their order; so
    the model never sees an empty or unstripped text, the answer is
    [ValueError] exactly when nothing is left (an empty list included), and
    as soon as one text was blank the model is asked about fewer texts than
    were given. *)
Theorem batch_drops_blank_texts (texts : list string) :
  Forall (fun text => text <> "" /\ strip text = text) (clean_texts texts)
  /\ (Forall (fun text => strip text = "") texts ->
      generate_embeddings_batch texts = inl (ValueError "No valid texts provided"))
  /\ (Exists (fun text => strip text <> "") texts ->
      clean_texts texts <> []
      /\ generate_embeddings_batch texts = model_encode_batch (clean_texts texts))
  /\ (Exists (fun text => strip text = "") texts ->
      (length (clean_texts texts) < length texts)%nat)
  /\ (Forall (fun text => strip text <> "") texts ->
      clean_texts texts = map strip texts).
Proof.
  split; [|split; [|split; [|split]]].
  - unfold clean_texts. apply List.Forall_forall. intros cleaned Hin.
    apply in_map_iff in Hin as [text [<- Hin]]. apply List.filter_In in Hin as [_ Htruthy].
    split; [|apply strip_idempotent]. destruct (strip text); [discriminate|discriminate].
  - intros Hblank. unfold generate_embeddings_batch.
    rewrite (clean_texts_all_blank _ Hblank). reflexivity.
  - intros Hsome.
    assert (Hleft : clean_texts texts <> []).
    { unfold clean_texts. induction Hsome as [text texts Htext|text texts _ IH];
        cbn [List.filter].
      - destruct (strip text); [contradiction|]. cbn [truthy map]. discriminate.
      - destruct (truthy (strip text)); [cbn [map]; discriminate|exact IH]. }
    split; [exact Hleft|]. unfold generate_embeddings_batch.
    destruct (clean_texts texts); [contradiction|reflexivity].
  - apply clean_texts_length.
  - apply clean_texts_length.
Qed.

End BatchFacts.

(** ** More on the cosine similarity *)

Section CosineSymmetry.

Lemma SFmul_comm (x y : SpecFloat.spec_float) : SF64mul x y = SF64mul y x.
Proof.
  unfold SF64mul, SpecFloat.SFmul.
  destruct x as [sx|sx| |sx mx ex], y as [sy|sy| |sy my ey];
    try reflexivity; rewrite ?(xorb_comm sx sy); try reflexivity.
  rewrite (Pos.mul_comm mx my), (Z.add_comm ex ey). reflexivity.
Qed.

Lemma float_mul_comm (x y : float) : (x * y = y * x)%float.
Proof. apply Prim2SF_inj. rewrite !mul_spec. apply SFmul_comm. Qed.

Lemma dot_sum_comm (a b : list float) : dot_sum a b = dot_sum b a.
Proof.
  unfold dot_sum. generalize (f_zero (F := float)).
  revert b. induction a as [|x a IH]; intros [|y b] acc; try reflexivity.
  cbn [combine fold_left fst snd f_add f_mul binary64].
  rewrite (float_mul_comm x y). apply IH.
Qed.

(** X12.  In binary64, with the dot products accumulated from the left,
    [compute_similarity] is symmetric: exchanging the two vectors gives the
    same float, for all vectors (of equal length or not, with NaN or
    infinite components or not). *)
Theorem compute_similarity_is_symmetric (embedding1 embedding2 : list float) :
  compute_similarity embedding1 embedding2 = compute_similarity embedding2 embedding1.
Proof.
  unfold compute_similarity, compute_similarity_body, np_dot, np_linalg_norm.
  cbn [blas_dot left_to_right].
  rewrite (Nat.eqb_sym (length embedding2) (length embedding1)).
  destruct (length embedding1 =? length embedding2)%nat; [|reflexivity].
  cbn [mbind result_bind mret result_ret f_eqb f_zero f_one f_ltb f_div f_mul f_sqrt
       binary64].
  rewrite (orb_comm (PrimFloat.eqb (PrimFloat.sqrt (dot_sum embedding2 embedding2)) 0)).
  rewrite (dot_sum_comm embedding2 embedding1).
  rewrite (float_mul_comm (PrimFloat.sqrt (dot_sum embedding2 embedding2))
             (PrimFloat.sqrt (dot_sum embedding1 embedding1))).
  reflexivity.
Qed.

End CosineSymmetry.

Section CosineSign.
Context {blas : Blas float}.

(** X13.  In binary64, whatever routine computes the dot products: two
    vectors whose computed dot product is zero or negative (orthogonal or
    opposed vectors) get similarity 0.0, the clamp hiding how opposed they
    are, as long as the product of their norms is a positive finite float.
    When the dot product and the norms overflow together the quotient is NaN
    and the clamp answers 1.0 instead: [[2^700]] against [[-2^700]]. *)
Theorem opposed_vectors_get_zero (embedding1 embedding2 : list float) :
  (PrimFloat.leb (blas_dot embedding1 embedding2) 0 = true ->
   PrimFloat.ltb 0 (np_linalg_norm embedding1 * np_linalg_norm embedding2) = true ->
   PrimFloat.ltb (np_linalg_norm embedding1 * np_linalg_norm embedding2) infinity = true ->
   compute_similarity embedding1 embedding2 = 0%float)
  /\ blas_dot (Blas := left_to_right) [0x1p700%float] [(-0x1p700)%float] = neg_infinity
  /\ compute_similarity (blas := left_to_right) [0x1p700%float] [(-0x1p700)%float]
     = 1%float.
Proof.
  split; [|split; vm_compute; reflexivity].
  intros Hdot Hpositive Hfinite.
  unfold compute_similarity, compute_similarity_body, np_dot.
  destruct (length embedding1 =? length embedding2)%nat; [|reflexivity].
  cbn [mbind result_bind mret result_ret f_eqb f_zero f_one f_ltb f_div f_mul binary64].
  destruct (PrimFloat.eqb _ 0 || PrimFloat.eqb _ 0); [reflexivity|].
  unfold py_max, py_min.
  exact (nonpositive_quotient_clamped _ _ Hdot Hpositive Hfinite).
Qed.

End CosineSign.

Section CosineSignExamples.

(** The vectors (1, 2) and (-1, -2). *)
Lemma opposed_vectors_get_zero_witness :
  compute_similarity [1%float; 2%float] [(-1)%float; (-2)%float] = 0%float.
Proof.
  apply (opposed_vectors_get_zero (blas := left_to_right) [1%float; 2%float]
           [(-1)%float; (-2)%float]); reflexivity.
Defined.

End CosineSignExamples.

(** ** Constructing the services *)

Section ConstructionFacts.
Context {M : Type} `{EmbeddingServiceInit.ModelLoader M}.
Import EmbeddingServiceInit.

(** X14.  [EmbeddingService.__init__] keeps the requested model name (the
    argument, or [EMBEDDING_MODEL], or the default) whichever model it ends
    up with: when the requested model loads it is the model of the service;
    when it does not, the fallback model is loaded in its place and
    [model_name] still names the requested one; and the constructor raises
    only when the fallback fails too, with the exception of the fallback. *)
Theorem embedding_service_falls_back (environ : gmap string string) (name : option string) :
  let requested := py_or name (os_getenv environ "EMBEDDING_MODEL" "all-MiniLM-L6-v2") in
  let built := EmbeddingService_init environ name in
  (forall loaded, SentenceTransformer_new requested = inr loaded ->
     built = inr {| model_name := requested; model := loaded |})
  /\ (forall loaded, is_ok (SentenceTransformer_new requested) = false ->
        SentenceTransformer_new FALLBACK_MODEL = inr loaded ->
        built = inr {| model_name := requested; model := loaded |})
  /\ (forall service, built = inr service -> model_name service = requested)
  /\ (forall e, built = inl e ->
        is_ok (SentenceTransformer_new requested) = false
        /\ SentenceTransformer_new FALLBACK_MODEL = inl e).
Proof.
  cbv zeta. unfold EmbeddingService_init, _load_model.
  set (requested := py_or name _).
  destruct (SentenceTransformer_new requested) as [first|loaded] eqn:Hrequested;
    cbn [mbind result_bind mret result_ret is_ok].
  - destruct (SentenceTransformer_new FALLBACK_MODEL) as [second|fallback] eqn:Hfallback;
      cbn [mbind result_bind mret result_ret].
    + split; [intros loaded Hloaded; discriminate Hloaded|].
      split; [intros loaded _ Hloaded; discriminate Hloaded|].
      split; [intros service Hbuilt; discriminate Hbuilt|].
      intros e [= <-]. split; reflexivity.
    + split; [intros loaded Hloaded; discriminate Hloaded|].
      split; [intros loaded _ [= <-]; reflexivity|].
      split; [intros service [= <-]; reflexivity|].
      intros e Hbuilt. discriminate Hbuilt.
  - split; [intros loaded' [= <-]; reflexivity|].
    split; [intros loaded' Hfailed; discriminate Hfailed|].
    split; [intros service [= <-]; reflexivity|].
    intros e Hbuilt. discriminate Hbuilt.
Qed.

End ConstructionFacts.

Section OpeningFacts.
Context {Cl C M : Type}.
Context `{VectorDBInit.ChromaClient Cl C} `{EmbeddingServiceInit.ModelLoader M}.
Import VectorDB VectorDBInit EmbeddingServiceInit.

(** X15.  When [VectorDatabase.__init__] succeeds, the database records the
    directory and the collection name taken from the arguments, else from
    [CHROMA_PERSIST_DIRECTORY] and [COLLECTION_NAME], else the defaults (an
    empty argument counting as absent); the client was opened on that
    directory, the embedding service was built from the environment, and
    the collection is the existing one of that name, the client untouched,
    or else a newly created one. *)
Theorem opened_database_is_configured
    (environ : gmap string string) (directory name : option string)
    (db : VectorDatabase C) (service : EmbeddingService M) (client' : Cl) :
  VectorDatabase_init environ directory name = inr (db, service, client') ->
  persist_directory db
  = py_or directory (os_getenv environ "CHROMA_PERSIST_DIRECTORY" "./chroma_db")
  /\ collection_name db = py_or name (os_getenv environ "COLLECTION_NAME" "person_profiles")
  /\ EmbeddingService_init environ None = inr service
  /\ exists client,
       PersistentClient (persist_directory db) = inr client
       /\ ((client_get_collection client (collection_name db) = inr (collection db)
            /\ client' = client)
           \/ (is_ok (client_get_collection client (collection_name db)) = false
               /\ client_create_collection client (collection_name db)
                    {[ "description" := "Person profiles for dating app matching" ]}
                  = (inr (collection db), client'))).
Proof.
  unfold VectorDatabase_init, _get_or_create_collection.
  set (directory' := py_or directory _). set (name' := py_or name _).
  destruct (PersistentClient directory') as [?|client] eqn:Hclient; [discriminate|].
  cbn [mbind result_bind].
  destruct (EmbeddingService_init environ None) as [?|service']; [discriminate|].
  cbn [mbind result_bind].
  destruct (client_get_collection client name') as [?|existing] eqn:Hget.
  - destruct (client_create_collection client name' _) as [[?|created] client''] eqn:Hcreate;
      cbn [mbind result_bind mret result_ret]; [discriminate|].
    intros [= <- <- <-]. cbn [persist_directory collection_name collection].
    repeat split. exists client. split; [exact Hclient|]. right.
    rewrite Hget. split; [reflexivity|exact Hcreate].
  - cbn [mbind result_bind mret result_ret].
    intros [= <- <- <-]. cbn [persist_directory collection_name collection].
    repeat split. exists client. split; [exact Hclient|]. left.
    split; [exact Hget|reflexivity].
Qed.

End OpeningFacts.

(** ** Preparing the working directory *)

Section SetupFacts.
Import StartServer.

Lemma write_text_other (fs : FileSystem) (path content other : string) :
  other <> path -> snd (write_text fs path content) !! other = fs !! other.
Proof.
  intros Hother. unfold write_text.
  destruct (fs !! path) as [[?|]|]; cbn [snd]; try reflexivity;
    apply lookup_insert_ne; congruence.
Qed.

Lemma mkdir_exist_ok_other (fs : FileSystem) (path other : string) :
  other <> path -> snd (mkdir_exist_ok fs path) !! other = fs !! other.
Proof.
  intros Hother. unfold mkdir_exist_ok.
  destruct (fs !! path) as [[?|]|]; cbn [snd]; try reflexivity.
  apply lookup_insert_ne. congruence.
Qed.

Lemma mkdir_exist_ok_keeps (fs : FileSystem) (path : string) (node : Node) :
  fs !! path = Some node -> snd (mkdir_exist_ok fs path) = fs.
Proof. intros Hnode. unfold mkdir_exist_ok. rewrite Hnode. destruct node; reflexivity. Qed.

(** The file system after the first half of [setup_environment]. *)
Lemma setup_environment_env (fs : FileSystem) :
  exists fs1 written,
    setup_environment fs
    = match written with
      | inl e => (inl e, fs1)
      | inr _ => mkdir_exist_ok fs1 "chroma_db"
      end
    /\ (forall other, other <> ".env" -> fs1 !! other = fs !! other)
    /\ (forall node, fs !! ".env" = Some node -> fs1 = fs /\ written = inr tt)
    /\ (fs !! ".env" = None ->
        match fs !! ".env.example" with
        | Some (File content) => written = inr tt /\ fs1 = <[".env" := File content]> fs
        | Some Dir => written = inl (ExternalError "IsADirectoryError") /\ fs1 = fs
        | None => written = inr tt /\ fs1 = <[".env" := File default_env_content]> fs
        end).
Proof.
  unfold setup_environment.
  destruct (fs !! ".env") as [node|] eqn:Henv.
  - exists fs, (inr tt). split; [reflexivity|]. split; [reflexivity|]. split.
    + intros ? _. split; reflexivity.
    + discriminate.
  - unfold read_text, write_text. rewrite Henv.
    destruct (fs !! ".env.example") as [[content|]|] eqn:Hexample.
    + exists (<[".env" := File content]> fs), (inr tt). split; [reflexivity|].
      split; [intros other Hother; apply lookup_insert_ne; congruence|].
      split; [discriminate|]. intros _. split; reflexivity.
    + exists fs, (inl (ExternalError "IsADirectoryError")). split; [reflexivity|].
      split; [reflexivity|]. split; [discriminate|]. intros _. split; reflexivity.
    + exists (<[".env" := File default_env_content]> fs), (inr tt). split; [reflexivity|].
      split; [intros other Hother; apply lookup_insert_ne; congruence|].
      split; [discriminate|]. intros _. split; reflexivity.
Qed.

(** X16.  [setup_environment] never replaces what is already there: an
    existing [.env] (file or directory) and an existing [chroma_db] are left
    as they are, and no path other than these two is touched, whether the
    function returns or raises. *)
Theorem setup_environment_keeps_what_exists (fs : FileSystem) :
  (forall node, fs !! ".env" = Some node -> snd (setup_environment fs) !! ".env" = Some node)
  /\ (forall node, fs !! "chroma_db" = Some node ->
        snd (setup_environment fs) !! "chroma_db" = Some node)
  /\ (forall other, other <> ".env" -> other <> "chroma_db" ->
        snd (setup_environment fs) !! other = fs !! other).
Proof.
  destruct (setup_environment_env fs) as (fs1 & written & -> & Hother & Hkept & _).
  split; [|split].
  - intros node Henv. destruct (Hkept node Henv) as [-> ->].
    rewrite mkdir_exist_ok_other by discriminate. exact Henv.
  - intros node Hdir. destruct written as [e|[]]; cbn [snd].
    + rewrite Hother by discriminate. exact Hdir.
    + rewrite (mkdir_exist_ok_keeps fs1 "chroma_db" node).
      * rewrite Hother by discriminate. exact Hdir.
      * rewrite Hother by discriminate. exact Hdir.
  - intros other Henv Hdir. destruct written as [e|[]]; cbn [snd].
    + apply Hother. exact Henv.
    + rewrite mkdir_exist_ok_other by exact Hdir. apply Hother. exact Henv.
Qed.

(** X17.  When [setup_environment] returns, [.env] exists and [chroma_db]
    is a directory, and running it again returns as well and changes
    nothing. *)
Theorem setup_environment_is_idempotent (fs : FileSystem) :
  fst (setup_environment fs) = inr tt ->
  is_Some (snd (setup_environment fs) !! ".env")
  /\ snd (setup_environment fs) !! "chroma_db" = Some Dir
  /\ setup_environment (snd (setup_environment fs)) = (inr tt, snd (setup_environment fs)).
Proof.
  intros Hdone.
  assert (Hpost : is_Some (snd (setup_environment fs) !! ".env")
                  /\ snd (setup_environment fs) !! "chroma_db" = Some Dir).
  { destruct (setup_environment_env fs) as (fs1 & written & Hsetup & Hother & Hkept & Hnew).
    rewrite Hsetup in Hdone |- *. destruct written as [e|[]]; [discriminate Hdone|].
    assert (Henv1 : is_Some (fs1 !! ".env")).
    { destruct (fs !! ".env") as [node|] eqn:Henv.
      - destruct (Hkept node eq_refl) as [-> _]. rewrite Henv. eexists. reflexivity.
      - specialize (Hnew eq_refl).
        destruct (fs !! ".env.example") as [[content|]|]; destruct Hnew as [Hw ->];
          try discriminate Hw; rewrite lookup_insert_eq; eexists; reflexivity. }
    rewrite mkdir_exist_ok_other by discriminate. split; [exact Henv1|].
    revert Hdone. unfold mkdir_exist_ok.
    destruct (fs1 !! "chroma_db") as [[content|]|] eqn:Hdir; cbn [fst snd];
      [discriminate| |]; intros _.
    - exact Hdir.
    - apply lookup_insert_eq. }
  destruct Hpost as [[node Henv] Hdir]. repeat split; [eexists; exact Henv|exact Hdir|].
  unfold setup_environment at 1. rewrite Henv. unfold mkdir_exist_ok. rewrite Hdir.
  reflexivity.
Qed.

(** X18.  [setup_environment] raises in two cases only: [.env] is missing
    while [.env.example] is a directory, and nothing is written; or
    [chroma_db] exists as a file, and then a missing [.env] has been written
    all the same before the exception, from [.env.example] when that is a
    file and with the default content when there is none. *)
Theorem setup_environment_failures (fs : FileSystem) :
  (is_ok (fst (setup_environment fs)) = false <->
     (fs !! ".env" = None /\ fs !! ".env.example" = Some Dir)
     \/ exists content, fs !! "chroma_db" = Some (File content))
  /\ (fs !! ".env" = None -> fs !! ".env.example" = Some Dir ->
      setup_environment fs = (inl (ExternalError "IsADirectoryError"), fs))
  /\ (forall content example, fs !! ".env" = None ->
        fs !! ".env.example" = Some (File example) ->
        fs !! "chroma_db" = Some (File content) ->
        setup_environment fs
        = (inl (ExternalError "FileExistsError"), <[".env" := File example]> fs))
  /\ (forall content, fs !! ".env" = None -> fs !! ".env.example" = None ->
        fs !! "chroma_db" = Some (File content) ->
        setup_environment fs
        = (inl (ExternalError "FileExistsError"),
           <[".env" := File default_env_content]> fs))
  /\ (forall content node, fs !! ".env" = Some node ->
        fs !! "chroma_db" = Some (File content) ->
        setup_environment fs = (inl (ExternalError "FileExistsError"), fs)).
Proof.
  split; [|split; [|split; [|split]]].
  - unfold setup_environment, read_text, write_text, mkdir_exist_ok.
    destruct (fs !! ".env") as [node|] eqn:Henv.
    + destruct (fs !! "chroma_db") as [[content|]|] eqn:Hdir; cbn [fst is_ok].
      * split; [intros _; right; eexists; reflexivity|reflexivity].
      * split; [discriminate|]. intros [[Hnone _]|[c Hc]]; [discriminate Hnone|discriminate Hc].
      * split; [discriminate|]. intros [[Hnone _]|[c Hc]]; [discriminate Hnone|discriminate Hc].
    + destruct (fs !! ".env.example") as [[example|]|] eqn:Hexample.
      * rewrite lookup_insert_ne by discriminate.
        destruct (fs !! "chroma_db") as [[content|]|] eqn:Hdir; cbn [fst is_ok].
        -- split; [intros _; right; eexists; reflexivity|reflexivity].
        -- split; [discriminate|].
           intros [[_ Hbad]|[c Hc]]; [discriminate Hbad|discriminate Hc].
        -- split; [discriminate|].
           intros [[_ Hbad]|[c Hc]]; [discriminate Hbad|discriminate Hc].
      * cbn [fst is_ok]. split; [intros _; left; split; reflexivity|reflexivity].
      * rewrite lookup_insert_ne by discriminate.
        destruct (fs !! "chroma_db") as [[content|]|] eqn:Hdir; cbn [fst is_ok].
        -- split; [intros _; right; eexists; reflexivity|reflexivity].
        -- split; [discriminate|].
           intros [[_ Hbad]|[c Hc]]; [discriminate Hbad|discriminate Hc].
        -- split; [discriminate|].
           intros [[_ Hbad]|[c Hc]]; [discriminate Hbad|discriminate Hc].
  - intros Henv Hexample. unfold setup_environment, read_text. rewrite Henv, Hexample.
    reflexivity.
  - intros content example Henv Hexample Hdir.
    unfold setup_environment, read_text, write_text, mkdir_exist_ok.
    rewrite Henv, Hexample.
    rewrite lookup_insert_ne by discriminate. rewrite Hdir. reflexivity.
  - intros content Henv Hexample Hdir.
    unfold setup_environment, write_text, mkdir_exist_ok. rewrite Henv, Hexample.
    rewrite lookup_insert_ne by discriminate. rewrite Hdir. reflexivity.
  - intros content node Henv Hdir.
    unfold setup_environment, mkdir_exist_ok. rewrite Henv, Hdir. reflexivity.
Qed.

End SetupFacts.

Section ConstructionExamples.
Import VectorDB Reference Samples MoreSamples EmbeddingServiceInit VectorDBInit StartServer.

(** A padded text and the text itself, with the reference model. *)
Lemma surrounding_whitespace_is_ignored_witness :
  generate_embedding (F := float) ("  " +:+ "hiking" +:+ " ")
  = generate_embedding (F := float) "hiking".
Proof.
  apply (surrounding_whitespace_is_ignored (F := float) "  " "hiking" " "); reflexivity.
Defined.

(** Only the fallback model can be loaded and another one is requested: the
    service is built, and its [model_name] is not the name of its model. *)
Example fallback_model_under_requested_name :
  EmbeddingService_init (H := only_fallback_loader) ∅ (Some "all-mpnet-base-v2")
  = inr {| model_name := "all-mpnet-base-v2"; model := "all-MiniLM-L6-v2" |}.
Proof. reflexivity. Qed.

(** An empty directory argument, a collection name from the environment. *)
Lemma opened_database_is_configured_witness :
  persist_directory expected_database = "./chroma_db"
  /\ collection_name expected_database = "profiles".
Proof.
  destruct (opened_database_is_configured (H := map_client) (H0 := only_fallback_loader)
              named_environ (Some "") None expected_database expected_service
              expected_client)
    as (Hdirectory & Hname & _).
  - reflexivity.
  - split; [exact Hdirectory|exact Hname].
Defined.

(** An empty working directory. *)
Lemma setup_environment_is_idempotent_witness :
  is_Some (snd (setup_environment ∅) !! ".env")
  /\ snd (setup_environment ∅) !! "chroma_db" = Some Dir
  /\ setup_environment (snd (setup_environment ∅)) = (inr tt, snd (setup_environment ∅)).
Proof.
  apply (setup_environment_is_idempotent ∅). reflexivity.
Defined.

End ConstructionExamples.
